(** * EssayGenius front end: credit gating, wizard recovery, job polling,
    profile bootstrap and CSRF middleware

  A shallow embedding of the TypeScript sources

    - frontend/app/components/essay-form.tsx   (module [EssayForm])
    - frontend/app/api/essay-api.ts            (module [EssayApi])
    - frontend/app/services/api.ts             (module [ServicesApi])
    - frontend/lib/supabase.ts, the part imported as lib/userProfile
                                               (module [UserProfile])
    - frontend/app/contexts/AuthContext.tsx    (module [AuthContext])
    - frontend/middleware/csrf.ts              (module [Csrf])

  React state is a record with one field per [useState] hook; an event
  handler is a function on that record.  Every awaited call is replaced by
  its outcome, passed in as an argument: [Resolved v] when the promise
  resolves and [Rejected e] when it rejects.  The FastAPI back end is not
  part of these sources; module [Backend] models its credit ledger and job
  store from the specification. *)

From Stdlib Require Import Ascii.
From stdpp Require Import base gmap strings list pretty.

Local Open Scope Z_scope.

(** ** JavaScript values *)

Module Js.

(** What a [catch] clause can receive: an [Error] object carrying a
    message, or any other thrown value. *)
Inductive Thrown : Type :=
| ThrownError (message : string)
| ThrownOther.

(** Outcome of an awaited promise. *)
Inductive Outcome (A : Type) : Type :=
| Resolved (a : A)
| Rejected (e : Thrown).
Global Arguments Resolved {A} a.
Global Arguments Rejected {A} e.

(** [s ? ... : ...] on a string: only the empty string is falsy. *)
Definition truthyString (s : string) : bool := negb (String.eqb s "").

(** Truthiness of a [string | null | undefined]. *)
Definition truthy (o : option string) : bool :=
  match o with
  | Some s => truthyString s
  | None => false
  end.

(** [x || d] on strings. *)
Definition orString (x : option string) (d : string) : string :=
  match x with
  | Some s => if truthyString s then s else d
  | None => d
  end.

(** [x || 0] on a number that may be missing; [0] is the only falsy
    integer. *)
Definition orZero (x : option Z) : Z :=
  match x with
  | Some n => if Z.eqb n 0 then 0 else n
  | None => 0
  end.

(** [hay.includes(needle)]. *)
Fixpoint includes (needle hay : string) : bool :=
  String.prefix needle hay ||
  match hay with
  | EmptyString => false
  | String _ rest => includes needle rest
  end.

(** [error instanceof Error ? error.message : fallback]. *)
Definition messageOr (e : Thrown) (fallback : string) : string :=
  match e with
  | ThrownError m => m
  | ThrownOther => fallback
  end.

End Js.

(** ** frontend/app/api/essay-api.ts: wire types *)

Module EssayApi.

Record Source : Type := {
  title : string;
  author : string;
  publication_info : string;
  author_last_name : string;
  publication_year : Z;
  url : string;
  apa_citation : string;
  relevance : string;
  details : string
}.

Record OutlineComponent : Type := {
  main_idea : string;
  subtopics : list string;
  sources : option (list Source)
}.

Record OutlineResponse : Type := {
  outline_components : list OutlineComponent
}.

Record OutlineRequest : Type := {
  topic : string;
  assignment_description : string;
  writing_style : string;
  word_count : Z;
  previous_essay : string;
  citation_format : string;
  num_sources : Z
}.

End EssayApi.

(** [ApiResponse]: the [result] of a finished outline-and-sources job. *)
Module ApiResponse.
Record t : Type := {
  outline : EssayApi.OutlineResponse;
  writing_analysis : string;
  sources : list (list EssayApi.Source)
}.
End ApiResponse.

(** The [result] of a finished essay job, as [pollEssayStatus] reads it. *)
Module EssayResult.
Record t : Type := {
  paper_id : option string
}.
End EssayResult.

(** [JobStatus], with the payload type of [result] left open: the outline
  job carries an [ApiResponse.t], the essay job an [EssayResult.t]. *)
Module JobStatus.
Inductive Status : Type := processing | completed | failed.

Record t (R : Type) : Type := {
  status : Status;
  progress : Z;
  stage : string;
  result : option R;
  error : option string
}.
Global Arguments status {R} _.
Global Arguments progress {R} _.
Global Arguments stage {R} _.
Global Arguments result {R} _.
Global Arguments error {R} _.
Global Arguments Build_t {R} _ _ _ _ _.

Definition status_eqb (a b : Status) : bool :=
  match a, b with
  | processing, processing | completed, completed | failed, failed => true
  | _, _ => false
  end.
End JobStatus.

(** [JobResponse]: [{ job_id, status, error? }]. *)
Module JobResponse.
Record t : Type := {
  job_id : string;
  status : string;
  error : option string
}.
End JobResponse.

(** ** frontend/app/components/essay-form.tsx *)

(** A row of the citation list ([PLACEHOLDER_CITATIONS], [convertedSources]). *)
Module Citation.
Record t : Type := {
  id : Z;
  title : string;
  author : string;
  year : Z;
  selected : bool;
  publisher : string;
  description : string;
  relevance : string;
  url : string
}.
End Citation.

Module OutlineSection.
Record t : Type := {
  title : string;
  subsections : list string
}.
End OutlineSection.

(** The outline as the wizard edits it ([PLACEHOLDER_OUTLINE]). *)
Module Outline.
Record t : Type := {
  title : string;
  sections : list OutlineSection.t
}.
End Outline.

Module FormData.
Record t : Type := {
  topic : string;
  wordCount : Z;
  citationFormat : string;
  writingStyle : string;
  selectedCitations : list Z;
  outline : option unit;  (* initialised to [null] and never assigned *)
  studentName : string;
  professorName : string;
  className : string
}.
End FormData.

Module GenerationStage.
Record t : Type := {
  writing : bool;
  plagiarism : bool;
  finalizing : bool
}.
End GenerationStage.

(** The request body built by [generateFinalEssay]. *)
Module EssayData.
Record t : Type := {
  title : string;
  outline : EssayApi.OutlineResponse;
  word_count : Z;
  sources : list EssayApi.Source;
  studentName : string;
  professorName : string;
  className : string;
  citation_format : string;
  writing_analysis : string
}.
End EssayData.

Module EssayForm.

Local Open Scope string_scope.

Definition PLACEHOLDER_CITATIONS : list Citation.t :=
  [ {| Citation.id := 1;
       Citation.title := "The Impact of Social Media on Modern Society";
       Citation.author := "John Smith";
       Citation.year := 2022;
       Citation.selected := false;
       Citation.publisher := "Journal of Digital Studies";
       Citation.description := "A comprehensive study examining how social media platforms have transformed societal interactions";
       Citation.relevance := "Directly addresses the impact of social media on communication patterns";
       Citation.url := "https://example.com/paper1" |};
    {| Citation.id := 2;
       Citation.title := "Digital Age Communication";
       Citation.author := "Sarah Johnson";
       Citation.year := 2021;
       Citation.selected := false;
       Citation.publisher := "Communications Quarterly";
       Citation.description := "Analysis of communication methods in the digital era";
       Citation.relevance := "Provides historical context and current trends in digital communication";
       Citation.url := "https://example.com/paper2" |};
    {| Citation.id := 3;
       Citation.title := "Understanding Social Networks";
       Citation.author := "Michael Brown";
       Citation.year := 2023;
       Citation.selected := false;
       Citation.publisher := "Tech & Society Review";
       Citation.description := "Research on social network dynamics and their influence on society";
       Citation.relevance := "Explores the psychological aspects of social media interaction";
       Citation.url := "https://example.com/paper3" |} ].

Definition PLACEHOLDER_OUTLINE : Outline.t :=
  {| Outline.title := "The Impact of Social Media";
     Outline.sections :=
       [ {| OutlineSection.title := "Introduction";
            OutlineSection.subsections :=
              ["Background of social media"; "Thesis statement"] |};
         {| OutlineSection.title := "Positive Effects";
            OutlineSection.subsections :=
              ["Enhanced connectivity"; "Business opportunities"; "Information sharing"] |};
         {| OutlineSection.title := "Negative Effects";
            OutlineSection.subsections :=
              ["Mental health concerns"; "Privacy issues"; "Addiction"] |};
         {| OutlineSection.title := "Conclusion";
            OutlineSection.subsections :=
              ["Summary of findings"; "Future implications"] |} ] |}.

(** [loadingStage] is ["sources" | "outline" | null]. *)
Inductive LoadingStage : Type := LoadingSources | LoadingOutline.

Definition totalSteps : Z := 6.

Record State : Type := mkState {
  currentStep : Z;
  formData : FormData.t;
  uploadedFile : option string;
  uploadedAssignment : option string;
  citations : list Citation.t;
  outline : Outline.t;
  pastedAssignment : string;
  writingAnalysis : string;
  pastedEssay : string;
  isLoading : bool;
  loadingProgress : Z;
  loadingStage : option LoadingStage;
  generationStage : GenerationStage.t;
  apiOutline : option EssayApi.OutlineResponse;
  apiSources : list (list EssayApi.Source);
  error : option string;
  jobId : option string;
  showCreditConfirmation : bool;
  userCredits : option Z;
  insufficientCredits : bool;
  essayJobId : option string;
  isGeneratingOutline : bool;
  isGeneratingEssay : bool
}.

(** The [useState] setters.  Each one replaces a single field and leaves
    the other hooks alone.  The hooks [promptQuality] and [isFileLoading],
    which only the input handlers touch, have no field. *)

Definition setCurrentStep (v : Z) (s : State) : State :=
  let '(mkState a b c d e f g h i j k l m n o p q r t u w x y) := s in
  mkState v b c d e f g h i j k l m n o p q r t u w x y.

Definition setFormData (v : FormData.t) (s : State) : State :=
  let '(mkState a b c d e f g h i j k l m n o p q r t u w x y) := s in
  mkState a v c d e f g h i j k l m n o p q r t u w x y.

Definition setUploadedFile (v : option string) (s : State) : State :=
  let '(mkState a b c d e f g h i j k l m n o p q r t u w x y) := s in
  mkState a b v d e f g h i j k l m n o p q r t u w x y.

Definition setUploadedAssignment (v : option string) (s : State) : State :=
  let '(mkState a b c d e f g h i j k l m n o p q r t u w x y) := s in
  mkState a b c v e f g h i j k l m n o p q r t u w x y.

Definition setCitations (v : list Citation.t) (s : State) : State :=
  let '(mkState a b c d e f g h i j k l m n o p q r t u w x y) := s in
  mkState a b c d v f g h i j k l m n o p q r t u w x y.

Definition setOutline (v : Outline.t) (s : State) : State :=
  let '(mkState a b c d e f g h i j k l m n o p q r t u w x y) := s in
  mkState a b c d e v g h i j k l m n o p q r t u w x y.

Definition setPastedAssignment (v : string) (s : State) : State :=
  let '(mkState a b c d e f g h i j k l m n o p q r t u w x y) := s in
  mkState a b c d e f v h i j k l m n o p q r t u w x y.

Definition setWritingAnalysis (v : string) (s : State) : State :=
  let '(mkState a b c d e f g h i j k l m n o p q r t u w x y) := s in
  mkState a b c d e f g v i j k l m n o p q r t u w x y.

Definition setPastedEssay (v : string) (s : State) : State :=
  let '(mkState a b c d e f g h i j k l m n o p q r t u w x y) := s in
  mkState a b c d e f g h v j k l m n o p q r t u w x y.

Definition setIsLoading (v : bool) (s : State) : State :=
  let '(mkState a b c d e f g h i j k l m n o p q r t u w x y) := s in
  mkState a b c d e f g h i v k l m n o p q r t u w x y.

Definition setLoadingProgress (v : Z) (s : State) : State :=
  let '(mkState a b c d e f g h i j k l m n o p q r t u w x y) := s in
  mkState a b c d e f g h i j v l m n o p q r t u w x y.

Definition setLoadingStage (v : option LoadingStage) (s : State) : State :=
  let '(mkState a b c d e f g h i j k l m n o p q r t u w x y) := s in
  mkState a b c d e f g h i j k v m n o p q r t u w x y.

Definition setGenerationStage (v : GenerationStage.t) (s : State) : State :=
  let '(mkState a b c d e f g h i j k l m n o p q r t u w x y) := s in
  mkState a b c d e f g h i j k l v n o p q r t u w x y.

Definition setApiOutline (v : option EssayApi.OutlineResponse) (s : State) : State :=
  let '(mkState a b c d e f g h i j k l m n o p q r t u w x y) := s in
  mkState a b c d e f g h i j k l m v o p q r t u w x y.

Definition setApiSources (v : list (list EssayApi.Source)) (s : State) : State :=
  let '(mkState a b c d e f g h i j k l m n o p q r t u w x y) := s in
  mkState a b c d e f g h i j k l m n v p q r t u w x y.

Definition setError (v : option string) (s : State) : State :=
  let '(mkState a b c d e f g h i j k l m n o p q r t u w x y) := s in
  mkState a b c d e f g h i j k l m n o v q r t u w x y.

Definition setJobId (v : option string) (s : State) : State :=
  let '(mkState a b c d e f g h i j k l m n o p q r t u w x y) := s in
  mkState a b c d e f g h i j k l m n o p v r t u w x y.

Definition setShowCreditConfirmation (v : bool) (s : State) : State :=
  let '(mkState a b c d e f g h i j k l m n o p q r t u w x y) := s in
  mkState a b c d e f g h i j k l m n o p q v t u w x y.

Definition setUserCredits (v : option Z) (s : State) : State :=
  let '(mkState a b c d e f g h i j k l m n o p q r t u w x y) := s in
  mkState a b c d e f g h i j k l m n o p q r v u w x y.

Definition setInsufficientCredits (v : bool) (s : State) : State :=
  let '(mkState a b c d e f g h i j k l m n o p q r t u w x y) := s in
  mkState a b c d e f g h i j k l m n o p q r t v w x y.

Definition setEssayJobId (v : option string) (s : State) : State :=
  let '(mkState a b c d e f g h i j k l m n o p q r t u w x y) := s in
  mkState a b c d e f g h i j k l m n o p q r t u v x y.

Definition setIsGeneratingOutline (v : bool) (s : State) : State :=
  let '(mkState a b c d e f g h i j k l m n o p q r t u w x y) := s in
  mkState a b c d e f g h i j k l m n o p q r t u w v y.

Definition setIsGeneratingEssay (v : bool) (s : State) : State :=
  let '(mkState a b c d e f g h i j k l m n o p q r t u w x y) := s in
  mkState a b c d e f g h i j k l m n o p q r t u w x v.

(** The state of a freshly mounted [EssayForm]. *)
Definition initialState : State :=
  {| currentStep := 1;
     formData :=
       {| FormData.topic := "";
          FormData.wordCount := 1500;
          FormData.citationFormat := "apa";
          FormData.writingStyle := "";
          FormData.selectedCitations := [];
          FormData.outline := None;
          FormData.studentName := "";
          FormData.professorName := "";
          FormData.className := "" |};
     uploadedFile := None;
     uploadedAssignment := None;
     citations := PLACEHOLDER_CITATIONS;
     outline := PLACEHOLDER_OUTLINE;
     pastedAssignment := "";
     writingAnalysis := "";
     pastedEssay := "";
     isLoading := false;
     loadingProgress := 0;
     loadingStage := None;
     generationStage :=
       {| GenerationStage.writing := false;
          GenerationStage.plagiarism := false;
          GenerationStage.finalizing := false |};
     apiOutline := None;
     apiSources := [];
     error := None;
     jobId := None;
     showCreditConfirmation := false;
     userCredits := None;
     insufficientCredits := false;
     essayJobId := None;
     isGeneratingOutline := false;
     isGeneratingEssay := false |}.

(** The network calls a handler issues, in order. *)
Inductive ApiCall : Type :=
| StartOutlineAndSourcesJob (request : EssayApi.OutlineRequest)
| GenerateEssayJob (essayData : EssayData.t)
| GetJobStatus (job : string)
| GetEssayStatus (job : string)
| GetUserCredits.

Notation "s |> f" := (f s) (at level 45, left associativity, only parsing).

Definition noGeneration : GenerationStage.t :=
  {| GenerationStage.writing := false;
     GenerationStage.plagiarism := false;
     GenerationStage.finalizing := false |}.

Definition guardrailTopicMessage : string :=
  "We detected something strange in your assignment topic and description. Please rewrite it.".

Definition guardrailOutlineMessage : string :=
  "We detected something strange in your outline. Please make adjustments to it.".

(** The test both submit handlers apply to [jobResponse.error]. *)
Definition isGuardrailError (e : string) : bool :=
  Js.includes "Malicious prompt" e || Js.includes "detected something strange" e.

(** The argument of [startOutlineAndSourcesJob] in [fetchSourcesAndOutline];
    [x || ""] on a string is [x]. *)
Definition outlineRequest (s : State) : EssayApi.OutlineRequest :=
  {| EssayApi.topic := FormData.topic (formData s);
     EssayApi.assignment_description := pastedAssignment s;
     EssayApi.writing_style := FormData.writingStyle (formData s);
     EssayApi.word_count := FormData.wordCount (formData s);
     EssayApi.previous_essay := pastedEssay s;
     EssayApi.citation_format := FormData.citationFormat (formData s);
     EssayApi.num_sources := 3 |}.

(** The [catch] block of [fetchSourcesAndOutline]. *)
Definition fetchSourcesAndOutline_catch (e : Js.Thrown) (s : State) : State :=
  s |> setError (Some (Js.messageOr e "Failed to generate outline and sources"))
    |> setIsLoading false
    |> setIsGeneratingOutline false
    |> setLoadingProgress 0
    |> setLoadingStage None.

(** [fetchSourcesAndOutline], given the outcome of the awaited
    [startOutlineAndSourcesJob]. *)
Definition fetchSourcesAndOutline
    (jobResponse : Js.Outcome JobResponse.t) (s : State) : State * list ApiCall :=
  let s0 :=
    s |> setIsLoading true
      |> setIsGeneratingOutline true
      |> setLoadingProgress 0
      |> setLoadingStage (Some LoadingSources)
      |> setError None in
  let s1 :=
    match jobResponse with
    | Js.Resolved r =>
        if Js.truthy (JobResponse.error r) then
          let e := Js.orString (JobResponse.error r) "" in
          if isGuardrailError e then
            s0 |> setError (Some guardrailTopicMessage)
               |> setIsLoading false
               |> setIsGeneratingOutline false
               |> setLoadingProgress 0
               |> setLoadingStage None
               |> setCurrentStep 1
          else fetchSourcesAndOutline_catch (Js.ThrownError e) s0
        else s0 |> setJobId (Some (JobResponse.job_id r))
    | Js.Rejected e => fetchSourcesAndOutline_catch e s0
    end in
  (s1, [StartOutlineAndSourcesJob (outlineRequest s)]).

(** [citation.author.split(' ').pop() || '']: what follows the last space. *)
Fixpoint hasSpace (s : string) : bool :=
  match s with
  | EmptyString => false
  | String c rest => Ascii.eqb c " "%char || hasSpace rest
  end.

Fixpoint lastWord (s : string) : string :=
  match s with
  | EmptyString => EmptyString
  | String c rest =>
      if hasSpace rest then lastWord rest
      else if Ascii.eqb c " "%char then rest else s
  end.

Definition selectedSource (c : Citation.t) : EssayApi.Source :=
  {| EssayApi.title := Citation.title c;
     EssayApi.author := Citation.author c;
     EssayApi.publication_info := Citation.publisher c;
     EssayApi.author_last_name := lastWord (Citation.author c);
     EssayApi.publication_year := Citation.year c;
     EssayApi.url := Citation.url c;
     EssayApi.apa_citation :=
       Citation.author c +:+ " (" +:+ pretty (Citation.year c) +:+ "). "
         +:+ Citation.title c +:+ ". " +:+ Citation.publisher c +:+ ".";
     EssayApi.relevance := Citation.relevance c;
     EssayApi.details := Citation.description c |}.

Definition outlineOfSections (o : Outline.t) : EssayApi.OutlineResponse :=
  {| EssayApi.outline_components :=
       map (fun section =>
              {| EssayApi.main_idea := OutlineSection.title section;
                 EssayApi.subtopics := OutlineSection.subsections section;
                 EssayApi.sources := None |})
           (Outline.sections o) |}.

Definition essayData (s : State) : EssayData.t :=
  {| EssayData.title := FormData.topic (formData s);
     EssayData.outline :=
       match apiOutline s with
       | Some o => o
       | None => outlineOfSections (outline s)
       end;
     EssayData.word_count := FormData.wordCount (formData s);
     EssayData.sources := map selectedSource (filter (fun c => Citation.selected c = true) (citations s));
     EssayData.studentName := Js.orString (Some (FormData.studentName (formData s))) "Your Name";
     EssayData.professorName := Js.orString (Some (FormData.professorName (formData s))) "Your Professor";
     EssayData.className := Js.orString (Some (FormData.className (formData s))) "Your Class";
     EssayData.citation_format := FormData.citationFormat (formData s);
     EssayData.writing_analysis :=
       Js.orString (Some (writingAnalysis s)) (FormData.writingStyle (formData s)) |}.

(** The [catch] block of [generateFinalEssay]. *)
Definition generateFinalEssay_catch (e : Js.Thrown) (s : State) : State :=
  s |> setError (Some (Js.messageOr e "Failed to start essay generation"))
    |> setIsLoading false
    |> setIsGeneratingEssay false
    |> setLoadingProgress 0
    |> setGenerationStage noGeneration.

(** [generateFinalEssay], given the outcome of the awaited
    [generateEssayJob]. *)
Definition generateFinalEssay
    (jobResponse : Js.Outcome JobResponse.t) (s : State) : State * list ApiCall :=
  let s0 :=
    s |> setIsLoading true
      |> setIsGeneratingEssay true
      |> setLoadingProgress 0
      |> setGenerationStage
           {| GenerationStage.writing := true;
              GenerationStage.plagiarism := false;
              GenerationStage.finalizing := false |}
      |> setError None in
  let s1 :=
    match jobResponse with
    | Js.Resolved r =>
        if Js.truthy (JobResponse.error r) then
          let e := Js.orString (JobResponse.error r) "" in
          if isGuardrailError e then
            s0 |> setError (Some guardrailOutlineMessage)
               |> setIsLoading false
               |> setIsGeneratingEssay false
               |> setLoadingProgress 0
               |> setGenerationStage noGeneration
               |> setCurrentStep 2
          else generateFinalEssay_catch (Js.ThrownError e) s0
        else s0 |> setEssayJobId (Some (JobResponse.job_id r))
    | Js.Rejected e => generateFinalEssay_catch e s0
    end in
  (s1, [GenerateEssayJob (essayData s)]).

(** [getStepTitle]. *)
Definition getStepTitle (s : State) : string :=
  if (currentStep s =? 1)%Z then "Essay Topic"
  else if (currentStep s =? 2)%Z then "Word Count"
  else if (currentStep s =? 3)%Z then "Format & Style"
  else if (currentStep s =? 4)%Z then "Writing Style Analysis"
  else if (currentStep s =? 5)%Z then "Citations"
  else if (currentStep s =? 6)%Z then "Outline"
  else "".

(** [getStepDescription]. *)
Definition getStepDescription (s : State) : string :=
  if (currentStep s =? 1)%Z then "Enter your essay topic and get instant feedback"
  else if (currentStep s =? 2)%Z then "Choose your desired essay length"
  else if (currentStep s =? 3)%Z then "Select citation format and writing style"
  else if (currentStep s =? 4)%Z then "Upload a previous essay to match your writing style"
  else if (currentStep s =? 5)%Z then "Choose relevant citations for your essay"
  else if (currentStep s =? 6)%Z then "Review and customize your essay outline"
  else "".

(** [handleStartOver]. *)
Definition handleStartOver (s : State) : State * list ApiCall :=
  let s1 :=
    if Js.truthy (error s) then
      (if isGeneratingEssay s || (currentStep s =? 4)%Z then s |> setCurrentStep 3
       else if isGeneratingOutline s || (currentStep s =? 3)%Z then s |> setCurrentStep 1
       else s)
      |> setError None
    else
      s |> setCurrentStep 1
        |> setPastedAssignment ""
        |> setPastedEssay ""
        |> setUploadedFile None
        |> setUploadedAssignment None
        |> setOutline PLACEHOLDER_OUTLINE
        |> setCitations PLACEHOLDER_CITATIONS
        |> setIsGeneratingOutline false
        |> setIsGeneratingEssay false
        |> setError None in
  (s1, []).

(** The early [if (error) return ...] of the component: the error view,
    with its start-over button, replaces the wizard. *)
Definition errorViewShown (s : State) : bool := Js.truthy (error s).

(** [isStepValid]; [topic.length] counts UTF-16 units, which [String.length]
    matches on ASCII text. *)
Definition isStepValid (s : State) : bool :=
  if (currentStep s =? 1)%Z then
    (20 <=? Z.of_nat (String.length (FormData.topic (formData s))))%Z
    && Js.truthyString (FormData.studentName (formData s))
    && Js.truthyString (FormData.professorName (formData s))
    && Js.truthyString (FormData.className (formData s))
  else if (currentStep s =? 3)%Z then
    Js.truthyString (FormData.citationFormat (formData s))
    && Js.truthyString (FormData.writingStyle (formData s))
  else true.

(** [handleGenerateOutline]. *)
Definition handleGenerateOutline (s : State) : State :=
  if negb (Js.truthyString (FormData.topic (formData s))) then
    s |> setError (Some "Please enter an essay topic")
  else if negb (Js.truthyString (FormData.studentName (formData s))) then
    s |> setError (Some "Please enter a student name")
  else if negb (Js.truthyString (FormData.professorName (formData s))) then
    s |> setError (Some "Please enter a professor name")
  else if negb (Js.truthyString (FormData.className (formData s))) then
    s |> setError (Some "Please enter a class name")
  else s |> setShowCreditConfirmation true.

(** [confirmAndGenerateOutline]: [fetchSourcesAndOutline] catches its own
    errors, then the credit count is fetched again. *)
Definition confirmAndGenerateOutline
    (jobResponse : Js.Outcome JobResponse.t) (updatedCredits : Js.Outcome Z)
    (s : State) : State * list ApiCall :=
  let '(s1, calls) := fetchSourcesAndOutline jobResponse (s |> setShowCreditConfirmation false) in
  let s2 :=
    match updatedCredits with
    | Js.Resolved c => s1 |> setUserCredits (Some c)
    | Js.Rejected e => s1 |> setError (Some (Js.messageOr e "Failed to generate outline"))
    end in
  (s2, (calls ++ [GetUserCredits])%list).

(** The mount effect [fetchCredits], given the outcome of the awaited
    [getUserCredits]. *)
Definition fetchCredits (credits : Js.Outcome Z) (s : State) : State * list ApiCall :=
  let s1 :=
    match credits with
    | Js.Resolved c =>
        s |> setUserCredits (Some c)
          |> setInsufficientCredits (c <? 2)%Z
    | Js.Rejected _ =>
        s |> setUserCredits (Some 0%Z)
          |> setInsufficientCredits true
    end in
  (s1, [GetUserCredits]).

(** The condition that renders the purchase-credits overlay.  It sits in
    the wizard's own [return], which the error view pre-empts;
    [parseInt(n.toString())] is [n] on an integer. *)
Definition creditsOverlayShown (s : State) : bool :=
  negb (errorViewShown s)
  && ((match userCredits s with
       | Some c => (c <=? 0)%Z
       | None => false
       end || insufficientCredits s)
      && (currentStep s =? 1)%Z).

Definition creditsOverlayHeading (s : State) : string :=
  if insufficientCredits s then "Insufficient Credits" else "No Credits Available".

Definition creditsOverlayText (s : State) : string :=
  if insufficientCredits s
  then "You need at least 2 credits to generate an essay. Purchase credits to continue."
  else "You need credits to generate essays. Purchase credits to continue creating high-quality essays instantly.".

Definition creditsOverlayLink : string := "/dashboard/buy-credits".

(** A row of [convertedSources]; [currentYear] is [new Date().getFullYear()]. *)
Definition convertedSource (currentYear : Z) (index : nat) (source : EssayApi.Source)
    : Citation.t :=
  {| Citation.id := (Z.of_nat index + 1)%Z;
     Citation.title := Js.orString (Some (EssayApi.title source)) "Unknown Title";
     Citation.author := Js.orString (Some (EssayApi.author source)) "Unknown";
     Citation.year :=
       if (EssayApi.publication_year source =? 0)%Z then currentYear
       else EssayApi.publication_year source;
     Citation.selected := false;
     Citation.publisher := Js.orString (Some (EssayApi.publication_info source)) "Academic Source";
     Citation.description := EssayApi.details source;
     Citation.relevance := Js.orString (Some (EssayApi.relevance source)) "Relevant to your topic";
     Citation.url := Js.orString (Some (EssayApi.url source)) "#" |}.

(** [convertedOutline]. *)
Definition convertedOutline (topic : string) (o : EssayApi.OutlineResponse) : Outline.t :=
  {| Outline.title := topic;
     Outline.sections :=
       map (fun component =>
              {| OutlineSection.title := EssayApi.main_idea component;
                 OutlineSection.subsections := EssayApi.subtopics component |})
           (EssayApi.outline_components o) |}.

(** The [catch] block of [pollJobStatus]. *)
Definition pollJobStatus_catch (pollError : Js.Thrown) (s : State) : State :=
  s |> setError (Some (Js.messageOr pollError "Failed to check job status"))
    |> setIsLoading false
    |> setIsGeneratingOutline false
    |> setLoadingProgress 0
    |> setLoadingStage None
    |> setJobId None.

(** [pollJobStatus], given the outcome of the awaited [getJobStatus]; the
    boolean is its return value ("done polling").  With [sources] of its
    declared type [Source[][]] the shape probing reduces to [flat()]. *)
Definition pollJobStatus (currentYear : Z)
    (response : Js.Outcome (JobStatus.t ApiResponse.t)) (s : State) : State * bool :=
  match response with
  | Js.Rejected pollError => (pollJobStatus_catch pollError s, true)
  | Js.Resolved status =>
      let s1 := s |> setLoadingProgress (JobStatus.progress status) in
      let s2 :=
        if String.eqb (JobStatus.stage status) "creating_outline"
        then s1 |> setLoadingStage (Some LoadingOutline)
        else if String.eqb (JobStatus.stage status) "finding_sources"
        then s1 |> setLoadingStage (Some LoadingSources)
        else s1 in
      match JobStatus.status status, JobStatus.result status with
      | JobStatus.completed, Some result =>
          (s2 |> setApiOutline (Some (ApiResponse.outline result))
              |> setWritingAnalysis (ApiResponse.writing_analysis result)
              |> setApiSources (ApiResponse.sources result)
              |> setOutline (convertedOutline (FormData.topic (formData s))
                                              (ApiResponse.outline result))
              |> setCitations (imap (convertedSource currentYear)
                                    (concat (ApiResponse.sources result)))
              |> setIsLoading false
              |> setIsGeneratingOutline false
              |> setLoadingProgress 100
              |> setLoadingStage None
              |> setCurrentStep 5
              |> setJobId None,
           true)
      | JobStatus.failed, _ =>
          (s2 |> setError (Some (Js.orString (JobStatus.error status) "Job failed"))
              |> setIsLoading false
              |> setIsGeneratingOutline false
              |> setLoadingProgress 0
              |> setLoadingStage None
              |> setJobId None,
           true)
      | _, _ => (s2, false)
      end
  end.

(** The [catch] block of [pollEssayStatus]. *)
Definition pollEssayStatus_catch (pollError : Js.Thrown) (s : State) : State :=
  s |> setError (Some (Js.messageOr pollError "Failed to check essay status"))
    |> setIsLoading false
    |> setIsGeneratingEssay false
    |> setLoadingProgress 0
    |> setGenerationStage noGeneration
    |> setEssayJobId None.

Definition generationStageOf (stage : string) (s : State) : State :=
  if String.eqb stage "writing_essay" then
    s |> setGenerationStage
           {| GenerationStage.writing := true;
              GenerationStage.plagiarism := false;
              GenerationStage.finalizing := false |}
  else if String.eqb stage "checking_plagiarism" then
    s |> setGenerationStage
           {| GenerationStage.writing := true;
              GenerationStage.plagiarism := true;
              GenerationStage.finalizing := false |}
  else if String.eqb stage "finalizing" then
    s |> setGenerationStage
           {| GenerationStage.writing := true;
              GenerationStage.plagiarism := true;
              GenerationStage.finalizing := true |}
  else s.

(** [pollEssayStatus], given the outcome of the awaited [getEssayStatus].
    A finished job with a [paper_id] leaves the page for the dashboard and
    resets nothing but the job id; the one-second pause before that is not
    modelled. *)
Definition pollEssayStatus
    (response : Js.Outcome (JobStatus.t EssayResult.t)) (s : State) : State * bool :=
  match response with
  | Js.Rejected pollError => (pollEssayStatus_catch pollError s, true)
  | Js.Resolved status =>
      let s2 :=
        s |> setLoadingProgress (JobStatus.progress status)
          |> generationStageOf (JobStatus.stage status) in
      match JobStatus.status status, JobStatus.result status with
      | JobStatus.completed, Some result =>
          ((if Js.truthy (EssayResult.paper_id result) then s2
            else s2 |> setIsLoading false
                    |> setIsGeneratingEssay false
                    |> setLoadingProgress 0
                    |> setGenerationStage noGeneration)
             |> setEssayJobId None,
           true)
      | JobStatus.failed, _ =>
          (s2 |> setError (Some (Js.orString (JobStatus.error status) "Essay generation failed"))
              |> setIsLoading false
              |> setIsGeneratingEssay false
              |> setLoadingProgress 0
              |> setGenerationStage noGeneration
              |> setEssayJobId None,
           true)
      | _, _ => (s2, false)
      end
  end.

(** Where [pollEssayStatus] sends the browser, if anywhere. *)
Definition pollEssayStatus_navigation
    (response : Js.Outcome (JobStatus.t EssayResult.t)) : option string :=
  match response with
  | Js.Resolved status =>
      match JobStatus.status status, JobStatus.result status with
      | JobStatus.completed, Some result =>
          if Js.truthy (EssayResult.paper_id result)
          then Some ("/dashboard?tab=history&highlight="
                       +:+ Js.orString (EssayResult.paper_id result) "")
          else None
      | _, _ => None
      end
  | Js.Rejected _ => None
  end.

(** *** The two polling effects

    [useEffect(() => { if (id && isLoading) { poll(); const interval =
    setInterval(async () => { if (await poll()) clearInterval(interval) },
    2000); return () => clearInterval(interval) } }, [id, isLoading])].

    A run consumes a script holding the outcome of each status request in
    order, each request settling before the next tick.  The first poll is
    issued when the effect starts and its return value is dropped; the
    interval then fires every [pollIntervalMs].  The interval is cleared by
    the callback when a poll returns [true], and by the effect's cleanup
    when a dependency changes. *)

Definition pollIntervalMs : Z := 2000.

Record PollEvent : Type := {
  at_ms : Z;          (* time since the effect started *)
  request : ApiCall;  (* the status request issued *)
  after : State       (* the state once the poll has settled *)
}.

Section Polling.
Context {Resp : Type}.
Variable poll : Resp -> State -> State * bool.
Variable jobOf : State -> option string.           (* [jobId] or [essayJobId] *)
Variable statusCall : string -> ApiCall.

(** The dependency array [[id, isLoading]]. *)
Definition depsChanged (s s' : State) : bool :=
  negb (bool_decide (jobOf s = jobOf s')) || negb (Bool.eqb (isLoading s) (isLoading s')).

Fixpoint intervalTicks (job : string) (t : Z) (script : list Resp) (s : State)
    : list PollEvent :=
  match script with
  | [] => []
  | r :: rest =>
      let '(s', isDone) := poll r s in
      {| at_ms := t; request := statusCall job; after := s' |}
        :: (if isDone then []
            else if depsChanged s s' then []
            else intervalTicks job (t + pollIntervalMs)%Z rest s')
  end.

Definition pollingEffect (script : list Resp) (s : State) : list PollEvent :=
  match jobOf s with
  | Some job =>
      if Js.truthyString job && isLoading s then
        match script with
        | [] => []
        | r :: rest =>
            let '(s', _) := poll r s in
            {| at_ms := 0; request := statusCall job; after := s' |}
              :: (if depsChanged s s' then []
                  else intervalTicks job pollIntervalMs rest s')
        end
      else []
  | None => []
  end.

End Polling.

(** How many polls a script gives rise to when [stops] tells the responses
    that end polling: every response up to and including the first such. *)
Fixpoint polled {Resp : Type} (stops : Resp -> bool) (script : list Resp) : nat :=
  match script with
  | [] => 0
  | r :: rest => S (if stops r then 0 else polled stops rest)
  end.

(** A status is terminal when it is [completed] or [failed]. *)
Definition terminalStatus {R} (status : JobStatus.t R) : bool :=
  JobStatus.status_eqb (JobStatus.status status) JobStatus.completed
  || JobStatus.status_eqb (JobStatus.status status) JobStatus.failed.

(** The responses on which a poll function returns [true]: a rejected
    request, a [failed] status, and a [completed] status that carries a
    result. *)
Definition stopsPolling {R} (response : Js.Outcome (JobStatus.t R)) : bool :=
  match response with
  | Js.Rejected _ => true
  | Js.Resolved status =>
      JobStatus.status_eqb (JobStatus.status status) JobStatus.failed
      || (JobStatus.status_eqb (JobStatus.status status) JobStatus.completed
          && bool_decide (is_Some (JobStatus.result status)))
  end.

(** The loading stage a stage label switches the display to, if any. *)
Definition loadingStageOf (stage : string) : option LoadingStage :=
  if String.eqb stage "creating_outline" then Some LoadingOutline
  else if String.eqb stage "finding_sources" then Some LoadingSources
  else None.

(** The poller the specification asks for tolerates a rejected status
    request: such a poll neither reports that polling is done nor puts an
    error on display. *)
Definition toleratesRejection {R}
    (poll : Js.Outcome (JobStatus.t R) -> State -> State * bool)
    (s : State) (e : Js.Thrown) : Prop :=
  (poll (Js.Rejected e) s).2 = false
  /\ error (poll (Js.Rejected e) s).1 = error s.

(** The specification's stopping rule: a poll is the last one exactly when
    the request was rejected or the status seen is terminal. *)
Definition stopsAtTerminal {R}
    (poll : Js.Outcome (JobStatus.t R) -> State -> State * bool) : Prop :=
  forall r s,
    (poll r s).2 = match r with
                   | Js.Rejected _ => true
                   | Js.Resolved status => terminalStatus status
                   end.

(** Modelled from the spec: the status records the job store hands out
    (sections 3 and 8): [result] is "present only when status ==
    completed", and "exactly one of result/error is populated once status
    is terminal", so a [completed] status carries its result.  The store
    is back-end code that is not among the sources; a rejected request is
    no status and is not restricted. *)
Definition carriesResult {R} (response : Js.Outcome (JobStatus.t R)) : Prop :=
  match response with
  | Js.Resolved status =>
      JobStatus.status status = JobStatus.completed -> is_Some (JobStatus.result status)
  | Js.Rejected _ => True
  end.


(** The effect keyed on [jobId]. *)
Definition jobPolling (currentYear : Z) :=
  pollingEffect (pollJobStatus currentYear) jobId GetJobStatus.

(** The effect keyed on [essayJobId]. *)
Definition essayPolling :=
  pollingEffect pollEssayStatus essayJobId GetEssayStatus.

(** What a poll that does not stop the outline effect puts on display. *)
Definition outlineDisplay (r : Js.Outcome (JobStatus.t ApiResponse.t)) (s' : State) : Prop :=
  match r with
  | Js.Resolved status =>
      stopsPolling r = false ->
      loadingProgress s' = JobStatus.progress status
      /\ match loadingStageOf (JobStatus.stage status) with
         | Some shown => loadingStage s' = Some shown
         | None => True
         end
  | Js.Rejected _ => True
  end.


(** What one poll of the outline job leaves on display. *)
Definition outlineShown (r : Js.Outcome (JobStatus.t ApiResponse.t)) (s' : State) : Prop :=
  match r with
  | Js.Resolved status =>
      if stopsPolling r then isLoading s' = false
      else loadingProgress s' = JobStatus.progress status
  | Js.Rejected _ => isLoading s' = false
  end.

(** What the user entered on the way to a submission. *)
Definition keepsInput (before after : State) : Prop :=
  formData after = formData before
  /\ pastedAssignment after = pastedAssignment before
  /\ pastedEssay after = pastedEssay before
  /\ uploadedFile after = uploadedFile before
  /\ uploadedAssignment after = uploadedAssignment before.

End EssayForm.

(** ** frontend/app/services/api.ts *)

Module ServicesApi.

Local Open Scope string_scope.

(** The value caught by [startOutlineAndSourcesJob], seen through the chain
    of guards [error && typeof error === 'object' && 'response' in error &&
    error.response && ... && typeof error.response.data.error === 'string'].
    Each [option] is one level that may be missing or falsy. *)
Inductive DataError : Type :=
| ErrorString (text : string)
| ErrorNotAString.

Record ResponseData : Type := { data_error : option DataError }.
Record ErrorResponse : Type := { data : option ResponseData }.

Inductive Caught : Type :=
| NotAnObject
| ErrorObject (response : option ErrorResponse).

(** What the function resolves to: the body the server sent, or an object
    holding nothing but an [error] string. *)
Inductive StartJobResult : Type :=
| ResponseData_ (body : JobResponse.t)
| ErrorOnly (error : string).

Definition insufficientCreditsMessage : string :=
  "Insufficient credits. Please purchase credits to continue.".

(** [error.response.data.error], when every guard of the chain holds. *)
Definition errorText (c : Caught) : option string :=
  match c with
  | ErrorObject (Some {| data := Some {| data_error := Some (ErrorString text) |} |}) =>
      Some text
  | _ => None
  end.

(** [essayAPI.startOutlineAndSourcesJob], given what [api.get] did: it
    resolved with a body or rejected with a caught value. *)
Definition startOutlineAndSourcesJob (outcome : JobResponse.t + Caught) : StartJobResult :=
  match outcome with
  | inl body => ResponseData_ body
  | inr caught =>
      match errorText caught with
      | Some text =>
          if Js.includes "Insufficient credits" text
          then ErrorOnly insufficientCreditsMessage
          else ErrorOnly "Failed to start outline generation"
      | None => ErrorOnly "Failed to start outline generation"
      end
  end.

(** The [job_id] a caller can read off the result. *)
Definition jobIdOf (r : StartJobResult) : option string :=
  match r with
  | ResponseData_ body => Some (JobResponse.job_id body)
  | ErrorOnly _ => None
  end.

(** A cookie in the browser's jar. *)
Record Cookie : Type := {
  cookie_value : string;
  httpOnly : bool
}.

(** [getCsrfToken] of the request interceptor reads [document.cookie], in
    which the browser lists no [httpOnly] cookie.  The argument is the jar's
    [csrf-token] entry; the string splitting that isolates it is not
    modelled. *)
Definition getCsrfToken (jarEntry : option Cookie) : option string :=
  match jarEntry with
  | Some c =>
      if httpOnly c then None
      else if Js.truthyString (cookie_value c) then Some (cookie_value c) else None
  | None => None
  end.

Definition isMutatingMethod (method : string) : bool :=
  bool_decide (method ∈ ["POST"; "PUT"; "DELETE"; "PATCH"]).

(** The [x-csrf-token] header the interceptor adds, if any; [method] is
    [config.method?.toUpperCase() || '']. *)
Definition csrfHeader (jarEntry : option Cookie) (method : string) : option string :=
  match getCsrfToken jarEntry with
  | Some token => if isMutatingMethod method then Some token else None
  | None => None
  end.

End ServicesApi.

(** ** frontend/lib/supabase.ts: [getUserProfile], [getUserCredits] *)

Module UserProfile.

Record t : Type := {
  id : string;
  email : string;
  full_name : option string;
  credits : Z;
  created_at : string;
  updated_at : string
}.

(** [supabase.auth.getUser()] resolves to [{ data: { user }, error }]. *)
Record AuthResponse : Type := {
  user : option string;       (* the user's id *)
  userError : option string
}.

(** A [.single()] query resolves to [{ data, error }]. *)
Record QueryResponse : Type := {
  data : option t;
  error : option string
}.

(** The Supabase client as the two functions see it: either call may also
    reject. *)
Record Client : Type := {
  auth_getUser : Js.Outcome AuthResponse;
  select_single : string -> Js.Outcome QueryResponse
}.

Definition bind {A B} (m : Js.Outcome A) (k : A -> Js.Outcome B) : Js.Outcome B :=
  match m with
  | Js.Resolved a => k a
  | Js.Rejected e => Js.Rejected e
  end.

(** [try { body } catch (error) { handler }]. *)
Definition tryCatch {A} (body : Js.Outcome A) (handler : Js.Thrown -> Js.Outcome A)
    : Js.Outcome A :=
  match body with
  | Js.Resolved a => Js.Resolved a
  | Js.Rejected e => handler e
  end.

Definition isSome {A} (o : option A) : bool :=
  match o with Some _ => true | None => false end.

(** [getUserProfile]. *)
Definition getUserProfile (supabase : Client) : Js.Outcome (option t) :=
  tryCatch
    (bind (auth_getUser supabase) (fun r =>
       match userError r, user r with
       | None, Some userId =>
           bind (select_single supabase userId) (fun q =>
             if isSome (error q) then Js.Resolved None
             else Js.Resolved (data q))
       | _, _ => Js.Resolved None
       end))
    (fun _ => Js.Resolved None).

(** [getUserCredits]: [profile?.credits || 0]. *)
Definition getUserCredits (supabase : Client) : Js.Outcome Z :=
  tryCatch
    (bind (getUserProfile supabase) (fun profile =>
       Js.Resolved (Js.orZero (credits <$> profile))))
    (fun _ => Js.Resolved 0).

(** The profile row the two functions are meant to reach, in the words of
    their contract: the row of the authenticated user, when [getUser]
    resolves with a user and no error and the query resolves with a row and
    no error; nothing on any other path. *)
Definition profileRow (supabase : Client) : option t :=
  match auth_getUser supabase with
  | Js.Resolved {| user := Some userId; userError := None |} =>
      match select_single supabase userId with
      | Js.Resolved {| data := Some profile; error := None |} => Some profile
      | _ => None
      end
  | _ => None
  end.

End UserProfile.

(** ** frontend/app/contexts/AuthContext.tsx: [ensureUserProfile] *)

Module AuthContext.

Local Open Scope string_scope.

(** What a Supabase call can do besides succeeding. *)
Inductive Fault : Type :=
| NoFault
| ReturnsError      (* resolves with a non-null [error] *)
| Throws.           (* rejects *)

(** One fault per call, in the order the function makes them. *)
Record Faults : Type := {
  tableTest : Fault;
  fetchProfile : Fault;
  updateProfile : Fault;
  insertProfile : Fault
}.

(** The browser's [localStorage] and the [user_profiles] table, keyed by
    the primary key [id]. *)
Record World : Type := {
  localStorage : gmap string string;
  user_profiles : gmap string UserProfile.t
}.

Definition profileKey (userId : string) : string := "profile_created_" +:+ userId.

(** The [update({ email, updated_at }).eq('id', userId)] statement. *)
Definition updateEmail (email now : string) (p : UserProfile.t) : UserProfile.t :=
  {| UserProfile.id := UserProfile.id p;
     UserProfile.email := email;
     UserProfile.full_name := UserProfile.full_name p;
     UserProfile.credits := UserProfile.credits p;
     UserProfile.created_at := UserProfile.created_at p;
     UserProfile.updated_at := now |}.

(** The row of the [insert] statement; [full_name] is not supplied. *)
Definition newProfile (userId email createdAt updatedAt : string) : UserProfile.t :=
  {| UserProfile.id := userId;
     UserProfile.email := email;
     UserProfile.full_name := None;
     UserProfile.credits := 2;
     UserProfile.created_at := createdAt;
     UserProfile.updated_at := updatedAt |}.

Definition markProcessed (userId : string) (w : World) : World :=
  {| localStorage := <[profileKey userId := "true"]> (localStorage w);
     user_profiles := user_profiles w |}.

(** [ensureUserProfile(userId, email)].  [now1] and [now2] are the two
    readings of [new Date().toISOString()] a branch makes; a statement that
    fails leaves the table as it was, and the outer [catch] swallows every
    error. *)
Definition ensureUserProfile (userId email now1 now2 : string) (f : Faults) (w : World)
    : World :=
  if Js.truthy (localStorage w !! profileKey userId) then w
  else
    match fetchProfile f with
    | NoFault =>
        match user_profiles w !! userId with
        | Some _ =>
            match updateProfile f with
            | NoFault =>
                markProcessed userId
                  {| localStorage := localStorage w;
                     user_profiles := alter (updateEmail email now1) userId (user_profiles w) |}
            | _ => w
            end
        | None =>
            match insertProfile f with
            | NoFault =>
                markProcessed userId
                  {| localStorage := localStorage w;
                     user_profiles :=
                       <[userId := newProfile userId email now1 now2]> (user_profiles w) |}
            | _ => w
            end
        end
    | _ => w
    end.

End AuthContext.

(** ** frontend/middleware/csrf.ts *)

Module Csrf.

Local Open Scope string_scope.

Definition CSRF_COOKIE_NAME : string := "csrf-token".

Record NextRequest : Type := {
  method : string;
  cookie : option string;     (* [req.cookies.get(CSRF_COOKIE_NAME)?.value] *)
  header : option string      (* [req.headers.get('x-csrf-token')] *)
}.

Record SetCookie : Type := {
  name : string;
  value : string;
  httpOnly : bool;
  sameSite : string;
  path : string
}.

Record NextResponse : Type := {
  status : Z;
  setCookie : option SetCookie;
  error : option string      (* the [error] member of a JSON body *)
}.

(** [NextResponse.next()]. *)
Definition next : NextResponse :=
  {| status := 200; setCookie := None; error := None |}.

Definition forbidden : NextResponse :=
  {| status := 403; setCookie := None; error := Some "Invalid CSRF token" |}.

Definition isSafeMethod (m : string) : bool :=
  bool_decide (m ∈ ["GET"; "HEAD"; "OPTIONS"]).

Section WithDigest.

(** [digestHex] is SHA-256 over the UTF-8 bytes of its argument, written as
    64 lower-case hexadecimal digits; [CSRF_SECRET] is the environment
    variable of that name.  Both come from outside the module. *)
Variable digestHex : string -> string.
Variable CSRF_SECRET : string.

(** [hashToken]. *)
Definition hashToken (token : string) : string := digestHex (token +:+ CSRF_SECRET).

(** [verifyToken]. *)
Definition verifyToken (token hash : string) : bool :=
  String.eqb (hashToken token) hash.

(** [csrfMiddleware]; [generated] is the value [generateToken()] would
    return on this request. *)
Definition csrfMiddleware (generated : string) (req : NextRequest) : NextResponse :=
  if isSafeMethod (method req) then next
  else
    let '(csrfToken, res) :=
      if Js.truthy (cookie req) then (Js.orString (cookie req) "", next)
      else (generated,
            {| status := 200;
               setCookie := Some {| name := CSRF_COOKIE_NAME;
                                    value := hashToken generated;
                                    httpOnly := true;
                                    sameSite := "strict";
                                    path := "/" |};
               error := None |}) in
    match header req with
    | Some headerToken =>
        if Js.truthyString headerToken && verifyToken headerToken csrfToken
        then res
        else forbidden
    | None => forbidden
    end.

(** The jar entry a browser stores for a response. *)
Definition storedCookie (res : NextResponse) : option ServicesApi.Cookie :=
  match setCookie res with
  | Some c => Some {| ServicesApi.cookie_value := value c;
                      ServicesApi.httpOnly := httpOnly c |}
  | None => None
  end.

End WithDigest.

(** A stand-in digest without fixed points, for running the middleware on
    examples: it prefixes its argument with a marker. *)
Definition toyDigest (x : string) : string := "#" +:+ x.

End Csrf.

(** ** The back end, from the specification

    The FastAPI service that owns the credit ledger and the job store is
    not among the sources.  The definitions below follow sections 3, 4.1
    and 4.2 of the specification. *)

Module Backend.

(** Modelled from the spec: the two answers of [debit] in section 4.1,
    "success | InsufficientBalance". *)
Inductive DebitResult : Type :=
| Success (newBalance : Z)
| InsufficientBalance.

(** Modelled from the spec: the ledger operation [debit] of section 4.1,
    which is missing from the sources.  "Failure: InsufficientBalance when
    balance < amount"; otherwise the balance drops by the amount. *)
Definition debit (balance amount : Z) : DebitResult :=
  if (balance <? amount)%Z then InsufficientBalance else Success (balance - amount).

(** Modelled from the spec: the observed cost of one essay generation,
    "2 credits per full essay generation". *)
Definition generationCost : Z := 2.

(** Modelled from the spec: the [Job] record of section 3. *)
Record Job : Type := {
  status : JobStatus.Status;
  progress : Z;
  stage : string;
  result : option string;
  error : option string
}.

(** Modelled from the spec: "created on submission with status =
    processing, progress = 0". *)
Definition createdJob : Job :=
  {| status := JobStatus.processing;
     progress := 0;
     stage := "";
     result := None;
     error := None |}.

(** Modelled from the spec: the Credit Ledger and the Job Store of section
    2, a balance per user and a status record per job identifier. *)
Record Store : Type := {
  ledger : gmap string Z;
  jobs : gmap string Job
}.

(** Modelled from the spec: [getBalance] of section 4.1. *)
Definition getBalance (user : string) (st : Store) : Z :=
  default 0 (ledger st !! user).

(** Modelled from the spec: what [submit] answers, a job identifier or the
    ledger's refusal. *)
Inductive SubmitResult : Type :=
| Accepted (jobId : string)
| Refused.   (* [InsufficientBalance] *)

(** Modelled from the spec: [submit] of section 4.2, which is missing from
    the sources: it "performs the credit debit, creates a Job record in
    processing state"; on [InsufficientBalance] the "caller must not create
    a job".  [freshId] is the identifier generated at submission time. *)
Definition submit (user freshId : string) (st : Store) : SubmitResult * Store :=
  match debit (getBalance user st) generationCost with
  | Success newBalance =>
      (Accepted freshId,
       {| ledger := <[user := newBalance]> (ledger st);
          jobs := <[freshId := createdJob]> (jobs st) |})
  | InsufficientBalance => (Refused, st)
  end.

(** Modelled from the spec: [getStatus] of section 4.2, "returns the
    current snapshot; fails with NotFound if the identifier is unknown". *)
Definition getStatus (jobId : string) (st : Store) : option Job :=
  jobs st !! jobId.

(** Modelled from the spec: "terminal: completed, failed". *)
Definition isTerminal (j : Job) : bool :=
  match status j with
  | JobStatus.processing => false
  | _ => true
  end.

(** Modelled from the spec: the mutations of a job record, which the
    missing pipeline performs.  A job is "mutated in place by each pipeline
    stage" while it is processing, its progress being an "integer
    percentage, monotonically non-decreasing"; the two terminal states
    populate exactly one of [result] and [error]; a terminal job "becomes
    immutable". *)
Inductive mutation : Job -> Job -> Prop :=
| stage_update (j : Job) (p : Z) (label : string) :
    status j = JobStatus.processing ->
    (progress j <= p <= 100)%Z ->
    mutation j {| status := JobStatus.processing; progress := p; stage := label;
                  result := None; error := None |}
| complete (j : Job) (p : Z) (r : string) :
    status j = JobStatus.processing ->
    (progress j <= p <= 100)%Z ->
    mutation j {| status := JobStatus.completed; progress := p; stage := stage j;
                  result := Some r; error := None |}
| fail (j : Job) (p : Z) (message : string) :
    status j = JobStatus.processing ->
    (progress j <= p <= 100)%Z ->
    mutation j {| status := JobStatus.failed; progress := p; stage := stage j;
                  result := None; error := Some message |}.

(** Modelled from the spec: successive [getStatus] snapshots of one job;
    [getStatus] "returns the current snapshot", and between two polls the
    missing pipeline performs any number of mutations. *)
Inductive observations : Job -> list Job -> Prop :=
| obs_nil (j : Job) : observations j []
| obs_cons (j j' : Job) (rest : list Job) :
    rtc mutation j j' ->
    observations j' rest ->
    observations j (j' :: rest).

(** Modelled from the spec: the body of a [job-status] response for a
    snapshot, "{status, progress, stage, result?, error?}". *)
Definition statusOf {R} (payload : string -> R) (j : Job) : JobStatus.t R :=
  {| JobStatus.status := status j;
     JobStatus.progress := progress j;
     JobStatus.stage := stage j;
     JobStatus.result := payload <$> result j;
     JobStatus.error := error j |}.

End Backend.

(** ** Sample states and responses *)

Module Examples.
Import EssayForm.
Local Open Scope string_scope.

(** A wizard on step 4 with a valid form: the state from which the outline
    job is submitted. *)
Definition readyForOutline : State :=
  initialState
    |> setFormData
         {| FormData.topic := "The economic history of the transatlantic telegraph";
            FormData.wordCount := 1500;
            FormData.citationFormat := "apa";
            FormData.writingStyle := "academic";
            FormData.selectedCitations := [];
            FormData.outline := None;
            FormData.studentName := "Ada Lovelace";
            FormData.professorName := "Charles Babbage";
            FormData.className := "HIST 101" |}
    |> setPastedAssignment "Discuss causes and effects."
    |> setUserCredits (Some 2%Z)
    |> setCurrentStep 4.

(** The same wizard on step 6, where the essay job is submitted. *)
Definition readyForEssay : State := readyForOutline |> setCurrentStep 6.

Definition guardrailResponse : JobResponse.t :=
  {| JobResponse.job_id := "";
     JobResponse.status := "failed";
     JobResponse.error := Some "Malicious prompt detected" |}.

Definition acceptedResponse : JobResponse.t :=
  {| JobResponse.job_id := "job-1";
     JobResponse.status := "processing";
     JobResponse.error := None |}.

Definition failedStatus {R} : JobStatus.t R :=
  {| JobStatus.status := JobStatus.failed;
     JobStatus.progress := 40;
     JobStatus.stage := "finding_sources";
     JobStatus.result := None;
     JobStatus.error := Some "Source search timed out" |}.

Definition stillProcessing {R} : JobStatus.t R :=
  {| JobStatus.status := JobStatus.processing;
     JobStatus.progress := 50;
     JobStatus.stage := "finding_sources";
     JobStatus.result := None;
     JobStatus.error := None |}.

Definition completedWithoutResult {R} : JobStatus.t R :=
  {| JobStatus.status := JobStatus.completed;
     JobStatus.progress := 100;
     JobStatus.stage := "finalizing";
     JobStatus.result := None;
     JobStatus.error := None |}.

Definition networkError : Js.Thrown := Js.ThrownError "Network Error".

Definition emptyResult : ApiResponse.t :=
  {| ApiResponse.outline := {| EssayApi.outline_components := [] |};
     ApiResponse.writing_analysis := "";
     ApiResponse.sources := [] |}.

(** The outline job has been accepted and is being polled. *)
Definition pollingOutline : State :=
  (fetchSourcesAndOutline (Js.Resolved acceptedResponse) readyForOutline).1.

(** The essay job has been accepted and is being polled. *)
Definition pollingEssay : State :=
  (generateFinalEssay (Js.Resolved acceptedResponse) readyForEssay).1.

(** The error view after the outline job was seen to fail. *)
Definition outlineJobFailed : State :=
  (pollJobStatus 2026 (Js.Resolved failedStatus) pollingOutline).1.

(** The error view after the essay job was seen to fail. *)
Definition essayJobFailed : State :=
  (pollEssayStatus (Js.Resolved failedStatus) pollingEssay).1.

(** A rejection of the kind [essayAPI.startOutlineAndSourcesJob] looks
    for. *)
Definition insufficientCreditsRejection : ServicesApi.Caught :=
  ServicesApi.ErrorObject
    (Some {| ServicesApi.data :=
               Some {| ServicesApi.data_error :=
                         Some (ServicesApi.ErrorString "Insufficient credits: 1 available") |} |}).

Definition poorStore : Backend.Store :=
  {| Backend.ledger := {[ "user-1" := 1%Z ]}; Backend.jobs := ∅ |}.

Definition noFaults : AuthContext.Faults :=
  {| AuthContext.tableTest := AuthContext.NoFault;
     AuthContext.fetchProfile := AuthContext.NoFault;
     AuthContext.updateProfile := AuthContext.NoFault;
     AuthContext.insertProfile := AuthContext.NoFault |}.

Definition returningUser : UserProfile.t :=
  {| UserProfile.id := "user-1";
     UserProfile.email := "old@example.com";
     UserProfile.full_name := Some "Ada Lovelace";
     UserProfile.credits := 7;
     UserProfile.created_at := "2025-01-01T00:00:00.000Z";
     UserProfile.updated_at := "2025-01-01T00:00:00.000Z" |}.

Definition oneUser : AuthContext.World :=
  {| AuthContext.localStorage := ∅;
     AuthContext.user_profiles := {[ "user-1" := returningUser ]} |}.

Definition outlining : Backend.Job :=
  {| Backend.status := JobStatus.processing; Backend.progress := 20; Backend.stage := "creating_outline";
     Backend.result := None; Backend.error := None |}.

Definition searching : Backend.Job :=
  {| Backend.status := JobStatus.processing; Backend.progress := 60; Backend.stage := "finding_sources";
     Backend.result := None; Backend.error := None |}.

Definition finished : Backend.Job :=
  {| Backend.status := JobStatus.completed; Backend.progress := 100; Backend.stage := "finding_sources";
     Backend.result := Some "outline-and-sources"; Backend.error := None |}.

(** Three polls of one job; it advances two stages between the second and
    the third. *)
Definition sampleRun : list Backend.Job := [outlining; outlining; finished].

End Examples.

(** ** frontend/app/components/essay-form.tsx: the input handlers and the
       buttons *)

Module WizardUi.
Import EssayForm.
Local Open Scope string_scope.

Inductive PromptQuality : Type := poor | good | great.

(** [assessPromptQuality]. *)
Definition assessPromptQuality (prompt : string) : PromptQuality :=
  if (Z.of_nat (String.length prompt) <? 20)%Z then poor
  else if (Z.of_nat (String.length prompt) <? 50)%Z then good
  else great.

(** [{ ...formData, topic }] and its siblings. *)
Definition withTopic (v : string) (fd : FormData.t) : FormData.t :=
  {| FormData.topic := v;
     FormData.wordCount := FormData.wordCount fd;
     FormData.citationFormat := FormData.citationFormat fd;
     FormData.writingStyle := FormData.writingStyle fd;
     FormData.selectedCitations := FormData.selectedCitations fd;
     FormData.outline := FormData.outline fd;
     FormData.studentName := FormData.studentName fd;
     FormData.professorName := FormData.professorName fd;
     FormData.className := FormData.className fd |}.

Definition withWordCount (v : Z) (fd : FormData.t) : FormData.t :=
  {| FormData.topic := FormData.topic fd;
     FormData.wordCount := v;
     FormData.citationFormat := FormData.citationFormat fd;
     FormData.writingStyle := FormData.writingStyle fd;
     FormData.selectedCitations := FormData.selectedCitations fd;
     FormData.outline := FormData.outline fd;
     FormData.studentName := FormData.studentName fd;
     FormData.professorName := FormData.professorName fd;
     FormData.className := FormData.className fd |}.

Definition withCitationFormat (v : string) (fd : FormData.t) : FormData.t :=
  {| FormData.topic := FormData.topic fd;
     FormData.wordCount := FormData.wordCount fd;
     FormData.citationFormat := v;
     FormData.writingStyle := FormData.writingStyle fd;
     FormData.selectedCitations := FormData.selectedCitations fd;
     FormData.outline := FormData.outline fd;
     FormData.studentName := FormData.studentName fd;
     FormData.professorName := FormData.professorName fd;
     FormData.className := FormData.className fd |}.

Definition withWritingStyle (v : string) (fd : FormData.t) : FormData.t :=
  {| FormData.topic := FormData.topic fd;
     FormData.wordCount := FormData.wordCount fd;
     FormData.citationFormat := FormData.citationFormat fd;
     FormData.writingStyle := v;
     FormData.selectedCitations := FormData.selectedCitations fd;
     FormData.outline := FormData.outline fd;
     FormData.studentName := FormData.studentName fd;
     FormData.professorName := FormData.professorName fd;
     FormData.className := FormData.className fd |}.

Definition withStudentName (v : string) (fd : FormData.t) : FormData.t :=
  {| FormData.topic := FormData.topic fd;
     FormData.wordCount := FormData.wordCount fd;
     FormData.citationFormat := FormData.citationFormat fd;
     FormData.writingStyle := FormData.writingStyle fd;
     FormData.selectedCitations := FormData.selectedCitations fd;
     FormData.outline := FormData.outline fd;
     FormData.studentName := v;
     FormData.professorName := FormData.professorName fd;
     FormData.className := FormData.className fd |}.

Definition withProfessorName (v : string) (fd : FormData.t) : FormData.t :=
  {| FormData.topic := FormData.topic fd;
     FormData.wordCount := FormData.wordCount fd;
     FormData.citationFormat := FormData.citationFormat fd;
     FormData.writingStyle := FormData.writingStyle fd;
     FormData.selectedCitations := FormData.selectedCitations fd;
     FormData.outline := FormData.outline fd;
     FormData.studentName := FormData.studentName fd;
     FormData.professorName := v;
     FormData.className := FormData.className fd |}.

Definition withClassName (v : string) (fd : FormData.t) : FormData.t :=
  {| FormData.topic := FormData.topic fd;
     FormData.wordCount := FormData.wordCount fd;
     FormData.citationFormat := FormData.citationFormat fd;
     FormData.writingStyle := FormData.writingStyle fd;
     FormData.selectedCitations := FormData.selectedCitations fd;
     FormData.outline := FormData.outline fd;
     FormData.studentName := FormData.studentName fd;
     FormData.professorName := FormData.professorName fd;
     FormData.className := v |}.

(** [handlePromptChange] and [handleExampleTopicClick]: the new state and
    the value handed to [setPromptQuality]. *)
Definition handlePromptChange (newPrompt : string) (s : State) : State * PromptQuality :=
  (s |> setFormData (withTopic newPrompt (formData s)), assessPromptQuality newPrompt).

(** [handleCitationToggle]. *)
Definition toggled (c : Citation.t) : Citation.t :=
  {| Citation.id := Citation.id c;
     Citation.title := Citation.title c;
     Citation.author := Citation.author c;
     Citation.year := Citation.year c;
     Citation.selected := negb (Citation.selected c);
     Citation.publisher := Citation.publisher c;
     Citation.description := Citation.description c;
     Citation.relevance := Citation.relevance c;
     Citation.url := Citation.url c |}.

Definition toggleIn (id : Z) (cs : list Citation.t) : list Citation.t :=
  map (fun citation => if (Citation.id citation =? id)%Z then toggled citation else citation) cs.

Definition handleCitationToggle (id : Z) (s : State) : State :=
  s |> setCitations (toggleIn id (citations s)).

(** The outline handlers.  [index] is the position the section is rendered
    at; [splice(index, 1)] past the end removes nothing.  A section index
    past the end makes [newOutline.sections[sectionIndex]] undefined and the
    handler throw, which is [None] here. *)
Definition newSection : OutlineSection.t :=
  {| OutlineSection.title := "New Section";
     OutlineSection.subsections := ["New subsection"] |}.

(** [addNewSection] builds a new [sections] array with a new section at its
    end. *)
Definition addNewSection (s : State) : State :=
  s |> setOutline {| Outline.title := Outline.title (outline s);
                     Outline.sections := (Outline.sections (outline s) ++ [newSection])%list |}.

(** [deleteSection] splices a copy of the [sections] array. *)
Definition deleteSection (index : nat) (s : State) : State :=
  s |> setOutline {| Outline.title := Outline.title (outline s);
                     Outline.sections := delete index (Outline.sections (outline s)) |}.

Definition withSubsections (subs : list string) (sec : OutlineSection.t) : OutlineSection.t :=
  {| OutlineSection.title := OutlineSection.title sec;
     OutlineSection.subsections := subs |}.

Definition withSubtopics (subs : list string) (component : EssayApi.OutlineComponent)
    : EssayApi.OutlineComponent :=
  {| EssayApi.main_idea := EssayApi.main_idea component;
     EssayApi.subtopics := subs;
     EssayApi.sources := EssayApi.sources component |}.

(** *** Arrays shared with [apiOutline]

    [convertedOutline] does not copy the [subtopics] arrays of the result
    it converts: each section of the converted outline has, as its
    [subsections], the very array that is the [subtopics] of a component
    of the object stored in [apiOutline].  [addNewSubsection],
    [deleteSubsection] and the [onChange] of a subsection input push,
    splice and assign in place; what they do to the array of a section
    therefore shows in [apiOutline] too when the array is shared, although
    [setApiOutline] is not called.

    The three handlers take [sharedWith]: the position of the component of
    [apiOutline] whose [subtopics] array is the array of the section they
    work on, or [None] when that array belongs to the section alone (a
    section made by [addNewSection]).  The array being one object, its
    content after the operation is what both places hold. *)
Definition writeShared (sharedWith : option nat) (array : list string) (s : State) : State :=
  match sharedWith, apiOutline s with
  | Some k, Some o =>
      s |> setApiOutline
             (Some {| EssayApi.outline_components :=
                        alter (withSubtopics array) k (EssayApi.outline_components o) |})
  | _, _ => s
  end.

(** The state once the array of section [sectionIndex] holds [array]. *)
Definition writeSubsections (sharedWith : option nat) (sectionIndex : nat)
    (sec : OutlineSection.t) (array : list string) (s : State) : State :=
  s |> setOutline
         {| Outline.title := Outline.title (outline s);
            Outline.sections :=
              <[sectionIndex := withSubsections array sec]> (Outline.sections (outline s)) |}
    |> writeShared sharedWith array.

(** [addNewSubsection]: [subsections.push("New subsection")]. *)
Definition addNewSubsection (sharedWith : option nat) (sectionIndex : nat) (s : State)
    : option State :=
  match Outline.sections (outline s) !! sectionIndex with
  | Some sec =>
      Some (writeSubsections sharedWith sectionIndex sec
              (OutlineSection.subsections sec ++ ["New subsection"])%list s)
  | None => None
  end.

(** [deleteSubsection]: [subsections.splice(subsectionIndex, 1)]. *)
Definition deleteSubsection (sharedWith : option nat) (sectionIndex subsectionIndex : nat)
    (s : State) : option State :=
  match Outline.sections (outline s) !! sectionIndex with
  | Some sec =>
      Some (writeSubsections sharedWith sectionIndex sec
              (delete subsectionIndex (OutlineSection.subsections sec)) s)
  | None => None
  end.

(** The [onChange] of a section's title input, which assigns [title] on
    the section object (an object [convertedOutline] or [addNewSection]
    made, which [apiOutline] does not hold); an input exists only for an
    index that is rendered, and the edit of one that is not is [None]. *)
Definition editSectionTitle (index : nat) (text : string) (s : State) : option State :=
  match Outline.sections (outline s) !! index with
  | Some sec =>
      Some (s |> setOutline
                   {| Outline.title := Outline.title (outline s);
                      Outline.sections :=
                        <[index := {| OutlineSection.title := text;
                                      OutlineSection.subsections :=
                                        OutlineSection.subsections sec |}]>
                          (Outline.sections (outline s)) |})
  | None => None
  end.

(** The [onChange] of a subsection input:
    [subsections[subIndex] = e.target.value]. *)
Definition editSubsection (sharedWith : option nat) (index subIndex : nat) (text : string)
    (s : State) : option State :=
  match Outline.sections (outline s) !! index with
  | Some sec =>
      match OutlineSection.subsections sec !! subIndex with
      | Some _ =>
          Some (writeSubsections sharedWith index sec
                  (<[subIndex := text]> (OutlineSection.subsections sec)) s)
      | None => None
      end
  | None => None
  end.

(** [sharedWith] names an array that really is shared: where the section
    and the component both exist, they hold the same content. *)
Definition sameArray (sharedWith : option nat) (sectionIndex : nat) (s : State) : Prop :=
  forall k o component sec,
    sharedWith = Some k ->
    apiOutline s = Some o ->
    EssayApi.outline_components o !! k = Some component ->
    Outline.sections (outline s) !! sectionIndex = Some sec ->
    EssayApi.subtopics component = OutlineSection.subsections sec.

Inductive UploadKind : Type := EssayUpload | AssignmentUpload.

Definition extractionFailedMessage : string :=
  "Failed to extract text from the uploaded file. Please try pasting the content manually.".

(** [handleFileUpload] and [handleDrop], which share their body, given the
    file's name and the outcome of the awaited [extractTextFromFile]. *)
Definition handleFileUpload (kind : UploadKind) (fileName : string)
    (extracted : Js.Outcome string) (s : State) : State :=
  match kind, extracted with
  | EssayUpload, Js.Resolved text =>
      s |> setUploadedFile (Some fileName) |> setPastedEssay text
  | EssayUpload, Js.Rejected _ =>
      s |> setUploadedFile (Some fileName) |> setError (Some extractionFailedMessage)
  | AssignmentUpload, Js.Resolved text =>
      s |> setUploadedAssignment (Some fileName) |> setPastedAssignment text
  | AssignmentUpload, Js.Rejected _ =>
      s |> setUploadedAssignment (Some fileName) |> setError (Some extractionFailedMessage)
  end.

(** The [onClick] of the Next button. *)
Definition nextButtonClick (essayResponse : Js.Outcome JobResponse.t) (s : State)
    : State * list ApiCall :=
  if (currentStep s =? totalSteps)%Z then generateFinalEssay essayResponse s
  else if (currentStep s =? 4)%Z then (handleGenerateOutline s, [])
  else (s |> setCurrentStep (currentStep s + 1)%Z, []).

(** The [onClick] of the Back button. *)
Definition backButtonClick (s : State) : State :=
  s |> setCurrentStep (currentStep s - 1)%Z.

(** What the component renders: the error view pre-empts everything; the
    loading view replaces the step content and hides the two buttons; the
    dialog shows while [showCreditConfirmation] is up. *)
Definition wizardShown (s : State) : bool := negb (errorViewShown s).
Definition navigationShown (s : State) : bool := wizardShown s && negb (isLoading s).
Definition stepShown (k : Z) (s : State) : bool :=
  navigationShown s && (currentStep s =? k)%Z.
Definition dialogShown (s : State) : bool := wizardShown s && showCreditConfirmation s.

(** What can happen to a mounted wizard: a click or an edit on something
    that is rendered, or the settling of a promise. *)
Inductive Event : Type :=
| ClickBack
| ClickNext (essayResponse : Js.Outcome JobResponse.t)
| ClickProceed (jobResponse : Js.Outcome JobResponse.t) (updatedCredits : Js.Outcome Z)
| ClickCancel
| ClickStartOver
| TypeTopic (text : string)
| TypeStudentName (text : string)
| TypeProfessorName (text : string)
| TypeClassName (text : string)
| PasteAssignment (text : string)
| SlideWordCount (n : Z)
| SelectCitationFormat (value : string)
| SelectWritingStyle (value : string)
| PasteEssay (text : string)
| ToggleCitation (id : Z)
| AddSection
| DeleteSection (index : nat)
| AddSubsection (index : nat)
| DeleteSubsection (index subIndex : nat)
| EditSectionTitle (index : nat) (text : string)
| EditSubsection (index subIndex : nat) (text : string)
| UploadFile (kind : UploadKind) (fileName : string) (extracted : Js.Outcome string)
| JobStatusArrives (response : Js.Outcome (JobStatus.t ApiResponse.t))
| EssayStatusArrives (response : Js.Outcome (JobStatus.t EssayResult.t))
| CreditsArrive (credits : Js.Outcome Z).

Definition whenShown (shown : bool) (s : State) (next : State) : State * list ApiCall :=
  if shown then (next, []) else (s, []).

(** The component's hooks together with what the heap adds to them:
    [shared] tells, for each section of [outline] in order, the component
    of [apiOutline] its [subsections] array is shared with, if any. *)
Record Wizard : Type := {
  hooks : State;
  shared : list (option nat)
}.

Definition sharedAt (aliases : list (option nat)) (index : nat) : option nat :=
  match aliases !! index with
  | Some (Some k) => Some k
  | _ => None
  end.

(** What one event does to the hooks.  An event aimed at something that is
    not rendered, at a disabled button, or at an effect that is not
    running, changes nothing. *)
Definition dispatchHooks (currentYear : Z) (ev : Event) (aliases : list (option nat))
    (s : State) : State * list ApiCall :=
  match ev with
  | ClickBack =>
      whenShown (navigationShown s && negb (currentStep s =? 1)%Z) s (backButtonClick s)
  | ClickNext essayResponse =>
      if navigationShown s && isStepValid s then nextButtonClick essayResponse s else (s, [])
  | ClickProceed jobResponse updatedCredits =>
      if dialogShown s then confirmAndGenerateOutline jobResponse updatedCredits s else (s, [])
  | ClickCancel => whenShown (dialogShown s) s (s |> setShowCreditConfirmation false)
  | ClickStartOver => if errorViewShown s then handleStartOver s else (s, [])
  | TypeTopic text => whenShown (stepShown 1 s) s (handlePromptChange text s).1
  | TypeStudentName text =>
      whenShown (stepShown 1 s) s (s |> setFormData (withStudentName text (formData s)))
  | TypeProfessorName text =>
      whenShown (stepShown 1 s) s (s |> setFormData (withProfessorName text (formData s)))
  | TypeClassName text =>
      whenShown (stepShown 1 s) s (s |> setFormData (withClassName text (formData s)))
  | PasteAssignment text => whenShown (stepShown 1 s) s (s |> setPastedAssignment text)
  | SlideWordCount n =>
      whenShown (stepShown 2 s) s (s |> setFormData (withWordCount n (formData s)))
  | SelectCitationFormat value =>
      whenShown (stepShown 3 s) s (s |> setFormData (withCitationFormat value (formData s)))
  | SelectWritingStyle value =>
      whenShown (stepShown 3 s) s (s |> setFormData (withWritingStyle value (formData s)))
  | PasteEssay text => whenShown (stepShown 4 s) s (s |> setPastedEssay text)
  | ToggleCitation id => whenShown (stepShown 5 s) s (handleCitationToggle id s)
  | AddSection => whenShown (stepShown 6 s) s (addNewSection s)
  | DeleteSection index => whenShown (stepShown 6 s) s (deleteSection index s)
  | AddSubsection index =>
      whenShown (stepShown 6 s) s
        (default s (addNewSubsection (sharedAt aliases index) index s))
  | DeleteSubsection index subIndex =>
      whenShown (stepShown 6 s) s
        (default s (deleteSubsection (sharedAt aliases index) index subIndex s))
  | EditSectionTitle index text =>
      whenShown (stepShown 6 s) s (default s (editSectionTitle index text s))
  | EditSubsection index subIndex text =>
      whenShown (stepShown 6 s) s
        (default s (editSubsection (sharedAt aliases index) index subIndex text s))
  | UploadFile kind fileName extracted =>
      whenShown (stepShown match kind with EssayUpload => 4 | AssignmentUpload => 1 end s) s
        (handleFileUpload kind fileName extracted s)
  | JobStatusArrives response =>
      match jobId s with
      | Some job =>
          if Js.truthyString job && isLoading s
          then ((pollJobStatus currentYear response s).1, [GetJobStatus job])
          else (s, [])
      | None => (s, [])
      end
  | EssayStatusArrives response =>
      match essayJobId s with
      | Some job =>
          if Js.truthyString job && isLoading s
          then ((pollEssayStatus response s).1, [GetEssayStatus job])
          else (s, [])
      | None => (s, [])
      end
  | CreditsArrive credits => fetchCredits credits s
  end.

(** The sharing [convertedOutline] sets up: section [k] of the converted
    outline holds the [subtopics] array of component [k]. *)
Definition convertedAliases (o : EssayApi.OutlineResponse) : list (option nat) :=
  map Some (seq 0 (length (EssayApi.outline_components o))).

(** What one event does to the sharing: [addNewSection] appends a section
    with an array of its own, [deleteSection] removes a section, and a
    completed outline job replaces [outline] and [apiOutline] by the
    converted outline and the result it was converted from.  No other
    event, once the wizard is mounted, changes which arrays the sections
    hold. *)
Definition aliasesAfter (ev : Event) (s : State) (aliases : list (option nat))
    : list (option nat) :=
  match ev with
  | AddSection => if stepShown 6 s then (aliases ++ [None])%list else aliases
  | DeleteSection index => if stepShown 6 s then delete index aliases else aliases
  | JobStatusArrives (Js.Resolved status) =>
      match jobId s with
      | Some job =>
          if Js.truthyString job && isLoading s then
            match JobStatus.status status, JobStatus.result status with
            | JobStatus.completed, Some result =>
                convertedAliases (ApiResponse.outline result)
            | _, _ => aliases
            end
          else aliases
      | None => aliases
      end
  | _ => aliases
  end.

(** One event. *)
Definition dispatch (currentYear : Z) (ev : Event) (w : Wizard) : Wizard * list ApiCall :=
  let '(s', calls) := dispatchHooks currentYear ev (shared w) (hooks w) in
  ({| hooks := s'; shared := aliasesAfter ev (hooks w) (shared w) |}, calls).

(** A run of events, with the calls issued along the way. *)
Fixpoint runWizard (currentYear : Z) (events : list Event) (w : Wizard)
    : Wizard * list ApiCall :=
  match events with
  | [] => (w, [])
  | ev :: rest =>
      let '(w1, calls1) := dispatch currentYear ev w in
      let '(w2, calls2) := runWizard currentYear rest w1 in
      (w2, (calls1 ++ calls2)%list)
  end.

(** A wizard none of whose sections shares its array with [apiOutline], as
    it is when the component mounts. *)
Definition mounted (s : State) : Wizard :=
  {| hooks := s;
     shared := map (fun _ => None) (Outline.sections (outline s)) |}.

(** The hooks after a run that starts from such a wizard. *)
Definition run (currentYear : Z) (events : list Event) (s : State) : State * list ApiCall :=
  let '(w, calls) := runWizard currentYear events (mounted s) in (hooks w, calls).

(** The heap invariant behind [shared]: it has an entry per section, no
    component's array is held by two sections, and a section and the
    component it shares its array with show the same content. *)
Definition aligned (w : Wizard) : Prop :=
  length (shared w) = length (Outline.sections (outline (hooks w)))
  /\ (forall i j k, shared w !! i = Some (Some k) -> shared w !! j = Some (Some k) -> i = j)
  /\ (forall i k, shared w !! i = Some (Some k) ->
        exists sec o component,
          Outline.sections (outline (hooks w)) !! i = Some sec
          /\ apiOutline (hooks w) = Some o
          /\ EssayApi.outline_components o !! k = Some component
          /\ EssayApi.subtopics component = OutlineSection.subsections sec).

(** What an outline edit leaves alone: everything the request is built
    from except the [subtopics] of the components, and the step. *)
Definition sameHeadings (s s' : State) : Prop :=
  formData s' = formData s
  /\ citations s' = citations s
  /\ writingAnalysis s' = writingAnalysis s
  /\ currentStep s' = currentStep s
  /\ forall o, apiOutline s = Some o ->
       exists o', apiOutline s' = Some o'
         /\ map EssayApi.main_idea (EssayApi.outline_components o')
            = map EssayApi.main_idea (EssayApi.outline_components o)
         /\ map EssayApi.sources (EssayApi.outline_components o')
            = map EssayApi.sources (EssayApi.outline_components o).

(** The events that edit the outline on step 6. *)
Definition isOutlineEdit (ev : Event) : bool :=
  match ev with
  | AddSection | DeleteSection _ | AddSubsection _ | DeleteSubsection _ _
  | EditSectionTitle _ _ | EditSubsection _ _ _ => true
  | _ => false
  end.

(** Every reachable wizard is on one of its six steps, and on steps 5 and 6
    it holds the outline the back end returned. *)
Definition wellFormed (s : State) : Prop :=
  (1 <= currentStep s <= 6)%Z
  /\ ((5 <= currentStep s)%Z -> is_Some (apiOutline s)).

(** What a completed status with a result leaves behind, whatever the
    state it arrives in. *)
Definition outlineReady (r : Js.Outcome (JobStatus.t ApiResponse.t)) (s' : State) : Prop :=
  match r with
  | Js.Resolved status =>
      match JobStatus.status status, JobStatus.result status with
      | JobStatus.completed, Some result =>
          currentStep s' = 5%Z /\ isLoading s' = false /\ jobId s' = None
          /\ loadingProgress s' = 100%Z
          /\ apiOutline s' = Some (ApiResponse.outline result)
          /\ length (citations s') = length (concat (ApiResponse.sources result))
      | _, _ => True
      end
  | Js.Rejected _ => True
  end.

End WizardUi.

(** ** Sample runs of the wizard *)

Module WizardSamples.
Import EssayForm WizardUi Examples.
Local Open Scope string_scope.

Definition telegraphSource : EssayApi.Source :=
  {| EssayApi.title := "Cables under the Atlantic";
     EssayApi.author := "Mary Ann Evans";
     EssayApi.publication_info := "Journal of Economic History";
     EssayApi.author_last_name := "Evans";
     EssayApi.publication_year := 2019;
     EssayApi.url := "https://example.org/cables";
     EssayApi.apa_citation := "Evans, M. A. (2019). Cables under the Atlantic.";
     EssayApi.relevance := "Covers the financing of the first cable";
     EssayApi.details := "A survey of investors and returns" |}.

Definition marketSource : EssayApi.Source :=
  {| EssayApi.title := "Prices across the ocean";
     EssayApi.author := "Plato";
     EssayApi.publication_info := "";
     EssayApi.author_last_name := "Plato";
     EssayApi.publication_year := 0;
     EssayApi.url := "";
     EssayApi.apa_citation := "";
     EssayApi.relevance := "";
     EssayApi.details := "" |}.

Definition telegraphOutline : EssayApi.OutlineResponse :=
  {| EssayApi.outline_components :=
       [ {| EssayApi.main_idea := "Financing the cable";
            EssayApi.subtopics := ["Investors"; "Returns"];
            EssayApi.sources := None |};
         {| EssayApi.main_idea := "Market integration";
            EssayApi.subtopics := ["Price convergence"];
            EssayApi.sources := None |} ] |}.

Definition telegraphResult : ApiResponse.t :=
  {| ApiResponse.outline := telegraphOutline;
     ApiResponse.writing_analysis := "Measured and formal";
     ApiResponse.sources := [[telegraphSource]; [marketSource]] |}.

Definition completedWithResult : JobStatus.t ApiResponse.t :=
  {| JobStatus.status := JobStatus.completed;
     JobStatus.progress := 100;
     JobStatus.stage := "finding_sources";
     JobStatus.result := Some telegraphResult;
     JobStatus.error := None |}.

Definition anyResponse : Js.Outcome JobResponse.t := Js.Resolved acceptedResponse.

(** From the mount to step 6: the form is filled in, the outline job is
    confirmed, accepted and seen to complete. *)
Definition toOutlineStep : list Event :=
  [ TypeTopic "The economic history of the transatlantic telegraph";
    TypeStudentName "Ada Lovelace";
    TypeProfessorName "Charles Babbage";
    TypeClassName "HIST 101";
    ClickNext anyResponse;
    ClickNext anyResponse;
    SelectWritingStyle "academic";
    ClickNext anyResponse;
    ClickNext anyResponse;
    ClickProceed (Js.Resolved acceptedResponse) (Js.Resolved 0%Z);
    JobStatusArrives (Js.Resolved stillProcessing);
    JobStatusArrives (Js.Resolved completedWithResult);
    ClickNext anyResponse ].

Definition someEdits : list Event :=
  [ AddSection; EditSectionTitle 0 "A different opening"; DeleteSubsection 1 0;
    DeleteSection 1; AddSubsection 0 ].

End WizardSamples.

(** ** frontend/app/api/essay-api.ts: the request functions *)

Module EssayApiHttp.

Local Open Scope string_scope.

(** What [fetch] and the reading of the body can do: the request fails,
    the response is not [ok] and its JSON body, if it parses, may hold a
    [detail] member, or the response is [ok] and its JSON body, if it
    parses, is the value returned. *)
Inductive Fetched (A : Type) : Type :=
| NetworkError (e : Js.Thrown)
| HttpError (errorData : Js.Outcome (option string))
| HttpOk (body : Js.Outcome A).
Global Arguments NetworkError {A} e.
Global Arguments HttpError {A} errorData.
Global Arguments HttpOk {A} body.

(** The body shared by [generateEssayJob] and [getEssayStatus]: take the
    session, refuse without one, fetch, throw the [detail] (or [fallback])
    of a response that is not [ok]; the [catch] block logs and rethrows.
    [session] is the outcome of [supabase.auth.getSession()], reduced to
    the access token. *)
Definition authorizedFetch {A} (fallback : string)
    (session : Js.Outcome (option string)) (fetched : Fetched A) : Js.Outcome A :=
  match session with
  | Js.Rejected e => Js.Rejected e
  | Js.Resolved None => Js.Rejected (Js.ThrownError "Not authenticated")
  | Js.Resolved (Some _) =>
      match fetched with
      | NetworkError e => Js.Rejected e
      | HttpError (Js.Resolved detail) => Js.Rejected (Js.ThrownError (Js.orString detail fallback))
      | HttpError (Js.Rejected e) => Js.Rejected e
      | HttpOk body => body
      end
  end.

(** [generateEssayJob]. *)
Definition generateEssayJob
    (session : Js.Outcome (option string)) (fetched : Fetched JobResponse.t)
    : Js.Outcome JobResponse.t :=
  authorizedFetch "Failed to start essay generation" session fetched.

(** [getEssayStatus]. *)
Definition getEssayStatus
    (session : Js.Outcome (option string)) (fetched : Fetched (JobStatus.t EssayResult.t))
    : Js.Outcome (JobStatus.t EssayResult.t) :=
  authorizedFetch "Failed to get essay status" session fetched.

(** What [api.get] rejects with when the server answers with an error
    status: an [AxiosError], which is an [Error] whose [message] axios
    writes ("Request failed with status code ...") and whose [response]
    holds the body the server sent. *)
Record AxiosError : Type := {
  message : string;
  response : option ServicesApi.ErrorResponse
}.

(** The error as a [catch] clause that reads [err.message] sees it. *)
Definition thrown (e : AxiosError) : Js.Thrown := Js.ThrownError (message e).

(** The error as the guards of services/api.ts, which read
    [error.response.data.error], see it. *)
Definition caught (e : AxiosError) : ServicesApi.Caught :=
  ServicesApi.ErrorObject (response e).

(** [startOutlineAndSourcesJob] of essay-api.ts, the one the wizard
    imports, given what [api.get] did: it returns the body, or logs and
    rethrows. *)
Definition startOutlineAndSourcesJob (outcome : JobResponse.t + AxiosError)
    : Js.Outcome JobResponse.t :=
  match outcome with
  | inl body => Js.Resolved body
  | inr e => Js.Rejected (thrown e)
  end.

(** A refusal for lack of credits, as [api.get] rejects with it. *)
Definition refusedForCredits : AxiosError :=
  {| message := "Request failed with status code 402";
     response :=
       Some {| ServicesApi.data :=
                 Some {| ServicesApi.data_error :=
                           Some (ServicesApi.ErrorString
                                   "Insufficient credits: 1 available") |} |} |}.

(** [String.prototype.toUpperCase] on the ASCII letters, which is all the
    citation formats of the wizard contain. *)
Definition upperChar (c : Ascii.ascii) : Ascii.ascii :=
  let n := Ascii.N_of_ascii c in
  if (97 <=? n)%N && (n <=? 122)%N then Ascii.ascii_of_N (n - 32) else c.

Fixpoint toUpperCase (s : string) : string :=
  match s with
  | EmptyString => EmptyString
  | String c rest => String (upperChar c) (toUpperCase rest)
  end.

(** A [URLSearchParams]: the pairs in the order they were added. *)
Definition appendIf (value : string) (key : string) (params : list (string * string))
    : list (string * string) :=
  if Js.truthyString value then (params ++ [(key, value)])%list else params.

(** The parameters [startOutlineAndSourcesJob] puts in the query string. *)
Definition startOutlineAndSourcesJob_params (request : EssayApi.OutlineRequest)
    : list (string * string) :=
  appendIf (EssayApi.previous_essay request) "previous_essay"
    (appendIf (EssayApi.assignment_description request) "assignment_description"
       [ ("topic", EssayApi.topic request);
         ("writing_style", EssayApi.writing_style request);
         ("word_count", pretty (EssayApi.word_count request));
         ("citation_format", toUpperCase (EssayApi.citation_format request));
         ("num_sources", pretty (EssayApi.num_sources request)) ]).

(** The parameters [getOutlineAndSources] puts in the query string; it
    starts with [previous_essay: request.previous_essay || ""] already in
    place. *)
Definition getOutlineAndSources_params (request : EssayApi.OutlineRequest)
    : list (string * string) :=
  appendIf (EssayApi.previous_essay request) "previous_essay"
    (appendIf (EssayApi.assignment_description request) "assignment_description"
       [ ("topic", EssayApi.topic request);
         ("writing_style", EssayApi.writing_style request);
         ("word_count", pretty (EssayApi.word_count request));
         ("citation_format", toUpperCase (EssayApi.citation_format request));
         ("num_sources", pretty (EssayApi.num_sources request));
         ("previous_essay", EssayApi.previous_essay request) ]).

(** [URLSearchParams.getAll]. *)
Definition getAll (key : string) (params : list (string * string)) : list string :=
  map snd (filter (fun kv => kv.1 = key) params).

End EssayApiHttp.

(** ** frontend/app/components/essay-form.tsx: [extractTextFromFile] *)

Module FileText.

Local Open Scope string_scope.

(** [s.split(sep).pop()]: what follows the last [sep], or all of [s]. *)
Fixpoint hasChar (sep : Ascii.ascii) (s : string) : bool :=
  match s with
  | EmptyString => false
  | String c rest => Ascii.eqb c sep || hasChar sep rest
  end.

Fixpoint lastSegment (sep : Ascii.ascii) (s : string) : string :=
  match s with
  | EmptyString => EmptyString
  | String c rest =>
      if hasChar sep rest then lastSegment sep rest
      else if Ascii.eqb c sep then rest else s
  end.

(** [String.prototype.toLowerCase] on the ASCII letters. *)
Definition lowerChar (c : Ascii.ascii) : Ascii.ascii :=
  let n := Ascii.N_of_ascii c in
  if (65 <=? n)%N && (n <=? 90)%N then Ascii.ascii_of_N (n + 32) else c.

Fixpoint toLowerCase (s : string) : string :=
  match s with
  | EmptyString => EmptyString
  | String c rest => String (lowerChar c) (toLowerCase rest)
  end.

(** [file.name.split('.').pop()?.toLowerCase()]. *)
Definition fileType (name : string) : string := toLowerCase (lastSegment "."%char name).

(** What [extractTextFromFile] does with a file: hand it to one of the two
    extraction libraries, or throw. *)
Inductive Extraction : Type :=
| WithPdfJs
| WithMammoth
| Throw (message : string).

Definition extractionFor (fileType : string) : Extraction :=
  if String.eqb fileType "pdf" then WithPdfJs
  else if String.eqb fileType "docx" then WithMammoth
  else if String.eqb fileType "doc" then
    Throw "DOC files are not fully supported. Please convert to DOCX or PDF, or paste the content manually."
  else Throw "Unsupported file type. Please upload a PDF or DOCX file.".

Definition extractTextFromFile (name : string) : Extraction :=
  extractionFor (fileType name).

End FileText.

(** ** frontend/app/services/api.ts: the paper request *)

Module ServicesApiPaper.

Local Open Scope string_scope.

(** [getNumSections]. *)
Definition getNumSections (length : string) : Z :=
  if String.eqb length "short" then 3
  else if String.eqb length "medium" then 5
  else if String.eqb length "long" then 7
  else if String.eqb length "extra-long" then 9
  else 5.

(** [getVocabLevel]. *)
Definition getVocabLevel (type : string) : Z :=
  if String.eqb type "argumentative" then 3
  else if String.eqb type "expository" then 2
  else if String.eqb type "narrative" then 2
  else if String.eqb type "descriptive" then 3
  else if String.eqb type "compare-contrast" then 3
  else if String.eqb type "research" then 4
  else 2.

(** The argument of [essayAPI.generateEssay], as far as the function reads
    it; a member that is absent is [None]. *)
Record EssayInput : Type := {
  topic : option string;
  additionalInfo : option string;
  length : string;
  type : string;
  studentName : option string;
  professorName : option string;
  className : option string
}.

(** The body [essayAPI.generateEssay] posts to [/api/v1/generate-paper]. *)
Record PaperDetails : Type := {
  title : option string;
  description : option string;
  num_sections : Z;
  vocab_level : Z
}.

Record StudentDetails : Type := {
  student_name : string;
  professor_name : string;
  class_name : string
}.

Record PaperRequest : Type := {
  paper_details : PaperDetails;
  student_details : StudentDetails
}.

Definition generateEssay_body (essayData : EssayInput) : PaperRequest :=
  {| paper_details :=
       {| title := topic essayData;
          description := additionalInfo essayData;
          num_sections := getNumSections (length essayData);
          vocab_level := getVocabLevel (type essayData) |};
     student_details :=
       {| student_name := Js.orString (studentName essayData) "Student";
          professor_name := Js.orString (professorName essayData) "Professor";
          class_name := Js.orString (className essayData) (type essayData) |} |}.

End ServicesApiPaper.

(** ** frontend/middleware/csrf.ts: [generateToken] *)

Module CsrfToken.

Local Open Scope string_scope.

(** The digit [Number.prototype.toString(16)] writes for a value below
    16. *)
Definition hexDigit (d : N) : Ascii.ascii :=
  match String.get (N.to_nat d) "0123456789abcdef" with
  | Some c => c
  | None => "0"%char
  end.

(** [n.toString(16)]; sixteen digits are enough for any value below
    [2^64], and a [Uint8Array] holds values below 256. *)
Fixpoint toString16_digits (fuel : nat) (n : N) (acc : string) : string :=
  match fuel with
  | O => acc
  | S fuel' =>
      let acc' := String (hexDigit (n mod 16)) acc in
      if (n / 16 =? 0)%N then acc' else toString16_digits fuel' (n / 16) acc'
  end.

Definition toString16 (n : N) : string := toString16_digits 16 n "".

(** [s.padStart(targetLength, fill)] with a one-character [fill]. *)
Fixpoint replicateChar (k : nat) (fill : Ascii.ascii) (s : string) : string :=
  match k with
  | O => s
  | S k' => String fill (replicateChar k' fill s)
  end.

Definition padStart (targetLength : nat) (fill : Ascii.ascii) (s : string) : string :=
  replicateChar (targetLength - String.length s) fill s.

Definition byteToHex (byte : N) : string := padStart 2 "0"%char (toString16 byte).

(** [Array.from(buffer).map(...).join('')]. *)
Fixpoint joinAll (parts : list string) : string :=
  match parts with
  | [] => ""
  | p :: rest => p +:+ joinAll rest
  end.

(** [generateToken], given the 32 values [crypto.getRandomValues] wrote
    into the buffer. *)
Definition generateToken (buffer : list N) : string := joinAll (map byteToHex buffer).

(** A [Uint8Array] of the given length. *)
Definition isUint8Array (len : nat) (buffer : list N) : Prop :=
  List.length buffer = len /\ Forall (fun b => (b < 256)%N) buffer.

Definition isHexChar (c : Ascii.ascii) : bool :=
  let n := Ascii.N_of_ascii c in
  ((48 <=? n)%N && (n <=? 57)%N) || ((97 <=? n)%N && (n <=? 102)%N).

Fixpoint allChars (p : Ascii.ascii -> bool) (s : string) : bool :=
  match s with
  | EmptyString => true
  | String c rest => p c && allChars p rest
  end.

End CsrfToken.

(** ** The root middleware, which calls [csrfMiddleware] *)

Module Middleware.

Local Open Scope string_scope.

Definition authRoutes : list string := ["/signin"; "/signup"; "/forgot-password"].
Definition publicRoutes : list string :=
  ["/auth/verify-email"; "/auth/callback"; "/"; "/about"; "/terms-of-service";
   "/privacy-policy"].
Definition authProtectedRoutes : list string :=
  ["/dashboard"; "/dashboard/papers"; "/dashboard/buy-credits"; "/dashboard/help"].
Definition apiRoutes : list string := ["/api/v1"].

Record Request : Type := {
  pathname : string;              (* [req.nextUrl.pathname] *)
  hasCode : bool;                 (* [req.nextUrl.searchParams.has('code')] *)
  csrfPart : Csrf.NextRequest     (* method, csrf cookie and csrf header *)
}.

(** [supabase.auth.getSession()] resolves to [{ data: { session }, error }]. *)
Record SessionResponse : Type := {
  session : option string;
  sessionError : option string
}.

(** What the middleware returns: its own [NextResponse.next()], the 403 of
    the CSRF check, or a redirect (which, after a session error, also
    expires the [sb-auth-token] cookie). *)
Inductive Response : Type :=
| Continue
| CsrfRefused (response : Csrf.NextResponse)
| RedirectTo (path : string) (redirectParam : option string) (expiresAuthCookie : bool).

(** [pathname.startsWith(route)]. *)
Definition startsWith (pathname route : string) : bool := String.prefix route pathname.

Section WithDigest.
Variable digestHex : string -> string.
Variable CSRF_SECRET : string.

Definition isPublic (pathname : string) : bool :=
  existsb (fun route => String.eqb pathname route || startsWith pathname route) publicRoutes.

(** [middleware] from the check of the auth callback on; [sessionCheck] is
    the outcome of the awaited [getSession], consulted only if the function
    gets that far. *)
Definition routeBySession (sessionCheck : Js.Outcome SessionResponse) (req : Request)
    : Response :=
  if String.eqb (pathname req) "/auth/callback" && hasCode req then Continue
  else if isPublic (pathname req) then Continue
  else
    let isProtectedRoute := existsb (startsWith (pathname req)) authProtectedRoutes in
    let isAuthRoute := existsb (String.eqb (pathname req)) authRoutes in
    if negb isProtectedRoute && negb isAuthRoute then Continue
    else
      match sessionCheck with
      | Js.Rejected _ => Continue
      | Js.Resolved r =>
          match sessionError r with
          | Some _ => RedirectTo "/signin" None true
          | None =>
              if isProtectedRoute && negb (UserProfile.isSome (session r))
              then RedirectTo "/signin" (Some (pathname req)) false
              else if isAuthRoute && UserProfile.isSome (session r)
              then RedirectTo "/dashboard" None false
              else Continue
          end
      end.

(** [middleware]; [generated] is the token [csrfMiddleware] would
    generate. *)
Definition middleware (generated : string) (sessionCheck : Js.Outcome SessionResponse)
    (req : Request) : Response :=
  if existsb (startsWith (pathname req)) apiRoutes then
    let csrfResponse := Csrf.csrfMiddleware digestHex CSRF_SECRET generated (csrfPart req) in
    if (Csrf.status csrfResponse =? 403)%Z then CsrfRefused csrfResponse
    else routeBySession sessionCheck req
  else routeBySession sessionCheck req.

End WithDigest.

End Middleware.

(** ** frontend/app/contexts/AuthContext.tsx: [AuthProvider] *)

Module AuthProvider.

Import AuthContext.
Local Open Scope string_scope.

(** The events Supabase passes to the [onAuthStateChange] callback. *)
Inductive AuthChangeEvent : Type :=
| INITIAL_SESSION
| SIGNED_IN
| SIGNED_OUT
| TOKEN_REFRESHED
| USER_UPDATED
| PASSWORD_RECOVERY.

(** The members of a Supabase [User] the provider reads; [identities]
    holds the [provider] of each identity. *)
Record User : Type := {
  id : string;
  email : option string;
  identities : option (list string)
}.

Record Session : Type := {
  user : User
}.

(** The provider's [useState] cells that the session handlers write. *)
Record State : Type := {
  currentUser : option User;       (* [user] *)
  currentSession : option Session; (* [session] *)
  isLoading : bool;
  hasGoogleConnected : bool
}.

(** [isAuthenticated: !!user]. *)
Definition isAuthenticated (s : State) : bool := UserProfile.isSome (currentUser s).

(** [!!user.identities?.some(identity => identity.provider === 'google')]. *)
Definition hasGoogle (u : User) : bool :=
  match identities u with
  | Some providers => existsb (String.eqb "google") providers
  | None => false
  end.

(** The two readings of the clock and the faults of one call of
    [ensureUserProfile]. *)
Record ProfileCall : Type := {
  now1 : string;
  now2 : string;
  faults : Faults
}.

Definition ensureFor (u : User) (c : ProfileCall) (w : World) : World :=
  ensureUserProfile (id u) (Js.orString (email u) "") (now1 c) (now2 c) (faults c) w.

(** The callback registered with [supabase.auth.onAuthStateChange]. *)
Definition onAuthStateChange (event : AuthChangeEvent) (session : option Session)
    (c : ProfileCall) (sw : State * World) : State * World :=
  let '(s, w) := sw in
  let s1 := {| currentUser := user <$> session;
               currentSession := session;
               isLoading := false;
               hasGoogleConnected := hasGoogleConnected s |} in
  let '(s2, w2) :=
    match session, event with
    | Some sess, SIGNED_IN | Some sess, USER_UPDATED =>
        ({| currentUser := currentUser s1;
            currentSession := currentSession s1;
            isLoading := isLoading s1;
            hasGoogleConnected := hasGoogle (user sess) |},
         ensureFor (user sess) c w)
    | _, _ => (s1, w)
    end in
  match event with
  | SIGNED_OUT =>
      ({| currentUser := None;
          currentSession := None;
          isLoading := isLoading s2;
          hasGoogleConnected := false |}, w2)
  | _ => (s2, w2)
  end.

(** [supabase.auth.getSession()] resolves to [{ data: { session }, error }]. *)
Record SessionResponse : Type := {
  session : option Session;
  sessionError : option string
}.

Definition forgetToken (w : World) : World :=
  {| localStorage := delete "supabase.auth.token" (localStorage w);
     user_profiles := user_profiles w |}.

(** [loadSession], run once when the provider mounts. *)
Definition loadSession (getSession : Js.Outcome SessionResponse) (c : ProfileCall)
    (sw : State * World) : State * World :=
  let '(s, w) := sw in
  match getSession with
  | Js.Resolved r =>
      match sessionError r, session r with
      | Some _, _ | None, None =>
          ({| currentUser := None;
              currentSession := None;
              isLoading := false;
              hasGoogleConnected := hasGoogleConnected s |}, forgetToken w)
      | None, Some sess =>
          ({| currentUser := Some (user sess);
              currentSession := Some sess;
              isLoading := false;
              hasGoogleConnected := hasGoogleConnected s |},
           ensureFor (user sess) c w)
      end
  | Js.Rejected _ =>
      ({| currentUser := currentUser s;
          currentSession := currentSession s;
          isLoading := false;
          hasGoogleConnected := hasGoogleConnected s |}, w)
  end.

(** [key.startsWith('profile_created_')]. *)
Definition isProfileFlag (key : string) : bool := String.prefix "profile_created_" key.

(** The [Object.keys(localStorage).forEach] loop of [logout]. *)
Definition clearProfileFlags (storage : gmap string string) : gmap string string :=
  filter (fun kv => isProfileFlag kv.1 = false) storage.

(** What the awaited [signOut()] does.  It is [supabase.auth.signOut()] on
    the client of supabaseConfig.ts, created with [persistSession: true]
    and a storage adapter over [localStorage]: besides resolving, with or
    without an [error], or rejecting, the call removes, through the
    adapter's [removeItem], the keys under which the client had persisted
    the session.  The client library is not among the sources; [removed]
    lists the keys it removes during the call. *)
Record SignOut : Type := {
  outcome : Fault;
  removed : list string
}.

(** The adapter's [removeItem], once per key. *)
Definition removeItems (keys : list string) (storage : gmap string string)
    : gmap string string :=
  foldr delete storage keys.

(** [logout]. *)
Definition logout (signOut : SignOut) (sw : State * World) : State * World :=
  let '(s, w) := sw in
  let s' := {| currentUser := currentUser s;
               currentSession := currentSession s;
               isLoading := false;
               hasGoogleConnected := hasGoogleConnected s |} in
  let storage := removeItems (removed signOut) (localStorage w) in
  match outcome signOut with
  | NoFault =>
      (s', {| localStorage := clearProfileFlags storage;
              user_profiles := user_profiles w |})
  | _ => (s', {| localStorage := storage; user_profiles := user_profiles w |})
  end.

(** What can happen to a mounted provider. *)
Inductive Action : Type :=
| SessionLoads (getSession : Js.Outcome SessionResponse) (c : ProfileCall)
| AuthChange (event : AuthChangeEvent) (session : option Session) (c : ProfileCall)
| Logout (signOut : SignOut).

Definition act (a : Action) (sw : State * World) : State * World :=
  match a with
  | SessionLoads getSession c => loadSession getSession c sw
  | AuthChange event session c => onAuthStateChange event session c sw
  | Logout signOut => logout signOut sw
  end.

Definition run (actions : list Action) (sw : State * World) : State * World :=
  fold_left (fun acc a => act a acc) actions sw.

(** The balance the table holds for a user, if it holds a row. *)
Definition balance (w : World) (userId : string) : option Z :=
  UserProfile.credits <$> (user_profiles w !! userId).

(** How a table may differ from an earlier one as far as balances go: a
    balance that was there is still there, and one that was not is absent
    or the starting balance. *)
Definition balancesKept (w w' : World) : Prop :=
  forall userId,
    match balance w userId with
    | Some credits => balance w' userId = Some credits
    | None => balance w' userId = None \/ balance w' userId = Some 2%Z
    end.

End AuthProvider.

(** ** The buy-credits page *)

Module BuyCredits.

Record State : Type := {
  quantity : Z;
  isLoading : bool
}.

Definition initial : State := {| quantity := 1; isLoading := false |}.

(** [incrementQuantity]. *)
Definition incrementQuantity (s : State) : State :=
  {| quantity := quantity s + 1; isLoading := isLoading s |}.

(** [decrementQuantity]. *)
Definition decrementQuantity (s : State) : State :=
  {| quantity := if 1 <? quantity s then quantity s - 1 else 1;
     isLoading := isLoading s |}.

(** [handlePurchase]: the quantity it passes to
    [essayAPI.createCheckoutSession], and the state once the call has
    settled either way. *)
Definition handlePurchase (s : State) : State * list Z :=
  ({| quantity := quantity s; isLoading := false |}, [quantity s]).

(** The amount shown, [25 * quantity], in dollars. *)
Definition price (s : State) : Z := 25 * quantity s.

(** [`Buy ${quantity} Credit${quantity > 1 ? 's' : ''}`]: whether the
    plural is written. *)
Definition plural (s : State) : bool := 1 <? quantity s.

Inductive Click : Type :=
| Minus
| Plus
| Buy.

(** A click, with the [disabled] attribute of each button. *)
Definition click (c : Click) (sr : State * list Z) : State * list Z :=
  let '(s, sent) := sr in
  match c with
  | Minus => if quantity s <=? 1 then (s, sent) else (decrementQuantity s, sent)
  | Plus => (incrementQuantity s, sent)
  | Buy =>
      if isLoading s then (s, sent)
      else let '(s', q) := handlePurchase s in (s', (sent ++ q)%list)
  end.

Definition clicks (cs : list Click) : State * list Z :=
  fold_left (fun acc c => click c acc) cs (initial, []).

End BuyCredits.

(** ** frontend/lib: the papers table *)

Module Papers.

Local Open Scope string_scope.

Inductive Status : Type :=
| draft
| complete
| archived.

Record Paper : Type := {
  id : string;
  created_at : string;
  updated_at : string;
  user_id : string;
  title : string;
  content : option string;
  status : Status;
  word_count : Z;
  citation_format : option string
}.

Record CreatePaperInput : Type := {
  input_title : string;
  input_content : option string;
  input_status : option Status;
  input_word_count : option Z;
  input_citation_format : option string
}.

(** The object [createPaper] inserts; the [metadata] member, an opaque
    object, is left out. *)
Record Row : Type := {
  row_user_id : string;
  row_title : string;
  row_content : string;
  row_status : Status;
  row_word_count : Z;
  row_citation_format : option string;
  row_created_at : string;
  row_updated_at : string
}.

(** A query resolves to [{ data, error }]. *)
Record Response (A : Type) : Type := {
  data : option A;
  error : option string
}.
Global Arguments data {A} _.
Global Arguments error {A} _.

(** The Supabase client as the functions see it; every call may reject.
    [auth_getUser] gives [data.user], the id of the signed-in user. *)
Record Client : Type := {
  auth_getUser : Js.Outcome (option string);
  insert_single : Row -> Js.Outcome (Response Paper);
  select_by_user : string -> Js.Outcome (Response (list Paper));
  count_by_user : string -> Js.Outcome (Response Z)
}.

(** What a function asked of the table. *)
Inductive Query : Type :=
| Insert (row : Row)
| SelectByUser (userId : string)
| CountByUser (userId : string).

Definition rowFor (userId now1 now2 : string) (input : CreatePaperInput) : Row :=
  {| row_user_id := userId;
     row_title := input_title input;
     row_content := Js.orString (input_content input) "";
     row_status := default draft (input_status input);
     row_word_count := Js.orZero (input_word_count input);
     row_citation_format := input_citation_format input;
     row_created_at := now1;
     row_updated_at := now2 |}.

(** [createPaper]: its result and the queries it sent. *)
Definition createPaper (supabase : Client) (now1 now2 : string) (input : CreatePaperInput)
    : option Paper * list Query :=
  match auth_getUser supabase with
  | Js.Resolved (Some userId) =>
      let row := rowFor userId now1 now2 input in
      match insert_single supabase row with
      | Js.Resolved r =>
          (if UserProfile.isSome (error r) then None else data r, [Insert row])
      | Js.Rejected _ => (None, [Insert row])
      end
  | Js.Resolved None => (None, [])
  | Js.Rejected _ => (None, [])
  end.

(** [getUserPapers]. *)
Definition getUserPapers (supabase : Client) : list Paper * list Query :=
  match auth_getUser supabase with
  | Js.Resolved (Some userId) =>
      match select_by_user supabase userId with
      | Js.Resolved r =>
          (if UserProfile.isSome (error r) then [] else default [] (data r),
           [SelectByUser userId])
      | Js.Rejected _ => ([], [SelectByUser userId])
      end
  | Js.Resolved None => ([], [])
  | Js.Rejected _ => ([], [])
  end.

(** [countUserPapers]. *)
Definition countUserPapers (supabase : Client) : Z * list Query :=
  match auth_getUser supabase with
  | Js.Resolved (Some userId) =>
      match count_by_user supabase userId with
      | Js.Resolved r =>
          (if UserProfile.isSome (error r) then 0 else Js.orZero (data r),
           [CountByUser userId])
      | Js.Rejected _ => (0, [CountByUser userId])
      end
  | Js.Resolved None => (0, [])
  | Js.Rejected _ => (0, [])
  end.

(** The user a query is made for. *)
Definition queriedUser (q : Query) : string :=
  match q with
  | Insert row => row_user_id row
  | SelectByUser userId => userId
  | CountByUser userId => userId
  end.

End Papers.

(** * Properties *)

(** ** JavaScript helpers *)

Lemma truthy_Some (e : string) : Js.truthy (Some e) = true <-> e <> EmptyString.
Proof.
  unfold Js.truthy, Js.truthyString.
  destruct (String.eqb_spec e "") as [-> | Hne]; simpl; split; congruence.
Qed.

Lemma orString_truthy (e d : string) :
  Js.truthyString e = true -> Js.orString (Some e) d = e.
Proof. unfold Js.orString. now intros ->. Qed.

Lemma includes_nonempty (needle hay : string) :
  needle <> EmptyString -> Js.includes needle hay = true -> Js.truthyString hay = true.
Proof.
  intros Hn. destruct hay as [| c hay]; [| reflexivity].
  destruct needle; [congruence | discriminate].
Qed.

(** ** The submit handlers and the start-over action *)

Section Wizard.
Import EssayForm Examples.
Local Open Scope string_scope.

Lemma keepsInput_trans (a b c : State) :
  keepsInput a b -> keepsInput b c -> keepsInput a c.
Proof. unfold keepsInput. intuition congruence. Qed.

Lemma isGuardrailError_truthy (e : string) :
  isGuardrailError e = true -> Js.truthyString e = true.
Proof.
  unfold isGuardrailError. intros [H | H]%orb_true_iff;
    (eapply includes_nonempty; [| exact H]); discriminate.
Qed.

(** C3.  When the response to the outline-and-sources submission carries an
    error message, [fetchSourcesAndOutline] tells a guardrail rejection
    (the message contains "Malicious prompt" or "detected something
    strange") from any other failure: the former sends the wizard to step
    1, the topic step, with the rewrite message; the latter is handled
    exactly like a thrown error, which shows the message and leaves the
    step alone.  Neither stores a job id. *)
Theorem outline_guardrail_returns_to_topic_step
    (s : State) (r : JobResponse.t) (e : string) :
  JobResponse.error r = Some e ->
  e <> "" ->
  let s' := (fetchSourcesAndOutline (Js.Resolved r) s).1 in
  isLoading s' = false /\ jobId s' = jobId s /\
  if isGuardrailError e
  then currentStep s' = 1%Z /\ getStepTitle s' = "Essay Topic"
       /\ error s' = Some guardrailTopicMessage
  else s' = (fetchSourcesAndOutline (Js.Rejected (Js.ThrownError e)) s).1
       /\ currentStep s' = currentStep s
       /\ error s' = Some e.
Proof.
  intros He Hne. apply truthy_Some in Hne.
  unfold fetchSourcesAndOutline. cbn [fst]. rewrite He, Hne.
  rewrite (orString_truthy e "") by exact Hne.
  destruct s, (isGuardrailError e); cbn; repeat split; reflexivity.
Qed.

Lemma outline_guardrail_returns_to_topic_step_witness :
  JobResponse.error guardrailResponse = Some "Malicious prompt detected" /\
  "Malicious prompt detected" <> "" /\
  currentStep (fetchSourcesAndOutline (Js.Resolved guardrailResponse) readyForOutline).1 = 1%Z.
Proof.
  split; [reflexivity | split; [discriminate |]].
  exact (proj1 (proj2 (proj2
    (outline_guardrail_returns_to_topic_step readyForOutline guardrailResponse
       "Malicious prompt detected" eq_refl ltac:(discriminate))))).
Defined.

(** What [generateFinalEssay] does with an error in the response. *)
Lemma generateFinalEssay_error (s : State) (r : JobResponse.t) (e : string) :
  JobResponse.error r = Some e ->
  e <> "" ->
  let s' := (generateFinalEssay (Js.Resolved r) s).1 in
  isLoading s' = false /\ essayJobId s' = essayJobId s /\ isGeneratingEssay s' = false /\
  if isGuardrailError e
  then currentStep s' = 2%Z /\ error s' = Some guardrailOutlineMessage
  else s' = (generateFinalEssay (Js.Rejected (Js.ThrownError e)) s).1
       /\ currentStep s' = currentStep s
       /\ error s' = Some e.
Proof.
  intros He Hne. apply truthy_Some in Hne.
  unfold generateFinalEssay. cbn [fst]. rewrite He, Hne.
  rewrite (orString_truthy e "") by exact Hne.
  destruct s, (isGuardrailError e); cbn; repeat split; reflexivity.
Qed.

(** C2.  When the response to the essay submission carries a guardrail
    rejection, [generateFinalEssay] shows the outline message and sets the
    step to 2.  Step 2 is titled "Word Count"; the outline is edited on
    step 6, from which the submission is made.  The start-over button of
    the error view then clears the error and leaves the wizard on step 2
    (or moves it to step 1 if [isGeneratingOutline] was still up), so the
    outline-editing step is not where the user ends up. *)
Theorem essay_guardrail_lands_on_word_count_step
    (s : State) (r : JobResponse.t) (e : string) :
  JobResponse.error r = Some e ->
  isGuardrailError e = true ->
  let rejected := (generateFinalEssay (Js.Resolved r) s).1 in
  let restarted := (handleStartOver rejected).1 in
  error rejected = Some guardrailOutlineMessage
  /\ errorViewShown rejected = true
  /\ currentStep rejected = 2%Z
  /\ getStepTitle rejected = "Word Count"
  /\ errorViewShown restarted = false
  /\ currentStep restarted = (if isGeneratingOutline s then 1 else 2)%Z
  /\ currentStep restarted <> 6%Z
  /\ getStepTitle restarted <> "Outline".
Proof.
  intros He Hg. cbn zeta.
  pose proof (isGuardrailError_truthy e Hg) as Hne.
  unfold generateFinalEssay. cbn [fst]. rewrite He. cbn [Js.truthy]. rewrite Hne.
  rewrite (orString_truthy e "" Hne), Hg.
  destruct s as [step fd uf ua ci ol pa wa pe il lp ls gs ao so er ji sc uc ic ej gO gE].
  destruct gO; cbn; repeat split; discriminate.
Qed.

Lemma essay_guardrail_lands_on_word_count_step_witness :
  JobResponse.error guardrailResponse = Some "Malicious prompt detected"
  /\ isGuardrailError "Malicious prompt detected" = true
  /\ getStepTitle readyForEssay = "Outline"
  /\ getStepTitle
       (handleStartOver (generateFinalEssay (Js.Resolved guardrailResponse) readyForEssay).1).1
     = "Word Count".
Proof.
  pose proof (essay_guardrail_lands_on_word_count_step readyForEssay guardrailResponse
                "Malicious prompt detected" eq_refl eq_refl) as H.
  cbn zeta in H. destruct H as (_ & _ & _ & _ & _ & Hstep & _).
  refine (conj eq_refl (conj eq_refl (conj eq_refl _))).
  unfold getStepTitle. rewrite Hstep. reflexivity.
Defined.

Lemma orString_fallback_truthy (x : option string) (d : string) :
  Js.truthyString d = true -> Js.truthy (Some (Js.orString x d)) = true.
Proof.
  intros Hd. unfold Js.orString. destruct x as [e |]; [| exact Hd].
  destruct (Js.truthyString e) eqn:He; [exact He | exact Hd].
Qed.

(** A job seen to fail puts its error on display and keeps what the user
    entered, the step and the credit count. *)
Lemma failed_outline_job_keeps_input y (status : JobStatus.t ApiResponse.t) s0 :
  JobStatus.status status = JobStatus.failed ->
  let failed := (pollJobStatus y (Js.Resolved status) s0).1 in
  errorViewShown failed = true /\ keepsInput s0 failed
  /\ currentStep failed = currentStep s0 /\ userCredits failed = userCredits s0
  /\ isGeneratingOutline failed = false
  /\ isGeneratingEssay failed = isGeneratingEssay s0.
Proof.
  intros Hst. unfold errorViewShown, keepsInput, pollJobStatus. rewrite Hst.
  destruct status as [st pr sg res err], s0; cbn.
  split; [| repeat match goal with
                   | |- context [if String.eqb ?a ?b then _ else _] =>
                       destruct (String.eqb a b); cbn
                   end; repeat split; reflexivity].
  repeat match goal with
         | |- context [if String.eqb ?a ?b then _ else _] => destruct (String.eqb a b); cbn
         end; now apply (orString_fallback_truthy err "Job failed").
Qed.

Lemma failed_essay_job_keeps_input (status : JobStatus.t EssayResult.t) s0 :
  JobStatus.status status = JobStatus.failed ->
  let failed := (pollEssayStatus (Js.Resolved status) s0).1 in
  errorViewShown failed = true /\ keepsInput s0 failed
  /\ currentStep failed = currentStep s0 /\ userCredits failed = userCredits s0
  /\ isGeneratingEssay failed = false
  /\ isGeneratingOutline failed = isGeneratingOutline s0.
Proof.
  intros Hst. unfold errorViewShown, keepsInput, pollEssayStatus, generationStageOf.
  rewrite Hst. destruct status as [st pr sg res err], s0; cbn.
  split; [| repeat match goal with
                   | |- context [if String.eqb ?a ?b then _ else _] =>
                       destruct (String.eqb a b); cbn
                   end; repeat split; reflexivity].
  repeat match goal with
         | |- context [if String.eqb ?a ?b then _ else _] => destruct (String.eqb a b); cbn
         end; now apply (orString_fallback_truthy err "Essay generation failed").
Qed.

(** What [handleStartOver] does while an error is on display. *)
Lemma handleStartOver_on_error (s : State) :
  errorViewShown s = true ->
  let s' := (handleStartOver s).1 in
  (handleStartOver s).2 = []
  /\ keepsInput s s'
  /\ outline s' = outline s
  /\ citations s' = citations s
  /\ writingAnalysis s' = writingAnalysis s
  /\ userCredits s' = userCredits s
  /\ jobId s' = jobId s
  /\ essayJobId s' = essayJobId s
  /\ error s' = None
  /\ currentStep s' =
       (if isGeneratingEssay s || (currentStep s =? 4)%Z then 3
        else if isGeneratingOutline s || (currentStep s =? 3)%Z then 1
        else currentStep s)%Z.
Proof.
  unfold errorViewShown, handleStartOver, keepsInput.
  destruct s as [step fd uf ua ci ol pa wa pe il lp ls gs ao so er ji sc uc ic ej gO gE].
  cbn. intros ->.
  destruct gO, gE;
    destruct (Z.eqb_spec step 4) as [H4 | H4];
    destruct (Z.eqb_spec step 3) as [H3 | H3];
    cbn; repeat split; reflexivity.
Qed.

(** C7.  A job seen to fail (by either poller, from any state [s0]) puts
    its error on display without touching what the user entered, and with
    the error on display the start-over action issues no request, hence no
    debit, and keeps that input and the credit count.  The step it returns
    to is not the one its comments name.  When the error is shown both
    generating flags are already down, so the step alone picks the branch.
    An outline job is started from step 4; its failure therefore takes the
    branch "error occurred during essay generation, go back to outline
    step" and lands on step 3, "Format & Style", not on the input step that
    the branch for outline failures would set.  An essay job is started
    from step 6; its failure takes neither branch and the wizard stays on
    step 6. *)
Theorem start_over_after_failure_lands_on_stale_step
    (s0 : State) (y : Z)
    (status : JobStatus.t ApiResponse.t) (essayStatus : JobStatus.t EssayResult.t) :
  JobStatus.status status = JobStatus.failed ->
  JobStatus.status essayStatus = JobStatus.failed ->
  let failedOutline := (pollJobStatus y (Js.Resolved status) s0).1 in
  let failedEssay := (pollEssayStatus (Js.Resolved essayStatus) s0).1 in
  errorViewShown failedOutline = true
  /\ errorViewShown failedEssay = true
  /\ isGeneratingOutline failedOutline = false
  /\ isGeneratingEssay failedEssay = false
  /\ (handleStartOver failedOutline).2 = []
  /\ (handleStartOver failedEssay).2 = []
  /\ keepsInput s0 (handleStartOver failedOutline).1
  /\ keepsInput s0 (handleStartOver failedEssay).1
  /\ userCredits (handleStartOver failedOutline).1 = userCredits s0
  /\ userCredits (handleStartOver failedEssay).1 = userCredits s0
  /\ errorViewShown (handleStartOver failedOutline).1 = false
  /\ errorViewShown (handleStartOver failedEssay).1 = false
  /\ (currentStep s0 = 4%Z ->
      currentStep (handleStartOver failedOutline).1 = 3%Z
      /\ getStepTitle (handleStartOver failedOutline).1 = "Format & Style"
      /\ getStepTitle (handleStartOver failedOutline).1 <> "Essay Topic")
  /\ (currentStep s0 = 6%Z -> isGeneratingOutline s0 = false ->
      currentStep (handleStartOver failedEssay).1 = 6%Z
      /\ getStepTitle (handleStartOver failedEssay).1 = "Outline").
Proof.
  intros Hst Hest. cbn zeta.
  destruct (failed_outline_job_keeps_input y status s0 Hst)
    as (Ho1 & Ho2 & Ho3 & Ho4 & Ho5 & Ho6).
  destruct (failed_essay_job_keeps_input essayStatus s0 Hest)
    as (He1 & He2 & He3 & He4 & He5 & He6).
  destruct (handleStartOver_on_error _ Ho1)
    as (Hoc & Hok & _ & _ & _ & Hou & _ & _ & Hoe & Hos).
  destruct (handleStartOver_on_error _ He1)
    as (Hec & Hek & _ & _ & _ & Heu & _ & _ & Hee & Hes).
  repeat (split; [assumption |]).
  split; [exact (keepsInput_trans _ _ _ Ho2 Hok) |].
  split; [exact (keepsInput_trans _ _ _ He2 Hek) |].
  split; [congruence |]. split; [congruence |].
  split; [unfold errorViewShown; now rewrite Hoe |].
  split; [unfold errorViewShown; now rewrite Hee |].
  split.
  - intros H4. assert (Hstep : currentStep (handleStartOver
                 (pollJobStatus y (Js.Resolved status) s0).1).1 = 3%Z).
    { rewrite Hos, Ho3, H4. cbn. now rewrite orb_true_r. }
    unfold getStepTitle. rewrite Hstep. cbn. repeat split; try reflexivity. discriminate.
  - intros H6 Hgo. assert (Hstep : currentStep (handleStartOver
                 (pollEssayStatus (Js.Resolved essayStatus) s0).1).1 = 6%Z).
    { rewrite Hes, He5, He6, He3, Hgo, H6. reflexivity. }
    unfold getStepTitle. rewrite Hstep. split; reflexivity.
Qed.

Lemma start_over_after_failure_lands_on_stale_step_witness :
  JobStatus.status (@failedStatus ApiResponse.t) = JobStatus.failed
  /\ JobStatus.status (@failedStatus EssayResult.t) = JobStatus.failed
  /\ currentStep readyForOutline = 4%Z
  /\ keepsInput readyForOutline
       (handleStartOver (pollJobStatus 2026 (Js.Resolved failedStatus) readyForOutline).1).1
  /\ getStepTitle
       (handleStartOver (pollJobStatus 2026 (Js.Resolved failedStatus) readyForOutline).1).1
     = "Format & Style".
Proof.
  pose proof (start_over_after_failure_lands_on_stale_step readyForOutline 2026
                failedStatus failedStatus eq_refl eq_refl) as H.
  cbn zeta in H.
  destruct H as (_ & _ & _ & _ & _ & _ & Hkeep & _ & _ & _ & _ & _ & Hstep & _).
  refine (conj eq_refl (conj eq_refl (conj eq_refl (conj Hkeep _)))).
  exact (proj1 (proj2 (Hstep eq_refl))).
Defined.

End Wizard.

(** ** Credit gating *)

Section CreditGate.
Import EssayForm Examples.
Local Open Scope string_scope.

(** The back end's half, on the ledger of the specification: for a balance
    below the cost of a generation the debit answers [InsufficientBalance]
    and [submit] refuses, leaving the ledger and the job store as they
    were. *)
Lemma submit_refused_below_cost (user freshId : string) (st : Backend.Store) :
  (Backend.getBalance user st < Backend.generationCost)%Z ->
  Backend.debit (Backend.getBalance user st) Backend.generationCost
  = Backend.InsufficientBalance
  /\ Backend.submit user freshId st = (Backend.Refused, st).
Proof.
  intros Hlow.
  assert (Hdebit : Backend.debit (Backend.getBalance user st) Backend.generationCost
                   = Backend.InsufficientBalance).
  { unfold Backend.debit.
    destruct (Z.ltb_spec (Backend.getBalance user st) Backend.generationCost);
      [reflexivity | lia]. }
  split; [exact Hdebit |]. unfold Backend.submit. now rewrite Hdebit.
Qed.

(** What the mount effect makes of a balance below 2, or of a failed
    fetch: the flag is raised and, on step 1 with no error on display, the
    purchase overlay is rendered. *)
Lemma fetchCredits_raises_the_overlay (s : State) (credits : Js.Outcome Z) :
  currentStep s = 1%Z ->
  errorViewShown s = false ->
  match credits with Js.Resolved c => (c < 2)%Z | Js.Rejected _ => True end ->
  insufficientCredits (fetchCredits credits s).1 = true
  /\ creditsOverlayShown (fetchCredits credits s).1 = true
  /\ creditsOverlayHeading (fetchCredits credits s).1 = "Insufficient Credits".
Proof.
  intros Hstep Herr Hlow.
  unfold creditsOverlayShown, creditsOverlayHeading, errorViewShown, fetchCredits in *.
  destruct credits as [c | e]; destruct s; cbn in *; rewrite Herr, Hstep.
  - apply Z.ltb_lt in Hlow. rewrite Hlow. cbn. now rewrite orb_true_r.
  - repeat split; reflexivity.
Qed.

(** C1.  A generation the server refuses for lack of credits does not
    bring up a purchase prompt.  The request function the wizard imports,
    [startOutlineAndSourcesJob] of essay-api.ts, rethrows what [api.get]
    rejected with, so [fetchSourcesAndOutline] puts the message axios wrote
    on display: the error view replaces the wizard, no overlay is
    rendered, and the body of the response, which says "Insufficient
    credits", is never read; the start-over button then leads from step 4
    to step 3, again without an overlay.  Its sibling of the same name in
    services/api.ts, which nothing calls, does map this rejection to the
    purchase message.  The overlay itself comes up only through the
    balance fetched at mount. *)
Theorem refused_attempt_shows_no_purchase_prompt
    (s : State) (e : EssayApiHttp.AxiosError) (balance : Z) :
  EssayApiHttp.message e <> "" ->
  let rejected := EssayApiHttp.startOutlineAndSourcesJob (inr e) in
  let attempted := (confirmAndGenerateOutline rejected (Js.Resolved balance) s).1 in
  let restarted := (handleStartOver attempted).1 in
  (forall text,
      ServicesApi.errorText (EssayApiHttp.caught e) = Some text ->
      Js.includes "Insufficient credits" text = true ->
      ServicesApi.startOutlineAndSourcesJob (inr (EssayApiHttp.caught e))
      = ServicesApi.ErrorOnly ServicesApi.insufficientCreditsMessage)
  /\ rejected = Js.Rejected (Js.ThrownError (EssayApiHttp.message e))
  /\ error attempted = Some (EssayApiHttp.message e)
  /\ errorViewShown attempted = true
  /\ creditsOverlayShown attempted = false
  /\ insufficientCredits attempted = insufficientCredits s
  /\ userCredits attempted = Some balance
  /\ jobId attempted = jobId s
  /\ currentStep attempted = currentStep s
  /\ error restarted = None
  /\ (currentStep s = 4%Z ->
      currentStep restarted = 3%Z /\ creditsOverlayShown restarted = false)
  /\ (forall s1 credits, currentStep s1 = 1%Z -> errorViewShown s1 = false ->
        match credits with Js.Resolved c => (c < 2)%Z | Js.Rejected _ => True end ->
        creditsOverlayShown (fetchCredits credits s1).1 = true).
Proof.
  intros Hmsg. cbn zeta.
  apply truthy_Some in Hmsg. cbn [Js.truthy] in Hmsg.
  repeat match goal with |- _ /\ _ => split end.
  1: { intros text Htext Hincl. unfold ServicesApi.startOutlineAndSourcesJob.
       now rewrite Htext, Hincl. }
  1: reflexivity.
  10: { intros s1 credits Hstep Herr Hlow.
        exact (proj1 (proj2 (fetchCredits_raises_the_overlay s1 credits Hstep Herr Hlow))). }
  all: unfold confirmAndGenerateOutline, fetchSourcesAndOutline, fetchSourcesAndOutline_catch,
    EssayApiHttp.startOutlineAndSourcesJob, EssayApiHttp.thrown, handleStartOver,
    creditsOverlayShown, errorViewShown;
    destruct s as [step fd uf ua ci ol pa wa pe il lp ls gs ao so er ji sc uc ic ej gO gE];
    cbn; rewrite ?Hmsg; cbn; try reflexivity.
  - destruct gE; cbn;
      repeat match goal with
             | |- context [(?a =? ?b)%Z] => destruct (a =? b)%Z; cbn
             end; reflexivity.
  - intros ->. cbn. rewrite orb_true_r. cbn. split; [reflexivity |]. apply andb_false_r.
Qed.

Lemma refused_attempt_shows_no_purchase_prompt_witness :
  ServicesApi.startOutlineAndSourcesJob
    (inr (EssayApiHttp.caught EssayApiHttp.refusedForCredits))
  = ServicesApi.ErrorOnly ServicesApi.insufficientCreditsMessage
  /\ currentStep readyForOutline = 4%Z
  /\ insufficientCredits readyForOutline = false
  /\ error (confirmAndGenerateOutline
              (EssayApiHttp.startOutlineAndSourcesJob (inr EssayApiHttp.refusedForCredits))
              (Js.Resolved 1%Z) readyForOutline).1
     = Some "Request failed with status code 402"
  /\ creditsOverlayShown
       (confirmAndGenerateOutline
          (EssayApiHttp.startOutlineAndSourcesJob (inr EssayApiHttp.refusedForCredits))
          (Js.Resolved 1%Z) readyForOutline).1 = false
  /\ creditsOverlayShown
       (handleStartOver
          (confirmAndGenerateOutline
             (EssayApiHttp.startOutlineAndSourcesJob (inr EssayApiHttp.refusedForCredits))
             (Js.Resolved 1%Z) readyForOutline).1).1 = false.
Proof.
  pose proof (refused_attempt_shows_no_purchase_prompt readyForOutline
                EssayApiHttp.refusedForCredits 1%Z ltac:(discriminate)) as H.
  cbn zeta in H.
  destruct H as (Hsibling & _ & Herror & _ & Hoverlay & _ & _ & _ & _ & _ & Hrestart & _).
  refine (conj (Hsibling _ eq_refl eq_refl) (conj eq_refl (conj eq_refl
           (conj Herror (conj Hoverlay _))))).
  exact (proj2 (Hrestart eq_refl)).
Defined.

End CreditGate.

(** ** The polling effects *)

Section PollingFacts.
Import EssayForm.
Context {Resp : Type}.
Variable poll : Resp -> State -> State * bool.
Variable jobOf : State -> option string.
Variable statusCall : string -> ApiCall.
Variable stops : Resp -> bool.

(** What the two poll functions have in common: the returned flag depends
    on the response alone; a poll that returns [false] leaves the
    dependencies of the effect alone; one that returns [true] clears the
    job id. *)
Hypothesis poll_done : forall r s, (poll r s).2 = stops r.
Hypothesis poll_running : forall r s,
  stops r = false -> jobOf (poll r s).1 = jobOf s /\ isLoading (poll r s).1 = isLoading s.
Hypothesis poll_stopped : forall r s, stops r = true -> jobOf (poll r s).1 = None.

Lemma depsChanged_running r s :
  stops r = false -> depsChanged jobOf s (poll r s).1 = false.
Proof.
  intros Hr. destruct (poll_running r s Hr) as [Hj Hl].
  unfold depsChanged. rewrite Hj, Hl, bool_decide_eq_true_2 by reflexivity.
  now destruct (isLoading s).
Qed.

Lemma depsChanged_stopped r s job :
  jobOf s = Some job -> stops r = true -> depsChanged jobOf s (poll r s).1 = true.
Proof.
  intros Hj Hr. unfold depsChanged.
  rewrite (poll_stopped r s Hr), Hj, bool_decide_eq_false_2 by discriminate.
  reflexivity.
Qed.

(** The interval makes one poll for every response up to and including the
    first one that stops it. *)
Lemma intervalTicks_length job t script s :
  length (intervalTicks poll jobOf statusCall job t script s) = polled stops script.
Proof.
  revert t s. induction script as [| r rest IH]; intros t s; [reflexivity |].
  cbn [intervalTicks polled]. pose proof (poll_done r s) as Hd.
  destruct (poll r s) as [s' isDone] eqn:Hp. cbn in Hd. subst isDone.
  destruct (stops r) eqn:Hr; cbn [length]; [reflexivity |].
  replace s' with (poll r s).1 by now rewrite Hp.
  rewrite (depsChanged_running r s Hr), Hp. cbn [fst].
  now rewrite IH.
Qed.

(** The [k]-th poll of the interval happens [k] periods after the first and
    asks for the status of the same job; what it leaves behind is what the
    poll function makes of the [k]-th response. *)
Lemma intervalTicks_lookup (Q : Resp -> State -> Prop) job t script s k ev :
  (forall r s0, Q r (poll r s0).1) ->
  intervalTicks poll jobOf statusCall job t script s !! k = Some ev ->
  at_ms ev = (t + pollIntervalMs * Z.of_nat k)%Z
  /\ request ev = statusCall job
  /\ exists r, script !! k = Some r /\ Q r (after ev).
Proof.
  intros HQ. revert t s k. induction script as [| r rest IH]; intros t s k; [discriminate |].
  cbn [intervalTicks]. pose proof (HQ r s) as Hq.
  destruct (poll r s) as [s' isDone]. cbn [fst] in Hq.
  destruct k as [| k]; cbn [lookup list_lookup].
  - intros [= <-]. cbn. split; [lia |]. split; [reflexivity |]. eauto.
  - destruct isDone; [discriminate |].
    destruct (depsChanged jobOf s s'); [discriminate |].
    intros Hk. destruct (IH _ _ _ Hk) as (Ht & Hc & Hr).
    split; [rewrite Ht; lia | auto].
Qed.

(** With a job id set and [isLoading] up, the effect as a whole (first
    poll, then interval) behaves like an interval whose first tick is
    immediate. *)
Lemma pollingEffect_active job script s :
  jobOf s = Some job -> job <> EmptyString -> isLoading s = true ->
  pollingEffect poll jobOf statusCall script s
  = intervalTicks poll jobOf statusCall job 0 script s.
Proof.
  intros Hj Hne Hl. unfold pollingEffect. rewrite Hj, Hl.
  apply truthy_Some in Hne. cbn in Hne. rewrite Hne. cbn [andb].
  destruct script as [| r rest]; [reflexivity |].
  cbn [intervalTicks]. pose proof (poll_done r s) as Hd.
  destruct (poll r s) as [s' isDone] eqn:Hp. cbn in Hd. subst isDone.
  replace s' with (poll r s).1 by now rewrite Hp.
  destruct (stops r) eqn:Hr.
  - now rewrite (depsChanged_stopped r s job Hj Hr).
  - now rewrite (depsChanged_running r s Hr).
Qed.

(** Every poll but the last of a run saw a response that does not stop
    polling. *)
Lemma intervalTicks_not_last job t script s k ev :
  intervalTicks poll jobOf statusCall job t script s !! S k = Some ev ->
  exists r, script !! k = Some r /\ stops r = false.
Proof.
  revert t s k. induction script as [| r rest IH]; intros t s k; [discriminate |].
  cbn [intervalTicks]. pose proof (poll_done r s) as Hd.
  destruct (poll r s) as [s' isDone]. cbn in Hd. subst isDone.
  cbn [lookup list_lookup].
  destruct (stops r) eqn:Hr; [discriminate |].
  destruct (depsChanged jobOf s s'); [discriminate |].
  destruct k as [| k]; [eauto |].
  intros Hk. exact (IH _ _ _ Hk).
Qed.

End PollingFacts.

Section JobPolling.
Import EssayForm.
Local Open Scope string_scope.

Ltac poll_cases r s :=
  destruct r as [[[] ? ? [] ?] | ?], s; cbn;
  repeat match goal with
         | |- context [if String.eqb ?a ?b then _ else _] => destruct (String.eqb a b); cbn
         | |- context [if Js.truthy ?a then _ else _] => destruct (Js.truthy a); cbn
         end.

Lemma pollJobStatus_done y r s : (pollJobStatus y r s).2 = stopsPolling r.
Proof. poll_cases r s; reflexivity. Qed.

Lemma pollJobStatus_running y r s :
  stopsPolling r = false ->
  jobId (pollJobStatus y r s).1 = jobId s /\ isLoading (pollJobStatus y r s).1 = isLoading s.
Proof. poll_cases r s; intros; try discriminate; split; reflexivity. Qed.

Lemma pollJobStatus_stopped y r s :
  stopsPolling r = true -> jobId (pollJobStatus y r s).1 = None.
Proof. poll_cases r s; intros; try discriminate; reflexivity. Qed.




Lemma pollJobStatus_display y r s : outlineDisplay r (pollJobStatus y r s).1.
Proof.
  unfold outlineDisplay, loadingStageOf.
  poll_cases r s; intros; try discriminate; try exact I; split; try reflexivity; exact I.
Qed.


End JobPolling.

Section PollingRuns.
Import EssayForm Examples.
Local Open Scope string_scope.

(** C4, as the specification words it, fails: the first rejected status
    request ends the run after a single poll, with the error on display and
    the job id cleared, although a [processing] status was next in line. *)
Lemma first_fetch_error_is_not_tolerated :
  ~ toleratesRejection (pollJobStatus 2026) pollingOutline networkError
  /\ ~ toleratesRejection pollEssayStatus pollingEssay networkError
  /\ (exists ev,
        jobPolling 2026 [Js.Rejected networkError; Js.Resolved stillProcessing] pollingOutline
        = [ev]
        /\ errorViewShown (after ev) = true
        /\ error (after ev) = Some "Network Error"
        /\ jobId (after ev) = None).
Proof.
  split; [| split].
  - intros [Hdone _]. discriminate Hdone.
  - intros [Hdone _]. discriminate Hdone.
  - eexists. split; [reflexivity |]. repeat split; reflexivity.
Qed.

(** C4, amended.  Neither poll function retries: a rejected status request
    makes it return [true] at once, put the thrown message (or a fixed
    fallback) in [error], drop [isLoading], reset the progress and clear
    the job id; whatever the script holds afterwards, the interval makes no
    further poll. *)
Theorem fetch_error_ends_polling_at_once
    (y : Z) (s : State) (e : Js.Thrown)
    (rest : list (Js.Outcome (JobStatus.t ApiResponse.t)))
    (essayRest : list (Js.Outcome (JobStatus.t EssayResult.t)))
    (job : string) (t : Z) :
  let outline' := pollJobStatus y (Js.Rejected e) s in
  let essay' := pollEssayStatus (Js.Rejected e) s in
  outline'.2 = true
  /\ error outline'.1 = Some (Js.messageOr e "Failed to check job status")
  /\ isLoading outline'.1 = false
  /\ loadingProgress outline'.1 = 0%Z
  /\ jobId outline'.1 = None
  /\ essay'.2 = true
  /\ error essay'.1 = Some (Js.messageOr e "Failed to check essay status")
  /\ isLoading essay'.1 = false
  /\ loadingProgress essay'.1 = 0%Z
  /\ essayJobId essay'.1 = None
  /\ length (intervalTicks (pollJobStatus y) jobId GetJobStatus job t (Js.Rejected e :: rest) s) = 1%nat
  /\ length (intervalTicks pollEssayStatus essayJobId GetEssayStatus job t
               (Js.Rejected e :: essayRest) s) = 1%nat
  /\ (length (jobPolling y (Js.Rejected e :: rest) s) <= 1)%nat
  /\ (length (essayPolling (Js.Rejected e :: essayRest) s) <= 1)%nat.
Proof.
  cbn zeta.
  assert (Hj : forall script,
    (length (jobPolling y (Js.Rejected e :: script) s) <= 1)%nat).
  { intros script. unfold jobPolling, pollingEffect.
    destruct (jobId s) as [j |] eqn:Hjob; [| cbn; lia].
    destruct (Js.truthyString j && isLoading s); [| cbn; lia].
    cbn [pollJobStatus]. unfold depsChanged.
    replace (jobId (pollJobStatus_catch e s)) with (@None string) by now destruct s.
    rewrite Hjob, bool_decide_eq_false_2 by discriminate. cbn. lia. }
  assert (He : forall script,
    (length (essayPolling (Js.Rejected e :: script) s) <= 1)%nat).
  { intros script. unfold essayPolling, pollingEffect.
    destruct (essayJobId s) as [j |] eqn:Hjob; [| cbn; lia].
    destruct (Js.truthyString j && isLoading s); [| cbn; lia].
    cbn [pollEssayStatus]. unfold depsChanged.
    replace (essayJobId (pollEssayStatus_catch e s)) with (@None string) by now destruct s.
    rewrite Hjob, bool_decide_eq_false_2 by discriminate. cbn. lia. }
  destruct s; cbn in *. repeat split; try reflexivity; auto.
Qed.

(** The guard of the completed branch is [status.status === "completed" &&
    status.result]: a [completed] status without a result, which the job
    store of the specification never holds, would not stop either poll
    function. *)
Lemma completed_without_result_keeps_polling :
  terminalStatus (@completedWithoutResult ApiResponse.t) = true
  /\ ~ carriesResult (Js.Resolved (@completedWithoutResult ApiResponse.t))
  /\ ~ stopsAtTerminal (pollJobStatus 2026)
  /\ ~ stopsAtTerminal pollEssayStatus
  /\ map at_ms
       (jobPolling 2026
          [Js.Resolved completedWithoutResult; Js.Resolved completedWithoutResult;
           Js.Resolved completedWithoutResult] pollingOutline)
     = [0; 2000; 4000]%Z.
Proof.
  split; [reflexivity |]. split; [| split; [| split]].
  - intros H. destruct (H eq_refl) as [x Hx]. discriminate Hx.
  - intros H. specialize (H (Js.Resolved completedWithoutResult) pollingOutline).
    discriminate H.
  - intros H. specialize (H (Js.Resolved completedWithoutResult) pollingEssay).
    discriminate H.
  - reflexivity.
Qed.







End PollingRuns.

(** ** [getUserCredits] *)

Section Credits.
Import UserProfile.

Lemma orZero_Some (n : Z) : Js.orZero (Some n) = n.
Proof. unfold Js.orZero. destruct (Z.eqb_spec n 0); congruence. Qed.

Lemma getUserProfile_resolves (supabase : Client) :
  getUserProfile supabase = Js.Resolved (profileRow supabase).
Proof.
  unfold getUserProfile, profileRow, tryCatch, bind.
  destruct (auth_getUser supabase) as [[[userId |] [err |]] | e]; cbn; try reflexivity.
  destruct (select_single supabase userId) as [[[p |] [qerr |]] | e]; reflexivity.
Qed.

(** C10.  [getUserCredits] always resolves, never rejects.  It yields the
    [credits] of the profile row when the user is authenticated and the
    query returns that row without error, and 0 on every other path: a
    rejected or failed [getUser], no user, a rejected or failed query, no
    row.  The credit gate of the wizard is therefore always handed a
    number. *)
Theorem getUserCredits_total (supabase : Client) (s : EssayForm.State) :
  getUserProfile supabase = Js.Resolved (profileRow supabase)
  /\ getUserCredits supabase
     = Js.Resolved match profileRow supabase with
                   | Some profile => credits profile
                   | None => 0%Z
                   end
  /\ (forall e, getUserCredits supabase <> Js.Rejected e)
  /\ (forall e, auth_getUser supabase = Js.Rejected e ->
                getUserCredits supabase = Js.Resolved 0%Z)
  /\ (forall r, auth_getUser supabase = Js.Resolved r ->
                user r = None \/ userError r <> None ->
                getUserCredits supabase = Js.Resolved 0%Z)
  /\ (forall r userId, auth_getUser supabase = Js.Resolved r ->
                user r = Some userId ->
                (forall q, select_single supabase userId = Js.Resolved q ->
                           error q = None /\ data q <> None -> False) ->
                getUserCredits supabase = Js.Resolved 0%Z)
  /\ exists n,
       EssayForm.userCredits (EssayForm.fetchCredits (getUserCredits supabase) s).1 = Some n.
Proof.
  assert (Hc : getUserCredits supabase
               = Js.Resolved match profileRow supabase with
                             | Some profile => credits profile
                             | None => 0%Z
                             end).
  { unfold getUserCredits, tryCatch, bind. rewrite getUserProfile_resolves.
    destruct (profileRow supabase) as [p |]; cbn [fmap option_fmap option_map];
      [now rewrite orZero_Some | reflexivity]. }
  split; [apply getUserProfile_resolves |].
  split; [exact Hc |].
  split; [intros e; rewrite Hc; discriminate |].
  split; [intros e He; rewrite Hc; unfold profileRow; now rewrite He |].
  split.
  { intros r Hr Hbad. rewrite Hc. unfold profileRow. rewrite Hr.
    destruct r as [[u |] [err |]]; cbn in *; try reflexivity.
    destruct Hbad as [Hbad | Hbad]; congruence. }
  split.
  { intros r userId Hr Hu Hq. rewrite Hc. unfold profileRow. rewrite Hr.
    destruct r as [u [err |]]; cbn in *; subst u; [reflexivity |].
    destruct (select_single supabase userId) as [[[p |] [qerr |]] | e]; try reflexivity.
    exfalso. apply (Hq _ eq_refl). cbn. split; [reflexivity | discriminate]. }
  rewrite Hc. destruct s; cbn. eauto.
Qed.

End Credits.

(** ** [ensureUserProfile] *)

Section Profiles.
Import AuthContext Examples.
Local Open Scope string_scope.

(** C6.  [ensureUserProfile] touches no row but the user's own.  Where the
    table has no row for the user id, the only row it can leave there is
    the one it inserts, which carries [credits = 2] (and it does insert it
    when the profile has not been processed in this browser and no call
    fails).  Where a row exists, the row left behind has the same [id],
    [full_name], [created_at] and, in particular, [credits]: it is either
    unchanged or differs in [email] and [updated_at] only. *)
Theorem ensureUserProfile_grants_two_credits
    (userId email now1 now2 : string) (f : Faults) (w : World) :
  let w' := ensureUserProfile userId email now1 now2 f w in
  (forall other, other <> userId -> user_profiles w' !! other = user_profiles w !! other)
  /\ match user_profiles w !! userId with
     | None =>
         (user_profiles w' !! userId = None
          \/ user_profiles w' !! userId = Some (newProfile userId email now1 now2))
         /\ UserProfile.credits (newProfile userId email now1 now2) = 2%Z
         /\ (Js.truthy (localStorage w !! profileKey userId) = false ->
             fetchProfile f = NoFault -> insertProfile f = NoFault ->
             user_profiles w' !! userId = Some (newProfile userId email now1 now2))
     | Some p =>
         exists p',
           user_profiles w' !! userId = Some p'
           /\ UserProfile.credits p' = UserProfile.credits p
           /\ UserProfile.id p' = UserProfile.id p
           /\ UserProfile.full_name p' = UserProfile.full_name p
           /\ UserProfile.created_at p' = UserProfile.created_at p
           /\ (p' = p \/ p' = updateEmail email now1 p)
           /\ (Js.truthy (localStorage w !! profileKey userId) = false ->
               fetchProfile f = NoFault -> updateProfile f = NoFault ->
               p' = updateEmail email now1 p)
     end.
Proof.
  cbn zeta. unfold ensureUserProfile.
  destruct (Js.truthy (localStorage w !! profileKey userId)) eqn:Hls.
  { split; [reflexivity |].
    destruct (user_profiles w !! userId) as [p |] eqn:Hrow.
    - exists p. repeat split; auto; discriminate.
    - repeat split; auto; discriminate. }
  destruct (fetchProfile f) eqn:Hf.
  2,3: split; [reflexivity |];
       destruct (user_profiles w !! userId) as [p |] eqn:Hrow;
       [exists p; repeat split; auto; discriminate | repeat split; auto; discriminate].
  destruct (user_profiles w !! userId) as [p |] eqn:Hrow.
  - destruct (updateProfile f) eqn:Hu.
    2,3: split; [reflexivity |]; rewrite Hrow;
         exists p; repeat split; auto; discriminate.
    cbn. split.
    + intros other Hne. rewrite lookup_alter_ne by congruence. reflexivity.
    + exists (updateEmail email now1 p).
      rewrite lookup_alter_eq, Hrow. cbn. repeat split; auto.
  - destruct (insertProfile f) eqn:Hi.
    2,3: split; [reflexivity |]; rewrite Hrow; repeat split; auto; discriminate.
    cbn. split.
    + intros other Hne. rewrite lookup_insert_ne by congruence. reflexivity.
    + rewrite lookup_insert_eq. repeat split; auto.
Qed.

Lemma ensureUserProfile_grants_two_credits_witness :
  (user_profiles
     (ensureUserProfile "user-2" "new@example.com" "t1" "t2" noFaults oneUser) !! "user-2"
   = Some (newProfile "user-2" "new@example.com" "t1" "t2"))
  /\ (exists p',
        user_profiles
          (ensureUserProfile "user-1" "new@example.com" "t1" "t2" noFaults oneUser) !! "user-1"
        = Some p'
        /\ UserProfile.credits p' = 7%Z).
Proof.
  split.
  - pose proof (ensureUserProfile_grants_two_credits
                  "user-2" "new@example.com" "t1" "t2" noFaults oneUser) as [_ H].
    change (user_profiles oneUser !! "user-2") with (@None UserProfile.t) in H.
    apply H; reflexivity.
  - pose proof (ensureUserProfile_grants_two_credits
                  "user-1" "new@example.com" "t1" "t2" noFaults oneUser) as [_ H].
    change (user_profiles oneUser !! "user-1") with (Some returningUser) in H.
    destruct H as (p' & Hrow & Hcredits & _). exists p'. split; assumption.
Defined.

End Profiles.

(** ** The CSRF middleware *)

Section CsrfFacts.
Import Csrf.
Local Open Scope string_scope.

Variable digestHex : string -> string.
Variable CSRF_SECRET : string.

Local Abbreviation hashToken := (Csrf.hashToken digestHex CSRF_SECRET).
Local Abbreviation verifyToken := (Csrf.verifyToken digestHex CSRF_SECRET).
Local Abbreviation csrfMiddleware := (Csrf.csrfMiddleware digestHex CSRF_SECRET).

(** A request that is checked and carries no token is refused. *)
Lemma csrfMiddleware_no_header generated req :
  isSafeMethod (method req) = false ->
  Js.truthy (header req) = false ->
  csrfMiddleware generated req = forbidden.
Proof.
  intros Hm Hh. unfold Csrf.csrfMiddleware. rewrite Hm.
  destruct (Js.truthy (cookie req)); destruct (header req) as [h |]; try reflexivity;
    cbn in Hh; now rewrite Hh.
Qed.

(** Whatever the middleware answers, the browser ends up with no
    [csrf-token] cookie a script can read: a refusal sets none, and the one
    the middleware sets is [httpOnly]. *)
Lemma csrfMiddleware_cookie_unreadable generated req :
  ServicesApi.getCsrfToken (storedCookie (csrfMiddleware generated req)) = None.
Proof.
  unfold Csrf.csrfMiddleware.
  destruct (isSafeMethod (method req)); [reflexivity |].
  destruct (Js.truthy (cookie req)); destruct (header req) as [h |]; try reflexivity;
    match goal with |- context [if ?b then _ else _] => destruct b end; reflexivity.
Qed.

(** The only cookie the middleware sets is the [httpOnly] [csrf-token]
    cookie holding the hash of the token generated for the request. *)
Lemma csrfMiddleware_cookie_issued generated req :
  match setCookie (csrfMiddleware generated req) with
  | Some c => name c = CSRF_COOKIE_NAME /\ value c = hashToken generated
              /\ httpOnly c = true
  | None => True
  end.
Proof.
  unfold Csrf.csrfMiddleware.
  destruct (isSafeMethod (method req)); [exact I |].
  destruct (Js.truthy (cookie req)); destruct (header req) as [h |]; try exact I;
    match goal with |- context [if ?b then _ else _] => destruct b end;
    cbn; auto.
Qed.

(** X26.  The client of services/api.ts can never pass the check on a
    request that is checked.  Whatever the middleware answered before, the
    cookie it may have set is [httpOnly] and holds [hashToken] of the
    generated token, so the interceptor finds no token in
    [document.cookie] and sends no [x-csrf-token] header; the request that
    follows, with any method but GET, HEAD and OPTIONS, gets the 403
    response.  A request that did repeat a cookie value in the header would
    pass exactly if that value were a fixed point of [hashToken]. *)
Theorem client_requests_never_pass_the_csrf_check
    (generated generated' : string) (previous : NextRequest) (m : string) :
  isSafeMethod m = false ->
  let answer := csrfMiddleware generated' previous in
  let followUp :=
    {| method := m;
       cookie := value <$> setCookie answer;
       header := ServicesApi.csrfHeader (storedCookie answer) m |} in
  match setCookie answer with
  | Some c => name c = CSRF_COOKIE_NAME /\ value c = hashToken generated'
              /\ httpOnly c = true
  | None => True
  end
  /\ ServicesApi.getCsrfToken (storedCookie answer) = None
  /\ header followUp = None
  /\ csrfMiddleware generated followUp = forbidden
  /\ status (csrfMiddleware generated followUp) = 403%Z
  /\ (forall c, c <> "" ->
        status (csrfMiddleware generated {| method := m; cookie := Some c; header := Some c |})
        = 200%Z
        <-> hashToken c = c).
Proof.
  intros Hm. cbn zeta.
  assert (Hnone : ServicesApi.csrfHeader
                    (storedCookie (csrfMiddleware generated' previous)) m = None).
  { unfold ServicesApi.csrfHeader. now rewrite csrfMiddleware_cookie_unreadable. }
  assert (Hfollow : csrfMiddleware generated
                      {| method := m;
                         cookie := value <$> setCookie (csrfMiddleware generated' previous);
                         header := ServicesApi.csrfHeader
                                     (storedCookie (csrfMiddleware generated' previous)) m |}
                    = forbidden).
  { apply csrfMiddleware_no_header; [exact Hm |]. cbn. now rewrite Hnone. }
  split; [apply csrfMiddleware_cookie_issued |].
  split; [apply csrfMiddleware_cookie_unreadable |].
  split; [exact Hnone |].
  split; [exact Hfollow |].
  split; [now rewrite Hfollow |].
  intros c Hc. apply truthy_Some in Hc. cbn [Js.truthy] in Hc.
  unfold Csrf.csrfMiddleware, Csrf.verifyToken. cbn [method cookie header Js.truthy].
  rewrite Hm, Hc, (orString_truthy c "" Hc). cbn [andb].
  destruct (String.eqb_spec (hashToken c) c) as [Heq | Hne]; cbn; split;
    congruence || discriminate || reflexivity.
Qed.

End CsrfFacts.

Section CsrfWitness.
Import Csrf.
Local Open Scope string_scope.

Lemma String_cons_neq (c : Ascii.ascii) (x : string) : String c x <> x.
Proof.
  revert c. induction x as [| d x IH]; intros c; [discriminate |].
  intros [= -> H]. exact (IH _ H).
Qed.

Lemma append_empty (x : string) : x +:+ "" = x.
Proof.
  induction x as [| c x IH]; [reflexivity |].
  change (String c (x +:+ "") = String c x). now rewrite IH.
Qed.

Lemma client_requests_never_pass_the_csrf_check_witness :
  isSafeMethod "POST" = false
  /\ setCookie (Csrf.csrfMiddleware Csrf.toyDigest "" "#c0ffee"
                  {| method := "POST"; cookie := None; header := Some "c0ffee" |}) <> None
  /\ status (Csrf.csrfMiddleware Csrf.toyDigest "" "5eed"
               {| method := "POST";
                  cookie := value <$> setCookie
                              (Csrf.csrfMiddleware Csrf.toyDigest "" "#c0ffee"
                                 {| method := "POST"; cookie := None;
                                    header := Some "c0ffee" |});
                  header := ServicesApi.csrfHeader
                              (storedCookie
                                 (Csrf.csrfMiddleware Csrf.toyDigest "" "#c0ffee"
                                    {| method := "POST"; cookie := None;
                                       header := Some "c0ffee" |})) "POST" |}) = 403%Z.
Proof.
  split; [reflexivity |]. split.
  - vm_compute. discriminate.
  - exact (proj1 (proj2 (proj2 (proj2 (proj2
      (client_requests_never_pass_the_csrf_check Csrf.toyDigest "" "5eed" "#c0ffee"
         {| method := "POST"; cookie := None; header := Some "c0ffee" |}
         "POST" eq_refl)))))).
Defined.

End CsrfWitness.

(** ** The job's progress *)

Section Progress.
Import Backend.

Lemma mutation_progress (j j' : Job) :
  mutation j j' -> (progress j <= progress j' <= 100)%Z.
Proof. intros []; cbn; assumption. Qed.

Lemma mutations_progress (j j' : Job) :
  rtc mutation j j' -> (progress j <= 100)%Z -> (progress j <= progress j' <= 100)%Z.
Proof.
  induction 1 as [j | j j1 j2 Hstep _ IH]; intros Hj; [lia |].
  apply mutation_progress in Hstep. lia.
Qed.

(** A terminal job is immutable. *)
Lemma terminal_immutable (j j' : Job) :
  isTerminal j = true -> rtc mutation j j' -> j' = j.
Proof.
  unfold isTerminal. intros Ht Hrun.
  destruct Hrun as [| j j1 j2 Hstep _]; [reflexivity |].
  destruct Hstep as [j p l Hs | j p r Hs | j p m Hs]; rewrite Hs in Ht; discriminate.
Qed.

Lemma observations_bounds (j : Job) (obs : list Job) :
  observations j obs -> (progress j <= 100)%Z ->
  forall k b, obs !! k = Some b -> (progress j <= progress b <= 100)%Z.
Proof.
  induction 1 as [j | j j' rest Hrun _ IH]; intros Hj k b Hk; [discriminate |].
  pose proof (mutations_progress _ _ Hrun Hj) as Hj'.
  destruct k as [| k]; cbn in Hk.
  - injection Hk as <-. exact Hj'.
  - specialize (IH ltac:(lia) k b Hk). lia.
Qed.

Lemma observations_monotone (j : Job) (obs : list Job) :
  observations j obs -> (progress j <= 100)%Z ->
  forall i k a b, (i <= k)%nat -> obs !! i = Some a -> obs !! k = Some b ->
                  (progress a <= progress b)%Z.
Proof.
  induction 1 as [j | j j' rest Hrun Hrest IH]; intros Hj i k a b Hik Hi Hk; [discriminate |].
  pose proof (mutations_progress _ _ Hrun Hj) as Hj'.
  destruct i as [| i]; cbn in Hi.
  - injection Hi as <-. destruct k as [| k]; cbn in Hk.
    + injection Hk as <-. lia.
    + pose proof (observations_bounds _ _ Hrest ltac:(lia) k b Hk). lia.
  - destruct k as [| k]; [lia |]. cbn in Hk.
    apply (IH ltac:(lia) i k a b); [lia | assumption | assumption].
Qed.

End Progress.

Section ProgressDisplay.
Import Backend EssayForm Examples.
Local Open Scope string_scope.

Lemma observations_terminal (j : Job) (obs : list Job) :
  observations j obs -> isTerminal j = true ->
  forall k b, obs !! k = Some b -> b = j.
Proof.
  induction 1 as [j | j j' rest Hrun _ IH]; intros Ht k b Hk; [discriminate |].
  apply (terminal_immutable _ _ Ht) in Hrun. subst j'.
  destruct k as [| k]; cbn in Hk; [congruence | eauto].
Qed.

Lemma observations_frozen (j : Job) (obs : list Job) :
  observations j obs ->
  forall i k a b, (i <= k)%nat -> obs !! i = Some a -> obs !! k = Some b ->
                  isTerminal a = true -> b = a.
Proof.
  induction 1 as [j | j j' rest Hrun Hrest IH]; intros i k a b Hik Hi Hk Ht; [discriminate |].
  destruct i as [| i]; cbn in Hi.
  - injection Hi as <-. destruct k as [| k]; cbn in Hk; [congruence |].
    exact (observations_terminal _ _ Hrest Ht k b Hk).
  - destruct k as [| k]; [lia |]. cbn in Hk.
    apply (IH i k a b); [lia | assumption | assumption | assumption].
Qed.

Lemma pollJobStatus_stop_ends_loading y r s :
  stopsPolling r = true -> isLoading (pollJobStatus y r s).1 = false.
Proof.
  destruct r as [[[] ? ? [] ?] | ?], s; cbn; intros; try discriminate;
    repeat match goal with
           | |- context [if String.eqb ?a ?b then _ else _] => destruct (String.eqb a b); cbn
           end; reflexivity.
Qed.

Lemma pollJobStatus_shown y r s : outlineShown r (pollJobStatus y r s).1.
Proof.
  unfold outlineShown. pose proof (pollJobStatus_stop_ends_loading y r s) as Hstop.
  pose proof (pollJobStatus_display y r s) as Hshow. unfold outlineDisplay in Hshow.
  destruct r as [status | e]; [| now apply Hstop].
  destruct (stopsPolling (Js.Resolved status)); [now apply Hstop | now apply Hshow].
Qed.

(** C8.  In the job store of the specification, where every mutation of a
    processing job keeps its progress a percentage no smaller than before
    and a terminal job is never mutated again, the snapshots that
    successive [getStatus] calls return have progress values between 0 and
    100 that never decrease, and nothing changes after a terminal one.
    The wizard shows these values unaltered: while the outline job is being
    polled, the progress on display never decreases either. *)
Theorem progress_never_decreases
    (payload : string -> ApiResponse.t) (obs : list Job)
    (y : Z) (s : State) (job : string) :
  observations createdJob obs ->
  jobId s = Some job -> job <> "" -> isLoading s = true ->
  let events :=
    jobPolling y (map (fun j => Js.Resolved (statusOf payload j)) obs) s in
  (forall k b, obs !! k = Some b -> (0 <= progress b <= 100)%Z)
  /\ (forall i k a b, (i <= k)%nat -> obs !! i = Some a -> obs !! k = Some b ->
        (progress a <= progress b)%Z)
  /\ (forall i k a b, (i <= k)%nat -> obs !! i = Some a -> obs !! k = Some b ->
        isTerminal a = true -> b = a)
  /\ (forall i k a b, (i <= k)%nat -> events !! i = Some a -> events !! k = Some b ->
        isLoading (after b) = true ->
        (loadingProgress (after a) <= loadingProgress (after b))%Z).
Proof.
  intros Hobs Hj Hne Hl. cbn zeta.
  assert (H0 : (progress createdJob <= 100)%Z) by (cbn; lia).
  split; [intros k b Hk; exact (observations_bounds _ _ Hobs H0 k b Hk) |].
  split; [exact (observations_monotone _ _ Hobs H0) |].
  split; [exact (observations_frozen _ _ Hobs) |].
  unfold jobPolling.
  rewrite (pollingEffect_active (pollJobStatus y) jobId GetJobStatus stopsPolling
             (pollJobStatus_done y) (pollJobStatus_running y) (pollJobStatus_stopped y)
             job _ s Hj Hne Hl).
  set (script := map (fun j => Js.Resolved (statusOf payload j)) obs).
  assert (Hlast : forall k b, intervalTicks (pollJobStatus y) jobId GetJobStatus job 0 script s
                               !! k = Some b ->
                  isLoading (after b) = true ->
                  exists o, obs !! k = Some o /\ loadingProgress (after b) = progress o).
  { intros k b Hk Hb.
    destruct (intervalTicks_lookup _ _ _ outlineShown _ _ _ _ _ _ (pollJobStatus_shown y) Hk)
      as (_ & _ & r & Hr & Hshown).
    unfold script in Hr. rewrite list_lookup_fmap in Hr.
    destruct (obs !! k) as [o |]; [| discriminate]. injection Hr as <-.
    exists o. split; [reflexivity |].
    unfold outlineShown in Hshown.
    destruct (stopsPolling (Js.Resolved (statusOf payload o))); [congruence | exact Hshown]. }
  intros i k a b Hik Hi Hk Hb.
  destruct (Hlast k b Hk Hb) as (ob & Hob & ->).
  destruct (decide (i = k)) as [-> | Hneq].
  { assert (a = b) by congruence. subst a.
    destruct (Hlast k b Hk Hb) as (ob' & Hob' & ->). assert (ob' = ob) by congruence.
    subst. lia. }
  assert (Hnext : is_Some (intervalTicks (pollJobStatus y) jobId GetJobStatus job 0 script s
                             !! S i)).
  { apply lookup_lt_is_Some. apply lookup_lt_Some in Hk. lia. }
  destruct Hnext as [c Hc].
  destruct (intervalTicks_not_last (pollJobStatus y) jobId GetJobStatus stopsPolling
              (pollJobStatus_done y) job 0 script s i c Hc) as (r & Hr & Hrun).
  destruct (intervalTicks_lookup _ _ _ outlineShown _ _ _ _ _ _ (pollJobStatus_shown y) Hi)
    as (_ & _ & r' & Hr' & Hshown).
  assert (r' = r) by congruence. subst r'.
  unfold script in Hr. rewrite list_lookup_fmap in Hr.
  destruct (obs !! i) as [oa |] eqn:Hoa; [| discriminate]. injection Hr as <-.
  unfold outlineShown in Hshown. rewrite Hrun in Hshown. rewrite Hshown.
  change (JobStatus.progress (statusOf payload oa)) with (progress oa).
  apply (observations_monotone _ _ Hobs H0 i k oa ob); [lia | assumption | assumption].
Qed.

Lemma sampleRun_observed : observations createdJob sampleRun.
Proof.
  apply obs_cons.
  { apply rtc_once. apply (stage_update createdJob 20 "creating_outline"); cbn; [reflexivity | lia]. }
  apply obs_cons; [apply rtc_refl |].
  apply obs_cons; [| apply obs_nil].
  apply (rtc_l _ _ searching).
  - apply (stage_update outlining 60 "finding_sources"); cbn; [reflexivity | lia].
  - apply rtc_once.
    apply (complete searching 100 "outline-and-sources"); cbn; [reflexivity | lia].
Defined.

Lemma progress_never_decreases_witness :
  observations createdJob sampleRun
  /\ jobId pollingOutline = Some "job-1" /\ "job-1" <> "" /\ isLoading pollingOutline = true
  /\ (forall i k a b, (i <= k)%nat -> sampleRun !! i = Some a -> sampleRun !! k = Some b ->
        (progress a <= progress b)%Z).
Proof.
  refine (conj sampleRun_observed (conj eq_refl (conj _ (conj eq_refl _)))).
  - discriminate.
  - exact (proj1 (proj2
      (progress_never_decreases (fun _ => emptyResult) sampleRun 2026 pollingOutline "job-1"
         sampleRun_observed eq_refl ltac:(discriminate) eq_refl))).
Defined.

End ProgressDisplay.

(** ** The wizard as a whole *)

Section WizardUiFacts.
Import EssayForm WizardUi Examples WizardSamples.
Local Open Scope string_scope.

Ltac split_ifs :=
  repeat match goal with
         | |- context [if Z.eqb ?a ?b then _ else _] => destruct (Z.eqb_spec a b)
         | |- context [if ?b then _ else _] => destruct b eqn:?
         | |- context [match ?x with _ => _ end] => destruct x eqn:?
         end.

Ltac wf_done :=
  cbn in *; try assumption;
  match goal with
  | H : (_ <= _ <= _)%Z /\ (_ -> _) |- _ =>
      destruct H as [? ?]; split; [lia | intros; first [eauto; fail | lia | auto]]
  end.

Lemma pollJobStatus_wellFormed y r s :
  wellFormed s -> wellFormed (pollJobStatus y r s).1.
Proof.
  unfold wellFormed, pollJobStatus, pollJobStatus_catch.
  destruct s, r as [[[] ? ? [] ?] | ?]; cbn; intros [? Hout]; split_ifs; cbn;
    (split; [lia | intros; first [apply Hout; lia | eauto]]).
Qed.

Lemma pollEssayStatus_wellFormed r s :
  wellFormed s -> wellFormed (pollEssayStatus r s).1.
Proof.
  unfold wellFormed, pollEssayStatus, pollEssayStatus_catch, generationStageOf.
  destruct s, r as [[[] ? ? [] ?] | ?]; cbn; intros [? Hout]; split_ifs; cbn;
    (split; [lia | intros; apply Hout; lia]).
Qed.

Lemma fetchSourcesAndOutline_wellFormed r s :
  wellFormed s -> wellFormed (fetchSourcesAndOutline r s).1.
Proof.
  unfold wellFormed, fetchSourcesAndOutline, fetchSourcesAndOutline_catch.
  destruct s, r as [[? ? []] | ?]; cbn; intros [? Hout]; split_ifs; cbn;
    (split; [lia | intros; first [apply Hout; lia | lia]]).
Qed.

Lemma generateFinalEssay_wellFormed r s :
  wellFormed s -> wellFormed (generateFinalEssay r s).1.
Proof.
  unfold wellFormed, generateFinalEssay, generateFinalEssay_catch.
  destruct s, r as [[? ? []] | ?]; cbn; intros [? Hout]; split_ifs; cbn;
    (split; [lia | intros; first [apply Hout; lia | lia]]).
Qed.

Lemma handleStartOver_wellFormed s :
  wellFormed s -> wellFormed (handleStartOver s).1.
Proof.
  unfold wellFormed, handleStartOver.
  destruct s; cbn; intros [? Hout]; split_ifs; cbn;
    (split; [lia | intros; first [apply Hout; lia | lia]]).
Qed.

Lemma setters_wellFormed s s' :
  currentStep s' = currentStep s -> apiOutline s' = apiOutline s ->
  wellFormed s -> wellFormed s'.
Proof. unfold wellFormed. intros -> ->. auto. Qed.

(** Writing to an array leaves everything but [outline] and the content of
    [apiOutline] alone. *)
Lemma writeSubsections_fields sharedWith i sec array s :
  let s' := writeSubsections sharedWith i sec array s in
  currentStep s' = currentStep s
  /\ formData s' = formData s
  /\ citations s' = citations s
  /\ writingAnalysis s' = writingAnalysis s
  /\ insufficientCredits s' = insufficientCredits s
  /\ Outline.sections (outline s')
     = <[i := withSubsections array sec]> (Outline.sections (outline s))
  /\ apiOutline s'
     = match sharedWith, apiOutline s with
       | Some k, Some o =>
           Some {| EssayApi.outline_components :=
                     alter (withSubtopics array) k (EssayApi.outline_components o) |}
       | _, _ => apiOutline s
       end.
Proof.
  unfold writeSubsections, writeShared.
  destruct s as [step fd uf ua ci ol pa wa pe il lp ls gs ao so er ji sc uc ic ej gO gE].
  cbn. destruct sharedWith as [k |], ao as [o |]; cbn; repeat split; reflexivity.
Qed.

Lemma writeSubsections_wellFormed sharedWith i sec array s :
  wellFormed s -> wellFormed (writeSubsections sharedWith i sec array s).
Proof.
  destruct (writeSubsections_fields sharedWith i sec array s)
    as (Hstep & _ & _ & _ & _ & _ & Hapi).
  unfold wellFormed. rewrite Hstep, Hapi. intros [Hr Hout]. split; [exact Hr |].
  intros H5. specialize (Hout H5).
  destruct sharedWith, (apiOutline s); try exact Hout; now eexists.
Qed.

(** One event keeps the wizard well formed. *)
Lemma dispatchHooks_wellFormed y ev aliases s :
  wellFormed s -> wellFormed (dispatchHooks y ev aliases s).1.
Proof.
  intros Hwf. destruct ev; cbn [dispatchHooks]; unfold whenShown.
  - destruct (navigationShown s && negb (currentStep s =? 1)%Z) eqn:Hg; [| exact Hwf].
    apply andb_prop in Hg as [_ Hne]. apply negb_true_iff, Z.eqb_neq in Hne.
    unfold wellFormed, backButtonClick in *.
    destruct Hwf as [Hr Hout]. destruct s; cbn in *.
    split; [lia | intros; apply Hout; lia].
  - destruct (navigationShown s && isStepValid s); [| exact Hwf].
    unfold nextButtonClick, totalSteps.
    destruct (Z.eqb_spec (currentStep s) 6); [now apply generateFinalEssay_wellFormed |].
    destruct (Z.eqb_spec (currentStep s) 4).
    + cbn [fst]. revert Hwf. apply setters_wellFormed;
        unfold handleGenerateOutline; split_ifs; now destruct s.
    + unfold wellFormed in *. destruct Hwf as [Hr Hout]. destruct s; cbn in *.
      split; [lia | intros; apply Hout; lia].
  - destruct (dialogShown s); [| exact Hwf].
    unfold confirmAndGenerateOutline.
    pose proof (fetchSourcesAndOutline_wellFormed jobResponse
                  (setShowCreditConfirmation false s)) as Hf.
    destruct (fetchSourcesAndOutline jobResponse (setShowCreditConfirmation false s))
      as [s1 calls]. cbn [fst] in *.
    assert (Hs1 : wellFormed s1)
      by (apply Hf; revert Hwf; apply setters_wellFormed; now destruct s).
    revert Hs1. apply setters_wellFormed; destruct updatedCredits; now destruct s1.
  - destruct (dialogShown s); [| exact Hwf].
    revert Hwf. apply setters_wellFormed; now destruct s.
  - destruct (errorViewShown s); [| exact Hwf]. now apply handleStartOver_wellFormed.
  - destruct (stepShown 1 s); [| exact Hwf].
    revert Hwf. apply setters_wellFormed; now destruct s.
  - destruct (stepShown 1 s); [| exact Hwf].
    revert Hwf. apply setters_wellFormed; now destruct s.
  - destruct (stepShown 1 s); [| exact Hwf].
    revert Hwf. apply setters_wellFormed; now destruct s.
  - destruct (stepShown 1 s); [| exact Hwf].
    revert Hwf. apply setters_wellFormed; now destruct s.
  - destruct (stepShown 1 s); [| exact Hwf].
    revert Hwf. apply setters_wellFormed; now destruct s.
  - destruct (stepShown 2 s); [| exact Hwf].
    revert Hwf. apply setters_wellFormed; now destruct s.
  - destruct (stepShown 3 s); [| exact Hwf].
    revert Hwf. apply setters_wellFormed; now destruct s.
  - destruct (stepShown 3 s); [| exact Hwf].
    revert Hwf. apply setters_wellFormed; now destruct s.
  - destruct (stepShown 4 s); [| exact Hwf].
    revert Hwf. apply setters_wellFormed; now destruct s.
  - destruct (stepShown 5 s); [| exact Hwf].
    revert Hwf. apply setters_wellFormed; now destruct s.
  - destruct (stepShown 6 s); [| exact Hwf].
    revert Hwf. apply setters_wellFormed; now destruct s.
  - destruct (stepShown 6 s); [| exact Hwf].
    revert Hwf. apply setters_wellFormed; now destruct s.
  - destruct (stepShown 6 s); [| exact Hwf].
    unfold addNewSubsection. destruct (_ !! _); cbn [default fst]; [| exact Hwf].
    now apply writeSubsections_wellFormed.
  - destruct (stepShown 6 s); [| exact Hwf].
    unfold deleteSubsection. destruct (_ !! _); cbn [default fst]; [| exact Hwf].
    now apply writeSubsections_wellFormed.
  - destruct (stepShown 6 s); [| exact Hwf].
    revert Hwf. apply setters_wellFormed;
      unfold editSectionTitle; now destruct s, (_ !! _).
  - destruct (stepShown 6 s); [| exact Hwf].
    unfold editSubsection. destruct (_ !! _) as [sec |]; cbn [default fst]; [| exact Hwf].
    destruct (_ !! _); cbn [default fst]; [| exact Hwf].
    now apply writeSubsections_wellFormed.
  - destruct (stepShown _ s); [| exact Hwf].
    revert Hwf. apply setters_wellFormed; now destruct kind, extracted, s.
  - destruct (jobId s) as [job |]; [| exact Hwf].
    destruct (Js.truthyString job && isLoading s); [| exact Hwf].
    now apply pollJobStatus_wellFormed.
  - destruct (essayJobId s) as [job |]; [| exact Hwf].
    destruct (Js.truthyString job && isLoading s); [| exact Hwf].
    now apply pollEssayStatus_wellFormed.
  - revert Hwf. apply setters_wellFormed; now destruct credits, s.
Qed.

Lemma dispatch_hooks y ev w :
  hooks (dispatch y ev w).1 = (dispatchHooks y ev (shared w) (hooks w)).1
  /\ shared (dispatch y ev w).1 = aliasesAfter ev (hooks w) (shared w).
Proof.
  unfold dispatch. now destruct (dispatchHooks y ev (shared w) (hooks w)).
Qed.

(** What holds of the mounted wizard and is kept by every event holds
    after every run. *)
Lemma runWizard_invariant (P : Wizard -> Prop) y :
  (forall ev w, P w -> P (dispatch y ev w).1) ->
  forall events w, P w -> P (runWizard y events w).1.
Proof.
  intros Hstep events. induction events as [| ev rest IH]; intros w Hw; [exact Hw |].
  cbn [runWizard]. pose proof (Hstep ev w Hw) as H1.
  destruct (dispatch y ev w) as [w1 calls1]. cbn [fst] in H1.
  specialize (IH w1 H1). destruct (runWizard y rest w1) as [w2 calls2]. exact IH.
Qed.

Lemma runWizard_wellFormed y events w :
  wellFormed (hooks w) -> wellFormed (hooks (runWizard y events w).1).
Proof.
  apply (runWizard_invariant (fun w => wellFormed (hooks w))).
  intros ev w0 Hw. destruct (dispatch_hooks y ev w0) as [-> _].
  now apply dispatchHooks_wellFormed.
Qed.

Lemma run_hooks y events s :
  (run y events s).1 = hooks (runWizard y events (mounted s)).1.
Proof.
  unfold run. now destruct (runWizard y events (mounted s)).
Qed.

Lemma wizard_stays_on_its_steps_aux (y : Z) (events : list Event) :
  let s := (run y events initialState).1 in
  (1 <= currentStep s <= 6)%Z
  /\ ((5 <= currentStep s)%Z -> exists o, apiOutline s = Some o).
Proof.
  cbn zeta. rewrite run_hooks.
  assert (H0 : wellFormed (hooks (mounted initialState))) by (split; [cbn; lia | cbn; lia]).
  destruct (runWizard_wellFormed y events (mounted initialState) H0) as [Hr Hout].
  split; [exact Hr | exact Hout].
Qed.

(** X1.  Whatever sequence of clicks, edits, uploads and settled requests
    a freshly mounted wizard goes through, it stays on one of its six
    steps, and whenever it is on step 5 or 6 it holds an outline received
    from the back end. *)
Theorem wizard_stays_on_its_steps (y : Z) (events : list Event) :
  let s := (run y events initialState).1 in
  (1 <= currentStep s <= 6)%Z
  /\ ((5 <= currentStep s)%Z -> exists o, apiOutline s = Some o).
Proof. exact (wizard_stays_on_its_steps_aux y events). Qed.

(** *** The arrays [outline] shares with [apiOutline] *)

Lemma sharedAt_Some aliases i k :
  sharedAt aliases i = Some k <-> aliases !! i = Some (Some k).
Proof.
  unfold sharedAt. destruct (aliases !! i) as [[k' |] |]; split; congruence.
Qed.

Lemma outline_setOutline ol s : outline (setOutline ol s) = ol.
Proof. now destruct s. Qed.

Lemma apiOutline_setOutline ol s : apiOutline (setOutline ol s) = apiOutline s.
Proof. now destruct s. Qed.

(** An event that leaves [outline], [apiOutline] and the sharing alone
    keeps the invariant. *)
Lemma aligned_frame w w' :
  shared w' = shared w ->
  outline (hooks w') = outline (hooks w) ->
  apiOutline (hooks w') = apiOutline (hooks w) ->
  aligned w -> aligned w'.
Proof.
  unfold aligned. intros -> -> ->. auto.
Qed.

Lemma aligned_mounted s : aligned (mounted s).
Proof.
  unfold aligned, mounted. cbn. split; [apply length_map |].
  split; intros i; intros; rewrite list_lookup_fmap in *;
    destruct (Outline.sections (outline s) !! i); discriminate.
Qed.

(** The converted outline and the result it was converted from. *)
Lemma aligned_converted s topic o :
  outline s = convertedOutline topic o ->
  apiOutline s = Some o ->
  aligned {| hooks := s; shared := convertedAliases o |}.
Proof.
  intros Hol Hao. unfold aligned, convertedAliases. cbn. rewrite Hol, Hao. cbn.
  rewrite !length_map, length_seq. split; [reflexivity |]. split.
  - intros i j k Hi Hj. rewrite list_lookup_fmap in Hi, Hj.
    destruct (seq 0 (length (EssayApi.outline_components o)) !! i) as [a |] eqn:Ha;
      [| discriminate].
    destruct (seq 0 (length (EssayApi.outline_components o)) !! j) as [b |] eqn:Hb;
      [| discriminate].
    apply lookup_seq in Ha as [-> _]. apply lookup_seq in Hb as [-> _].
    cbn in Hi, Hj. congruence.
  - intros i k Hi. rewrite list_lookup_fmap in Hi.
    destruct (seq 0 (length (EssayApi.outline_components o)) !! i) as [a |] eqn:Ha;
      [| discriminate].
    apply lookup_seq in Ha as [-> Hlt]. cbn in Hi. injection Hi as <-.
    destruct (lookup_lt_is_Some_2 (EssayApi.outline_components o) i Hlt) as [component Hc].
    exists {| OutlineSection.title := EssayApi.main_idea component;
              OutlineSection.subsections := EssayApi.subtopics component |}, o, component.
    rewrite list_lookup_fmap, Hc. repeat split; reflexivity.
Qed.

(** [addNewSection]. *)
Lemma aligned_addNewSection w :
  aligned w ->
  aligned {| hooks := addNewSection (hooks w); shared := (shared w ++ [None])%list |}.
Proof.
  intros (Hlen & Hinj & Hcoh). unfold aligned, addNewSection. cbn [hooks shared].
  rewrite outline_setOutline, apiOutline_setOutline.
  cbn. rewrite !length_app, Hlen. split; [reflexivity |].
  assert (Hold : forall i k, (shared w ++ [None])%list !! i = Some (Some k) ->
            shared w !! i = Some (Some k)).
  { intros i k Hi. apply lookup_app_Some in Hi as [Hi | [_ Hi]]; [exact Hi |].
    destruct (i - length (shared w))%nat; discriminate. }
  split.
  - intros i j k Hi Hj. eauto.
  - intros i k Hi. destruct (Hcoh i k (Hold _ _ Hi)) as (sec & o & component & Hs & Ho & Hc & He).
    exists sec, o, component. split; [now apply lookup_app_l_Some | auto].
Qed.

(** [deleteSection]. *)
Lemma aligned_deleteSection index w :
  aligned w ->
  aligned {| hooks := deleteSection index (hooks w); shared := delete index (shared w) |}.
Proof.
  intros (Hlen & Hinj & Hcoh). unfold aligned, deleteSection. cbn [hooks shared].
  rewrite outline_setOutline, apiOutline_setOutline.
  cbn. split.
  { destruct (decide (index < length (shared w))%nat) as [Hlt | Hge].
    - rewrite !length_delete by (apply lookup_lt_is_Some; lia). lia.
    - rewrite !delete_take_drop, !take_ge, !drop_ge, !app_nil_r by lia. exact Hlen. }
  split.
  - intros i j k Hi Hj. rewrite list_lookup_delete in Hi, Hj.
    pose proof (Hinj _ _ _ Hi Hj) as Heq.
    destruct (decide (i < index)%nat), (decide (j < index)%nat); lia.
  - intros i k Hi. rewrite list_lookup_delete in Hi.
    destruct (Hcoh _ k Hi) as (sec & o & component & Hs & Ho & Hc & He).
    exists sec, o, component. rewrite list_lookup_delete. auto.
Qed.

(** The title input. *)
Lemma aligned_editSectionTitle index text w s' :
  editSectionTitle index text (hooks w) = Some s' ->
  aligned w -> aligned {| hooks := s'; shared := shared w |}.
Proof.
  unfold editSectionTitle.
  destruct (Outline.sections (outline (hooks w)) !! index) as [sec |] eqn:Hsec;
    [| discriminate].
  intros [= <-] (Hlen & Hinj & Hcoh). unfold aligned. cbn [hooks shared].
  rewrite outline_setOutline, apiOutline_setOutline.
  cbn. rewrite length_insert. split; [exact Hlen |]. split; [exact Hinj |].
  intros i k Hi. destruct (Hcoh i k Hi) as (sec' & o & component & Hs & Ho & Hc & He).
  destruct (decide (i = index)) as [-> | Hne].
  - rewrite Hsec in Hs. injection Hs as <-.
    eexists _, o, component. rewrite list_lookup_insert_eq by (now apply lookup_lt_Some in Hsec).
    repeat split; auto.
  - exists sec', o, component. rewrite list_lookup_insert_ne by congruence. auto.
Qed.

(** A push, splice or assignment on the array of a section. *)
Lemma aligned_writeSubsections index sec array w :
  Outline.sections (outline (hooks w)) !! index = Some sec ->
  aligned w ->
  aligned {| hooks := writeSubsections (sharedAt (shared w) index) index sec array (hooks w);
             shared := shared w |}.
Proof.
  intros Hsec (Hlen & Hinj & Hcoh). unfold aligned. cbn [hooks shared].
  destruct (writeSubsections_fields (sharedAt (shared w) index) index sec array (hooks w))
    as (_ & _ & _ & _ & _ & Hsections & Hapi).
  rewrite Hsections, Hapi, length_insert.
  pose proof (lookup_lt_Some _ _ _ Hsec) as Hlt.
  split; [exact Hlen |]. split; [exact Hinj |].
  intros i k Hi. destruct (Hcoh i k Hi) as (sec' & o & component & Hs & Ho & Hc & He).
  rewrite Ho. destruct (decide (i = index)) as [-> | Hne].
  - apply sharedAt_Some in Hi. rewrite Hi.
    exists (withSubsections array sec),
      {| EssayApi.outline_components :=
           alter (withSubtopics array) k (EssayApi.outline_components o) |},
      (withSubtopics array component).
    rewrite list_lookup_insert_eq by exact Hlt. cbn.
    rewrite list_lookup_alter_eq, Hc. repeat split; reflexivity.
  - rewrite list_lookup_insert_ne by congruence.
    destruct (sharedAt (shared w) index) as [k' |] eqn:Hk'.
    + apply sharedAt_Some in Hk'.
      assert (Hkk : k' <> k) by (intros ->; apply Hne; eauto).
      eexists sec', _, component. split; [exact Hs |]. split; [reflexivity |]. cbn.
      rewrite list_lookup_alter_ne by exact Hkk. auto.
    + exists sec', o, component. repeat split; auto.
Qed.

(** What a poll of the outline job does to [outline] and [apiOutline]. *)
Lemma pollJobStatus_outline y r s :
  match r with
  | Js.Resolved status =>
      match JobStatus.status status, JobStatus.result status with
      | JobStatus.completed, Some result =>
          outline (pollJobStatus y r s).1
          = convertedOutline (FormData.topic (formData s)) (ApiResponse.outline result)
          /\ apiOutline (pollJobStatus y r s).1 = Some (ApiResponse.outline result)
      | _, _ =>
          outline (pollJobStatus y r s).1 = outline s
          /\ apiOutline (pollJobStatus y r s).1 = apiOutline s
      end
  | Js.Rejected _ =>
      outline (pollJobStatus y r s).1 = outline s
      /\ apiOutline (pollJobStatus y r s).1 = apiOutline s
  end.
Proof.
  unfold pollJobStatus, pollJobStatus_catch.
  destruct s, r as [[[] ? ? [] ?] | ?]; cbn; split_ifs; split; reflexivity.
Qed.

Ltac frame_done s := (split; [| split]); try reflexivity; now destruct s.

(** The events that are neither outline edits nor status responses of the
    outline job leave [outline] and [apiOutline] as they are. *)
Lemma dispatchHooks_outline_frame y ev aliases s :
  isOutlineEdit ev = false ->
  match ev with JobStatusArrives _ => False | _ => True end ->
  outline (dispatchHooks y ev aliases s).1 = outline s
  /\ apiOutline (dispatchHooks y ev aliases s).1 = apiOutline s.
Proof.
  intros Hedit Hjob.
  destruct ev; try discriminate; try contradiction; cbn [dispatchHooks]; unfold whenShown.
  - destruct (_ && _); [| now split]. now destruct s.
  - destruct (_ && _); [| now split].
    unfold nextButtonClick. destruct (_ =? totalSteps)%Z.
    { unfold generateFinalEssay, generateFinalEssay_catch.
      destruct s, essayResponse as [[? ? []] | ?]; cbn; split_ifs; split; reflexivity. }
    destruct (_ =? 4)%Z; cbn [fst]; [| now destruct s].
    unfold handleGenerateOutline. split_ifs; now destruct s.
  - destruct (dialogShown s); [| now split].
    unfold confirmAndGenerateOutline, fetchSourcesAndOutline, fetchSourcesAndOutline_catch.
    destruct s, jobResponse as [[? ? []] | ?], updatedCredits; cbn; split_ifs;
      split; reflexivity.
  - destruct (dialogShown s); [| now split]. now destruct s.
  - destruct (errorViewShown s) eqn:Herr; [| now split].
    unfold handleStartOver, errorViewShown in *.
    destruct s; cbn in *. rewrite Herr. split_ifs; split; reflexivity.
  - destruct (stepShown 1 s); [| now split]. now destruct s.
  - destruct (stepShown 1 s); [| now split]. now destruct s.
  - destruct (stepShown 1 s); [| now split]. now destruct s.
  - destruct (stepShown 1 s); [| now split]. now destruct s.
  - destruct (stepShown 1 s); [| now split]. now destruct s.
  - destruct (stepShown 2 s); [| now split]. now destruct s.
  - destruct (stepShown 3 s); [| now split]. now destruct s.
  - destruct (stepShown 3 s); [| now split]. now destruct s.
  - destruct (stepShown 4 s); [| now split]. now destruct s.
  - destruct (stepShown 5 s); [| now split]. now destruct s.
  - destruct (stepShown _ s); [| now split]. now destruct kind, extracted, s.
  - destruct (essayJobId s) as [job |]; [| now split].
    destruct (_ && _); [| now split].
    unfold pollEssayStatus, pollEssayStatus_catch, generationStageOf.
    destruct s, response as [[[] ? ? [] ?] | ?]; cbn; split_ifs; split; reflexivity.
  - now destruct credits, s.
Qed.

(** One event keeps the heap invariant. *)
Lemma dispatch_aligned y ev w : aligned w -> aligned (dispatch y ev w).1.
Proof.
  intros Hw.
  assert (Hframe : isOutlineEdit ev = false ->
            match ev with JobStatusArrives _ => False | _ => True end ->
            aligned (dispatch y ev w).1).
  { intros Hedit Hjob.
    destruct (dispatch_hooks y ev w) as [Hh Hs].
    destruct (dispatchHooks_outline_frame y ev (shared w) (hooks w) Hedit Hjob) as [Ho Ha].
    apply (aligned_frame w); [| congruence | congruence | exact Hw].
    rewrite Hs. destruct ev; try reflexivity; try discriminate; contradiction. }
  destruct ev; try (apply Hframe; [reflexivity | exact I]);
    unfold dispatch; cbn [dispatchHooks aliasesAfter]; unfold whenShown.
  - destruct (stepShown 6 (hooks w)); [now apply aligned_addNewSection | now destruct w].
  - destruct (stepShown 6 (hooks w)); [now apply aligned_deleteSection | now destruct w].
  - destruct (stepShown 6 (hooks w)); [| now destruct w].
    unfold addNewSubsection.
    destruct (Outline.sections (outline (hooks w)) !! index) as [sec |] eqn:Hsec;
      cbn [default fst]; [now apply aligned_writeSubsections | now destruct w].
  - destruct (stepShown 6 (hooks w)); [| now destruct w].
    unfold deleteSubsection.
    destruct (Outline.sections (outline (hooks w)) !! index) as [sec |] eqn:Hsec;
      cbn [default fst]; [now apply aligned_writeSubsections | now destruct w].
  - destruct (stepShown 6 (hooks w)); [| now destruct w].
    destruct (editSectionTitle index text (hooks w)) as [s' |] eqn:Hed;
      cbn [default fst]; [now apply (aligned_editSectionTitle index text) | now destruct w].
  - destruct (stepShown 6 (hooks w)); [| now destruct w].
    unfold editSubsection.
    destruct (Outline.sections (outline (hooks w)) !! index) as [sec |] eqn:Hsec;
      cbn [default fst]; [| now destruct w].
    destruct (OutlineSection.subsections sec !! subIndex);
      cbn [default fst]; [now apply aligned_writeSubsections | now destruct w].
  - destruct (jobId (hooks w)) as [job |]; [| destruct response; now destruct w].
    destruct (Js.truthyString job && isLoading (hooks w));
      [| destruct response; now destruct w].
    cbn [fst]. pose proof (pollJobStatus_outline y response (hooks w)) as Hp.
    destruct response as [status | e].
    + destruct (JobStatus.status status), (JobStatus.result status) as [result |];
        destruct Hp as [Ho Ha];
        try (apply (aligned_frame w); [reflexivity | exact Ho | exact Ha | exact Hw]).
      now apply (aligned_converted _ (FormData.topic (formData (hooks w)))).
    + destruct Hp as [Ho Ha].
      apply (aligned_frame w); [reflexivity | exact Ho | exact Ha | exact Hw].
Qed.

Lemma runWizard_aligned y events w : aligned w -> aligned (runWizard y events w).1.
Proof.
  apply (runWizard_invariant aligned). intros ev w0. apply dispatch_aligned.
Qed.

Lemma sameHeadings_refl s : sameHeadings s s.
Proof.
  unfold sameHeadings. repeat split; try reflexivity. intros o Ho. now exists o.
Qed.

Lemma sameHeadings_trans s1 s2 s3 :
  sameHeadings s1 s2 -> sameHeadings s2 s3 -> sameHeadings s1 s3.
Proof.
  intros (Hf & Hc & Hw & Hs & Ho) (Hf' & Hc' & Hw' & Hs' & Ho').
  unfold sameHeadings. repeat split; try congruence.
  intros o H1. destruct (Ho o H1) as (o2 & H2 & Hm & Hsrc).
  destruct (Ho' o2 H2) as (o3 & H3 & Hm' & Hsrc').
  exists o3. repeat split; congruence.
Qed.

Lemma sameHeadings_setOutline ol s : sameHeadings s (setOutline ol s).
Proof.
  unfold sameHeadings. destruct s; cbn. repeat split; try reflexivity.
  intros o Ho. now exists o.
Qed.

Lemma sameHeadings_writeSubsections sharedWith i sec array s :
  sameHeadings s (writeSubsections sharedWith i sec array s).
Proof.
  destruct (writeSubsections_fields sharedWith i sec array s)
    as (Hstep & Hf & Hc & Hw & _ & _ & Hapi).
  unfold sameHeadings. repeat split; try assumption.
  intros o Ho. rewrite Hapi, Ho. destruct sharedWith as [k |]; [| now exists o].
  eexists. split; [reflexivity |]. cbn.
  split; apply list_eq; intros j; rewrite !list_lookup_fmap;
    (destruct (decide (k = j)) as [-> | Hne];
       [rewrite list_lookup_alter_eq; now destruct (_ !! j)
       | now rewrite list_lookup_alter_ne by exact Hne]).
Qed.

(** An outline edit changes nothing of the request but subtopics. *)
Lemma dispatch_sameHeadings y ev w :
  isOutlineEdit ev = true -> sameHeadings (hooks w) (hooks (dispatch y ev w).1).
Proof.
  intros Hev. destruct (dispatch_hooks y ev w) as [-> _].
  destruct ev; try discriminate; cbn [dispatchHooks]; unfold whenShown;
    (destruct (stepShown 6 (hooks w)); cbn [fst]; [| apply sameHeadings_refl]).
  - apply sameHeadings_setOutline.
  - apply sameHeadings_setOutline.
  - unfold addNewSubsection. destruct (_ !! _); cbn [default];
      [apply sameHeadings_writeSubsections | apply sameHeadings_refl].
  - unfold deleteSubsection. destruct (_ !! _); cbn [default];
      [apply sameHeadings_writeSubsections | apply sameHeadings_refl].
  - unfold editSectionTitle. destruct (_ !! _); cbn [default];
      [apply sameHeadings_setOutline | apply sameHeadings_refl].
  - unfold editSubsection. destruct (_ !! _) as [sec |]; cbn [default];
      [| apply sameHeadings_refl].
    destruct (_ !! _); cbn [default];
      [apply sameHeadings_writeSubsections | apply sameHeadings_refl].
Qed.

Lemma runWizard_sameHeadings y edits w :
  forallb isOutlineEdit edits = true ->
  sameHeadings (hooks w) (hooks (runWizard y edits w).1).
Proof.
  revert w. induction edits as [| ev rest IH]; intros w Hedits; [apply sameHeadings_refl |].
  cbn in Hedits. apply andb_prop in Hedits as [Hev Hrest].
  cbn [runWizard]. pose proof (dispatch_sameHeadings y ev w Hev) as H1.
  destruct (dispatch y ev w) as [w1 calls1]. cbn [fst] in H1.
  specialize (IH w1 Hrest). destruct (runWizard y rest w1) as [w2 calls2]. cbn [fst] in *.
  exact (sameHeadings_trans _ _ _ H1 IH).
Qed.

(** X2.  Outline edits reach the essay request through the arrays the
    outline shares with [apiOutline], and in no other way.  After any run
    of a freshly mounted wizard that ends on step 6 and any further
    sequence of outline edits, the request body takes its outline from
    [apiOutline]; its components, their headings and their sources are
    those the back end sent, whatever sections were added, deleted or
    retitled; but each component whose array a section still holds carries
    the subsections as that section now shows them.  In particular adding
    a subsection to such a section adds it to the request.  The rest of
    the request body is untouched by the edits. *)
Theorem outline_edits_reach_the_request_through_shared_arrays
    (y : Z) (events edits : list Event) :
  let before := (runWizard y events (mounted initialState)).1 in
  let edited := (runWizard y edits before).1 in
  currentStep (hooks before) = 6%Z ->
  forallb isOutlineEdit edits = true ->
  exists received sent,
    apiOutline (hooks before) = Some received
    /\ EssayData.outline (essayData (hooks edited)) = sent
    /\ apiOutline (hooks edited) = Some sent
    /\ map EssayApi.main_idea (EssayApi.outline_components sent)
       = map EssayApi.main_idea (EssayApi.outline_components received)
    /\ map EssayApi.sources (EssayApi.outline_components sent)
       = map EssayApi.sources (EssayApi.outline_components received)
    /\ (forall i k, shared edited !! i = Some (Some k) ->
          exists sec component,
            Outline.sections (outline (hooks edited)) !! i = Some sec
            /\ EssayApi.outline_components sent !! k = Some component
            /\ EssayApi.subtopics component = OutlineSection.subsections sec)
    /\ (forall i k sec, stepShown 6 (hooks edited) = true ->
          shared edited !! i = Some (Some k) ->
          Outline.sections (outline (hooks edited)) !! i = Some sec ->
          exists component,
            EssayApi.outline_components
              (EssayData.outline
                 (essayData (hooks (dispatch y (AddSubsection i) edited).1))) !! k
            = Some component
            /\ EssayApi.subtopics component
               = (OutlineSection.subsections sec ++ ["New subsection"])%list)
    /\ EssayData.title (essayData (hooks edited)) = EssayData.title (essayData (hooks before))
    /\ EssayData.word_count (essayData (hooks edited))
       = EssayData.word_count (essayData (hooks before))
    /\ EssayData.sources (essayData (hooks edited))
       = EssayData.sources (essayData (hooks before))
    /\ EssayData.citation_format (essayData (hooks edited))
       = EssayData.citation_format (essayData (hooks before))
    /\ EssayData.writing_analysis (essayData (hooks edited))
       = EssayData.writing_analysis (essayData (hooks before)).
Proof.
  cbn zeta. intros Hstep Hedits.
  set (before := (runWizard y events (mounted initialState)).1) in *.
  set (edited := (runWizard y edits before).1).
  assert (Hwf : wellFormed (hooks before)).
  { apply runWizard_wellFormed. split; cbn; lia. }
  assert (Hal : aligned edited).
  { apply runWizard_aligned, runWizard_aligned, aligned_mounted. }
  destruct Hwf as [_ Hout]. destruct (Hout ltac:(lia)) as [received Hrec].
  destruct (runWizard_sameHeadings y edits before Hedits) as (Hf & Hc & Hw & Hs & Ho).
  fold edited in Hf, Hc, Hw, Hs, Ho.
  destruct (Ho received Hrec) as (sent & Hsent & Hmain & Hsrc).
  exists received, sent.
  split; [exact Hrec |].
  split; [unfold essayData; cbn; now rewrite Hsent |].
  split; [exact Hsent |]. split; [exact Hmain |]. split; [exact Hsrc |].
  destruct Hal as (Hlen & Hinj & Hcoh).
  split.
  { intros i k Hi. destruct (Hcoh i k Hi) as (sec & o & component & Hsec & Hao & Hcomp & He).
    rewrite Hsent in Hao. injection Hao as <-. now exists sec, component. }
  split.
  { intros i k sec Hshown Hi Hsec.
    destruct (Hcoh i k Hi) as (sec' & o & component & Hsec' & Hao & Hcomp & He).
    rewrite Hsent in Hao. injection Hao as <-.
    destruct (dispatch_hooks y (AddSubsection i) edited) as [-> _].
    cbn [dispatchHooks]. unfold whenShown, addNewSubsection.
    rewrite Hshown, Hsec. cbn [fst default from_option id].
    apply sharedAt_Some in Hi. rewrite Hi. unfold id.
    destruct (writeSubsections_fields (Some k) i sec
                (OutlineSection.subsections sec ++ ["New subsection"])%list (hooks edited))
      as (_ & _ & _ & _ & _ & _ & Hapi).
    rewrite Hsent in Hapi. unfold essayData. cbn [EssayData.outline]. rewrite Hapi.
    cbn. rewrite list_lookup_alter_eq, Hcomp. cbn. now eexists. }
  unfold essayData. cbn. now rewrite Hf, Hc, Hw.
Qed.

Lemma outline_edits_reach_the_request_through_shared_arrays_witness :
  let before := (runWizard 2026 toOutlineStep (mounted initialState)).1 in
  let edited := (runWizard 2026 someEdits before).1 in
  currentStep (hooks before) = 6%Z
  /\ forallb isOutlineEdit someEdits = true
  /\ apiOutline (hooks before) = Some telegraphOutline
  /\ map EssayApi.main_idea
       (EssayApi.outline_components (EssayData.outline (essayData (hooks edited))))
     = ["Financing the cable"; "Market integration"]
  /\ map EssayApi.subtopics
       (EssayApi.outline_components (EssayData.outline (essayData (hooks edited))))
     = [["Investors"; "Returns"; "New subsection"]; []]
  /\ map OutlineSection.title (Outline.sections (outline (hooks edited)))
     = ["A different opening"; "New Section"].
Proof.
  cbn zeta.
  assert (Hstep : currentStep (hooks (runWizard 2026 toOutlineStep (mounted initialState)).1)
                  = 6%Z) by (vm_compute; reflexivity).
  assert (Hedits : forallb isOutlineEdit someEdits = true) by reflexivity.
  assert (Hreceived : apiOutline (hooks (runWizard 2026 toOutlineStep
                                           (mounted initialState)).1)
                      = Some telegraphOutline) by (vm_compute; reflexivity).
  destruct (outline_edits_reach_the_request_through_shared_arrays 2026 toOutlineStep
              someEdits Hstep Hedits)
    as (received & sent & Hrec & Hsent & _ & Hmain & _).
  rewrite Hreceived in Hrec. injection Hrec as <-.
  refine (conj Hstep (conj Hedits (conj Hreceived (conj _ (conj _ _))))).
  - rewrite Hsent, Hmain. reflexivity.
  - vm_compute. reflexivity.
  - vm_compute. reflexivity.
Defined.

(** X3.  The Next button of step 1 is enabled exactly when the topic is
    not rated "poor" (it has at least 20 characters) and the three names
    are filled in; a form that passed this check also passes the four
    checks of [handleGenerateOutline], on whatever step it is made, which
    then shows no error and opens the credit confirmation. *)
Theorem valid_first_step_opens_the_confirmation (s s' : State) :
  currentStep s = 1%Z ->
  formData s' = formData s ->
  (isStepValid s = true <->
     assessPromptQuality (FormData.topic (formData s)) <> poor
     /\ FormData.studentName (formData s) <> ""
     /\ FormData.professorName (formData s) <> ""
     /\ FormData.className (formData s) <> "")
  /\ (isStepValid s = true ->
      handleGenerateOutline s' = setShowCreditConfirmation true s'
      /\ error (handleGenerateOutline s') = error s'
      /\ showCreditConfirmation (handleGenerateOutline s') = true).
Proof.
  intros Hstep Hform.
  assert (Hiff : isStepValid s = true <->
            assessPromptQuality (FormData.topic (formData s)) <> poor
            /\ FormData.studentName (formData s) <> ""
            /\ FormData.professorName (formData s) <> ""
            /\ FormData.className (formData s) <> "").
  { unfold isStepValid, assessPromptQuality. rewrite Hstep. cbn [Z.eqb Pos.eqb].
    rewrite !andb_true_iff, <- !truthy_Some. cbn [Js.truthy].
    destruct (Z.ltb_spec (Z.of_nat (String.length (FormData.topic (formData s)))) 20);
      destruct (Z.leb_spec 20 (Z.of_nat (String.length (FormData.topic (formData s)))));
      try lia.
    - split; [intros [[[? ?] ?] ?]; discriminate | intros [Hq _]; now contradiction Hq].
    - split; [intros [[[_ ?] ?] ?]; repeat split; auto | intros (_ & ? & ? & ?); auto].
      destruct (_ <? 50)%Z; discriminate. }
  split; [exact Hiff |].
  intros Hvalid. apply Hiff in Hvalid as (Hq & Hs & Hp & Hc).
  assert (Ht : FormData.topic (formData s) <> "").
  { intros Heq. apply Hq. unfold assessPromptQuality. now rewrite Heq. }
  apply truthy_Some in Ht, Hs, Hp, Hc. cbn [Js.truthy] in *.
  unfold handleGenerateOutline. rewrite Hform, Ht, Hs, Hp, Hc. cbn [negb].
  destruct s'; repeat split; reflexivity.
Qed.

Lemma valid_first_step_opens_the_confirmation_witness :
  currentStep (readyForOutline |> setCurrentStep 1) = 1%Z
  /\ formData readyForOutline = formData (readyForOutline |> setCurrentStep 1)
  /\ isStepValid (readyForOutline |> setCurrentStep 1) = true
  /\ showCreditConfirmation (handleGenerateOutline readyForOutline) = true.
Proof.
  refine (conj eq_refl (conj eq_refl (conj eq_refl _))).
  exact (proj2 (proj2 (proj2 (valid_first_step_opens_the_confirmation
                               (readyForOutline |> setCurrentStep 1) readyForOutline
                               eq_refl eq_refl) eq_refl))).
Defined.

Lemma toggled_involutive c : toggled (toggled c) = c.
Proof. destruct c as [? ? ? ? []]; reflexivity. Qed.

Lemma toggleIn_involutive id cs : toggleIn id (toggleIn id cs) = cs.
Proof.
  unfold toggleIn. rewrite map_map. rewrite <- (map_id cs) at 2.
  apply map_ext. intros c.
  destruct (Z.eqb_spec (Citation.id c) id) as [He | Hne].
  - change (Citation.id (toggled c)) with (Citation.id c).
    destruct (Z.eqb_spec (Citation.id c) id); [apply toggled_involutive | contradiction].
  - destruct (Z.eqb_spec (Citation.id c) id); [contradiction | reflexivity].
Qed.

(** X4.  Clicking a citation twice restores the wizard exactly; a click
    keeps the number, the order and the ids of the citations, flips the
    selection of every citation with the clicked id and leaves all others
    as they were. *)
Theorem citation_toggle_is_an_involution (id : Z) (s : State) :
  handleCitationToggle id (handleCitationToggle id s) = s
  /\ map Citation.id (citations (handleCitationToggle id s)) = map Citation.id (citations s)
  /\ forall k c, citations s !! k = Some c ->
       exists c', citations (handleCitationToggle id s) !! k = Some c'
                  /\ Citation.selected c'
                     = (if (Citation.id c =? id)%Z then negb (Citation.selected c)
                        else Citation.selected c)
                  /\ (Citation.id c <> id -> c' = c).
Proof.
  split; [| split].
  - unfold handleCitationToggle. destruct s; cbn -[toggleIn].
    now rewrite toggleIn_involutive.
  - unfold handleCitationToggle. destruct s; cbn -[toggleIn]. unfold toggleIn.
    rewrite map_map.
    apply map_ext. intros c. now destruct (Citation.id c =? id)%Z.
  - intros k c Hk. unfold handleCitationToggle. destruct s; cbn -[toggleIn] in *.
    unfold toggleIn.
    rewrite list_lookup_fmap, Hk. cbn. eexists. split; [reflexivity |].
    destruct (Z.eqb_spec (Citation.id c) id); split; try reflexivity; congruence.
Qed.

End WizardUiFacts.

(** ** Citations and the outline editor *)

Section CitationFacts.
Import EssayForm WizardUi Examples WizardSamples.
Local Open Scope string_scope.

Lemma converted_ids y (l : list EssayApi.Source) (k0 : nat) :
  map Citation.id (imap (fun i => convertedSource y (k0 + i)) l)
  = map (fun i => (Z.of_nat i + 1)%Z) (seq k0 (length l)).
Proof.
  revert k0. induction l as [| x l IH]; intros k0; [reflexivity |].
  rewrite imap_cons. cbn [map length seq]. f_equal.
  - cbn. now rewrite Nat.add_0_r.
  - rewrite <- (IH (S k0)). f_equal. apply imap_ext. intros i src _. cbn.
    now rewrite Nat.add_succ_r.
Qed.

Lemma filter_selected_none (l : list Citation.t) :
  (forall i c, l !! i = Some c -> Citation.selected c = false) ->
  filter (fun c => Citation.selected c = true) l = [].
Proof.
  induction l as [| x l IH]; intros H; [reflexivity |].
  rewrite filter_cons_False.
  - apply IH. intros i c Hi. exact (H (S i) c Hi).
  - rewrite (H 0%nat x eq_refl). discriminate.
Qed.

Lemma filter_selected_single (l : list Citation.t) (j : nat) (cj : Citation.t) :
  l !! j = Some cj ->
  (forall i c, l !! i = Some c -> Citation.selected c = bool_decide (i = j)) ->
  filter (fun c => Citation.selected c = true) l = [cj].
Proof.
  revert j. induction l as [| x l IH]; intros j Hj H; [discriminate |].
  destruct j as [| j]; cbn in Hj.
  - injection Hj as ->. rewrite filter_cons_True.
    + f_equal. apply filter_selected_none. intros i c Hi.
      rewrite (H (S i) c Hi). now apply bool_decide_eq_false_2.
    + rewrite (H 0%nat cj eq_refl). now apply bool_decide_eq_true_2.
  - rewrite filter_cons_False.
    + apply (IH j Hj). intros i c Hi. rewrite (H (S i) c Hi).
      apply bool_decide_ext. lia.
    + rewrite (H 0%nat x eq_refl). rewrite bool_decide_eq_false_2 by lia. discriminate.
Qed.

Lemma pollJobStatus_completed_citations y status result s :
  JobStatus.status status = JobStatus.completed ->
  JobStatus.result status = Some result ->
  citations (pollJobStatus y (Js.Resolved status) s).1
  = imap (convertedSource y) (concat (ApiResponse.sources result))
  /\ formData (pollJobStatus y (Js.Resolved status) s).1 = formData s
  /\ apiOutline (pollJobStatus y (Js.Resolved status) s).1
     = Some (ApiResponse.outline result).
Proof.
  intros Hst Hres. unfold pollJobStatus. rewrite Hst, Hres.
  destruct s; cbn.
  repeat match goal with
         | |- context [if String.eqb ?a ?b then _ else _] => destruct (String.eqb a b); cbn
         end; repeat split; reflexivity.
Qed.

(** X5.  When the outline job completes, the citation list holds one row
    per source of the result, numbered 1, 2, ... in order (so the ids are
    distinct) and none selected: the essay request built at that point
    carries no source.  Clicking citation [k + 1] then makes the request
    carry exactly the [k]-th source, and no other. *)
Theorem completed_job_numbers_the_citations
    (y : Z) (status : JobStatus.t ApiResponse.t) (result : ApiResponse.t) (s : State) :
  JobStatus.status status = JobStatus.completed ->
  JobStatus.result status = Some result ->
  let done := (pollJobStatus y (Js.Resolved status) s).1 in
  let found := concat (ApiResponse.sources result) in
  map Citation.id (citations done)
  = map (fun i => (Z.of_nat i + 1)%Z) (seq 0 (length found))
  /\ NoDup (map Citation.id (citations done))
  /\ EssayData.sources (essayData done) = []
  /\ forall k src, found !! k = Some src ->
       EssayData.sources (essayData (handleCitationToggle (Z.of_nat k + 1) done))
       = [selectedSource (convertedSource y k src)].
Proof.
  intros Hst Hres. cbn zeta.
  destruct (pollJobStatus_completed_citations y status result s Hst Hres) as (Hc & _ & _).
  set (done := (pollJobStatus y (Js.Resolved status) s).1) in *.
  set (found := concat (ApiResponse.sources result)) in *.
  assert (Hids : map Citation.id (citations done)
                 = map (fun i => (Z.of_nat i + 1)%Z) (seq 0 (length found))).
  { rewrite Hc. exact (converted_ids y found 0). }
  split; [exact Hids |]. split.
  { rewrite Hids. apply NoDup_fmap_2; [| apply NoDup_seq]. intros a b Hab. lia. }
  split.
  { unfold essayData. cbn [EssayData.sources]. rewrite Hc.
    rewrite filter_selected_none; [reflexivity |].
    intros i c Hi. rewrite list_lookup_imap in Hi.
    destruct (found !! i); [| discriminate]. now injection Hi as <-. }
  intros k src Hk. unfold essayData, handleCitationToggle. cbn [EssayData.sources].
  replace (citations (setCitations (toggleIn (Z.of_nat k + 1) (citations done)) done))
    with (toggleIn (Z.of_nat k + 1) (citations done)) by now destruct done.
  rewrite Hc.
  rewrite (filter_selected_single _ k (toggled (convertedSource y k src))).
  - reflexivity.
  - unfold toggleIn. rewrite list_lookup_fmap, list_lookup_imap, Hk. cbn.
    now rewrite Z.eqb_refl.
  - intros i c Hi. unfold toggleIn in Hi.
    rewrite list_lookup_fmap, list_lookup_imap in Hi.
    destruct (found !! i) as [src' |]; [| discriminate]. cbn in Hi.
    destruct (Z.eqb_spec (Z.of_nat i + 1) (Z.of_nat k + 1)) as [He | Hne];
      injection Hi as <-; cbn.
    + symmetry. apply bool_decide_eq_true_2. lia.
    + symmetry. apply bool_decide_eq_false_2. lia.
Qed.

Lemma completed_job_numbers_the_citations_witness :
  JobStatus.status completedWithResult = JobStatus.completed
  /\ JobStatus.result completedWithResult = Some telegraphResult
  /\ map Citation.id (citations (pollJobStatus 2026 (Js.Resolved completedWithResult)
                                   pollingOutline).1) = [1; 2]%Z.
Proof.
  refine (conj eq_refl (conj eq_refl _)).
  exact (proj1 (completed_job_numbers_the_citations 2026 completedWithResult telegraphResult
                  pollingOutline eq_refl eq_refl)).
Defined.

Lemma state_outline_eta s :
  setOutline {| Outline.title := Outline.title (outline s);
                Outline.sections := Outline.sections (outline s) |} s = s.
Proof. destruct s as [? ? ? ? ? [? ?]]; reflexivity. Qed.

Lemma withSubtopics_same (component : EssayApi.OutlineComponent) :
  withSubtopics (EssayApi.subtopics component) component = component.
Proof. now destruct component. Qed.

(** Writing back the content an array had restores the state. *)
Lemma writeSubsections_restores sharedWith index sec array s :
  Outline.sections (outline s) !! index = Some sec ->
  sameArray sharedWith index s ->
  writeSubsections sharedWith index (withSubsections array sec)
    (OutlineSection.subsections sec)
    (writeSubsections sharedWith index sec array s) = s.
Proof.
  intros Hsec Hsame. unfold sameArray in Hsame.
  unfold writeSubsections, writeShared.
  destruct s as [step fd uf ua ci [t secs] pa wa pe il lp ls gs ao so er ji sc uc ic ej gO gE].
  cbn in *.
  assert (Hsecs : <[index := withSubsections (OutlineSection.subsections sec)
                               (withSubsections array sec)]>
                    (<[index := withSubsections array sec]> secs) = secs).
  { rewrite list_insert_insert_eq. apply list_insert_id. rewrite Hsec. now destruct sec. }
  destruct sharedWith as [k |], ao as [[components] |]; cbn; rewrite Hsecs; try reflexivity.
  do 2 f_equal. f_equal. rewrite list_alter_alter_eq.
  destruct (components !! k) as [component |] eqn:Hk.
  - apply list_eq. intros j. destruct (decide (k = j)) as [<- | Hne].
    + rewrite list_lookup_alter_eq, Hk. cbn. f_equal.
      rewrite <- (Hsame k _ component sec eq_refl eq_refl Hk Hsec).
      now destruct component.
    + now rewrite list_lookup_alter_ne by exact Hne.
  - apply list_eq. intros j. destruct (decide (k = j)) as [<- | Hne].
    + now rewrite list_lookup_alter_eq, Hk.
    + now rewrite list_lookup_alter_ne by exact Hne.
Qed.

(** X6.  In the outline editor, deleting the section just added restores
    the wizard exactly, and so does deleting the subsection just added to a
    section, also where the section's array is shared with [apiOutline]:
    both the outline and [apiOutline] are as they were.  Deleting at a
    position past the end changes nothing, and deleting an existing section
    shortens the outline by one. *)
Theorem outline_editor_round_trips (s : State) (index : nat) (sharedWith : option nat) :
  deleteSection (length (Outline.sections (outline s))) (addNewSection s) = s
  /\ ((length (Outline.sections (outline s)) <= index)%nat -> deleteSection index s = s)
  /\ ((index < length (Outline.sections (outline s)))%nat ->
      S (length (Outline.sections (outline (deleteSection index s))))
      = length (Outline.sections (outline s)))
  /\ (forall sec, Outline.sections (outline s) !! index = Some sec ->
        sameArray sharedWith index s ->
        exists s1, addNewSubsection sharedWith index s = Some s1
          /\ deleteSubsection sharedWith index (length (OutlineSection.subsections sec)) s1
             = Some s)
  /\ ((length (Outline.sections (outline s)) <= index)%nat ->
      addNewSubsection sharedWith index s = None
      /\ deleteSubsection sharedWith index 0 s = None).
Proof.
  split; [| split; [| split; [| split]]].
  - unfold deleteSection, addNewSection.
    destruct s as [? ? ? ? ? [t secs]]; cbn.
    rewrite (delete_middle secs [] newSection), app_nil_r. reflexivity.
  - intros Hge. unfold deleteSection.
    rewrite delete_take_drop, take_ge, drop_ge, app_nil_r by lia.
    apply state_outline_eta.
  - intros Hlt. unfold deleteSection. destruct s as [? ? ? ? ? [t secs]]; cbn in *.
    rewrite length_delete by (now apply lookup_lt_is_Some). lia.
  - intros sec Hsec Hsame. unfold addNewSubsection. rewrite Hsec.
    eexists. split; [reflexivity |].
    unfold deleteSubsection.
    destruct (writeSubsections_fields sharedWith index sec
                (OutlineSection.subsections sec ++ ["New subsection"])%list s)
      as (_ & _ & _ & _ & _ & Hsections & _).
    rewrite Hsections, list_lookup_insert_eq by (now apply lookup_lt_Some in Hsec).
    cbn [withSubsections OutlineSection.subsections].
    rewrite (delete_middle (OutlineSection.subsections sec) [] "New subsection"), app_nil_r.
    f_equal. now apply writeSubsections_restores.
  - intros Hge. unfold addNewSubsection, deleteSubsection.
    now rewrite (lookup_ge_None_2 _ _ Hge).
Qed.

Lemma outline_editor_round_trips_witness :
  let done := (pollJobStatus 2026 (Js.Resolved completedWithResult) pollingOutline).1 in
  Outline.sections (outline done) !! 0%nat
  = Some {| OutlineSection.title := "Financing the cable";
            OutlineSection.subsections := ["Investors"; "Returns"] |}
  /\ (exists s1, addNewSubsection (Some 0%nat) 0 done = Some s1
        /\ apiOutline s1 <> apiOutline done
        /\ deleteSubsection (Some 0%nat) 0 2 s1 = Some done)
  /\ deleteSection 9 initialState = initialState.
Proof.
  cbn zeta.
  pose proof (outline_editor_round_trips
                (pollJobStatus 2026 (Js.Resolved completedWithResult) pollingOutline).1
                0 (Some 0%nat)) as (_ & _ & _ & Hsub & _).
  pose proof (outline_editor_round_trips initialState 9 None) as (_ & Hpast & _).
  refine (conj eq_refl (conj _ (Hpast _))); [| cbn; lia].
  destruct (Hsub _ eq_refl) as (s1 & Hadd & Hdel).
  { intros k o component sec [= <-] Ho Hk Hs.
    vm_compute in Ho. injection Ho as <-.
    vm_compute in Hk. injection Hk as <-.
    vm_compute in Hs. injection Hs as <-. reflexivity. }
  exists s1. split; [exact Hadd |]. split; [| exact Hdel].
  vm_compute in Hadd. injection Hadd as <-. vm_compute. discriminate.
Defined.

End CitationFacts.

(** ** A job from submission to completion *)

Section PollingInvariant.
Import EssayForm.
Context {Resp : Type}.
Variable poll : Resp -> State -> State * bool.
Variable jobOf : State -> option string.
Variable statusCall : string -> ApiCall.
Variable P : State -> Prop.
Hypothesis poll_keeps : forall r s, P s -> P (poll r s).1.

(** What every poll preserves holds after every poll of a run. *)
Lemma intervalTicks_invariant job t script s k ev :
  P s ->
  intervalTicks poll jobOf statusCall job t script s !! k = Some ev ->
  P (after ev).
Proof.
  revert t s k. induction script as [| r rest IH]; intros t s k Hs; [discriminate |].
  cbn [intervalTicks]. pose proof (poll_keeps r s Hs) as Hs'.
  destruct (poll r s) as [s' isDone]. cbn [fst] in Hs'.
  destruct k as [| k]; cbn [lookup list_lookup].
  - now intros [= <-].
  - destruct isDone; [discriminate |].
    destruct (depsChanged jobOf s s'); [discriminate |].
    intros Hk. exact (IH _ _ _ Hs' Hk).
Qed.

End PollingInvariant.

Section JobRuns.
Import EssayForm WizardUi Examples WizardSamples EssayApiHttp.
Local Open Scope string_scope.

Lemma polled_until_stop {Resp} (stops : Resp -> bool) pre r rest :
  Forall (fun x => stops x = false) pre -> stops r = true ->
  polled stops (pre ++ r :: rest) = S (length pre).
Proof.
  induction 1 as [| x pre Hx _ IH]; intros Hr; cbn [polled app length].
  - now rewrite Hr.
  - now rewrite Hx, IH.
Qed.

Lemma pollJobStatus_keepsInput y r s0 s :
  keepsInput s0 s -> keepsInput s0 (pollJobStatus y r s).1.
Proof.
  unfold keepsInput. destruct r as [[[] ? ? [] ?] | ?], s; cbn;
    repeat match goal with
           | |- context [if String.eqb ?a ?b then _ else _] => destruct (String.eqb a b); cbn
           end; auto.
Qed.

Lemma pollJobStatus_outlineReady y r s : outlineReady r (pollJobStatus y r s).1.
Proof.
  unfold outlineReady. destruct r as [[[] ? ? [res |] ?] | ?]; try exact I.
  destruct s; cbn;
    repeat match goal with
           | |- context [if String.eqb ?a ?b then _ else _] => destruct (String.eqb a b); cbn
           end; rewrite length_imap; repeat split; reflexivity.
Qed.

(** X7.  A polled outline job whose status requests all succeed, first
    any number of times with a status that does not stop polling and then
    with a completed status that carries a result, is polled once per
    response and no more, the last poll coming 2 seconds times the number
    of earlier polls after the first.  That poll leaves the wizard on step
    5, no longer loading, without a job id, with the outline of the result
    and one citation per source; what the user had entered is still
    there. *)
Theorem outline_job_runs_to_completion
    (y : Z) (s : State) (job : string)
    (pre rest : list (Js.Outcome (JobStatus.t ApiResponse.t)))
    (status : JobStatus.t ApiResponse.t) (result : ApiResponse.t) :
  jobId s = Some job -> job <> "" -> isLoading s = true ->
  Forall (fun r => stopsPolling r = false) pre ->
  JobStatus.status status = JobStatus.completed ->
  JobStatus.result status = Some result ->
  let events := jobPolling y (pre ++ Js.Resolved status :: rest) s in
  length events = S (length pre)
  /\ exists ev,
       events !! length pre = Some ev
       /\ at_ms ev = (2000 * Z.of_nat (length pre))%Z
       /\ currentStep (after ev) = 5%Z
       /\ isLoading (after ev) = false
       /\ jobId (after ev) = None
       /\ apiOutline (after ev) = Some (ApiResponse.outline result)
       /\ length (citations (after ev)) = length (concat (ApiResponse.sources result))
       /\ keepsInput s (after ev).
Proof.
  intros Hj Hne Hl Hpre Hst Hres. cbn zeta. unfold jobPolling.
  rewrite (pollingEffect_active (pollJobStatus y) jobId GetJobStatus stopsPolling
             (pollJobStatus_done y) (pollJobStatus_running y) (pollJobStatus_stopped y)
             job _ s Hj Hne Hl).
  assert (Hstop : stopsPolling (Js.Resolved status) = true).
  { unfold stopsPolling. rewrite Hst, Hres. reflexivity. }
  assert (Hlen : length (intervalTicks (pollJobStatus y) jobId GetJobStatus job 0
                           (pre ++ Js.Resolved status :: rest) s) = S (length pre)).
  { rewrite (intervalTicks_length (pollJobStatus y) jobId GetJobStatus stopsPolling
               (pollJobStatus_done y) (pollJobStatus_running y)).
    now apply polled_until_stop. }
  split; [exact Hlen |].
  destruct (lookup_lt_is_Some_2
              (intervalTicks (pollJobStatus y) jobId GetJobStatus job 0
                 (pre ++ Js.Resolved status :: rest) s) (length pre)) as [ev Hev];
    [rewrite Hlen; lia |].
  exists ev. split; [exact Hev |].
  destruct (intervalTicks_lookup (pollJobStatus y) jobId GetJobStatus outlineReady
              job 0 _ s _ ev (pollJobStatus_outlineReady y) Hev) as (Ht & _ & r & Hr & Hready).
  rewrite lookup_app_r, Nat.sub_diag in Hr by lia. injection Hr as <-.
  unfold outlineReady in Hready. rewrite Hst, Hres in Hready.
  destruct Hready as (H5 & Hload & Hid & _ & Hout & Hcit).
  unfold pollIntervalMs in Ht.
  split; [lia |]. repeat (split; [assumption |]).
  eapply (intervalTicks_invariant (pollJobStatus y) jobId GetJobStatus (keepsInput s)
            (fun r s1 => pollJobStatus_keepsInput y r s s1)); [| exact Hev].
  repeat split; reflexivity.
Qed.

Lemma outline_job_runs_to_completion_witness :
  jobId pollingOutline = Some "job-1" /\ "job-1" <> "" /\ isLoading pollingOutline = true
  /\ Forall (fun r => @stopsPolling ApiResponse.t r = false)
       [Js.Resolved stillProcessing; Js.Resolved completedWithoutResult]
  /\ length (jobPolling 2026
               [Js.Resolved stillProcessing; Js.Resolved completedWithoutResult;
                Js.Resolved completedWithResult; Js.Resolved stillProcessing]
               pollingOutline) = 3%nat.
Proof.
  assert (Hpre : Forall (fun r => @stopsPolling ApiResponse.t r = false)
                   [Js.Resolved stillProcessing; Js.Resolved completedWithoutResult])
    by (repeat constructor).
  refine (conj eq_refl (conj _ (conj eq_refl (conj Hpre _)))); [discriminate |].
  exact (proj1 (outline_job_runs_to_completion 2026 pollingOutline "job-1"
                  [Js.Resolved stillProcessing; Js.Resolved completedWithoutResult]
                  [Js.Resolved stillProcessing] completedWithResult telegraphResult
                  eq_refl ltac:(discriminate) eq_refl Hpre eq_refl eq_refl)).
Defined.

(** X8.  [generateEssayJob] turns a response that is not [ok] into a
    thrown error carrying the body's [detail] (or a fixed text), and a
    missing session into "Not authenticated"; [generateFinalEssay] shows
    such a message and stays on its step with no job id stored, whatever
    the message says.  The guardrail branch, which moves the wizard to step
    2, is taken only for a body that was returned with an [error] member,
    that is for an [ok] response. *)
Theorem http_error_is_never_a_guardrail_rejection
    (s : State) (token : string) (detail : option string)
    (fetched : Fetched JobResponse.t) :
  let refused := generateEssayJob (Js.Resolved (Some token)) (HttpError (Js.Resolved detail)) in
  let anonymous := generateEssayJob (Js.Resolved None) fetched in
  let message := Js.orString detail "Failed to start essay generation" in
  refused = Js.Rejected (Js.ThrownError message)
  /\ error (generateFinalEssay refused s).1 = Some message
  /\ errorViewShown (generateFinalEssay refused s).1 = true
  /\ currentStep (generateFinalEssay refused s).1 = currentStep s
  /\ essayJobId (generateFinalEssay refused s).1 = essayJobId s
  /\ isLoading (generateFinalEssay refused s).1 = false
  /\ error (generateFinalEssay anonymous s).1 = Some "Not authenticated"
  /\ currentStep (generateFinalEssay anonymous s).1 = currentStep s
  /\ (forall body, generateEssayJob (Js.Resolved (Some token)) (HttpOk body) = body)
  /\ (forall response,
        currentStep (generateFinalEssay response s).1 <> currentStep s ->
        exists r e, response = Js.Resolved r /\ JobResponse.error r = Some e
                    /\ isGuardrailError e = true).
Proof.
  cbn zeta. unfold generateEssayJob, authorizedFetch.
  split; [reflexivity |].
  split; [now destruct s |].
  split; [unfold errorViewShown; destruct s; cbn;
          now apply (orString_fallback_truthy detail "Failed to start essay generation") |].
  split; [now destruct s |]. split; [now destruct s |]. split; [now destruct s |].
  split; [now destruct s |]. split; [now destruct s |].
  split; [reflexivity |].
  intros response Hmoved. destruct response as [r | e]; [| now destruct s].
  destruct (JobResponse.error r) as [e |] eqn:He.
  - exists r, e. split; [reflexivity |]. split; [exact He |].
    unfold generateFinalEssay in Hmoved. cbn [fst] in Hmoved. rewrite He in Hmoved.
    destruct (Js.truthy (Some e)) eqn:Ht; [| now destruct s].
    cbn [Js.truthy] in Ht. rewrite (orString_truthy e "" Ht) in Hmoved.
    destruct (isGuardrailError e); [reflexivity | now destruct s].
  - unfold generateFinalEssay in Hmoved. cbn [fst] in Hmoved. rewrite He in Hmoved.
    now destruct s.
Qed.

Lemma essayPolling_rejected s job e rest :
  essayJobId s = Some job -> job <> "" -> isLoading s = true ->
  essayPolling (Js.Rejected e :: rest) s
  = [ {| at_ms := 0; request := GetEssayStatus job; after := pollEssayStatus_catch e s |} ].
Proof.
  intros Hj Hne Hl. apply truthy_Some in Hne. cbn [Js.truthy] in Hne.
  unfold essayPolling, pollingEffect. rewrite Hj, Hne, Hl. cbn [andb pollEssayStatus].
  unfold depsChanged.
  replace (essayJobId (pollEssayStatus_catch e s)) with (@None string) by now destruct s.
  now rewrite Hj, bool_decide_eq_false_2 by discriminate.
Qed.

(** X9.  A status request of the essay job that fails before a status is
    read (no session, a failed request, a response that is not [ok]) ends
    the polling of the essay job with that single poll: the wizard leaves
    the loading view with the session message, the thrown message or the
    [detail] of the response on display, and the job id is dropped. *)
Theorem failed_essay_status_request_ends_polling
    (s : State) (job token : string) (detail : option string)
    (fetched : Fetched (JobStatus.t EssayResult.t))
    (rest : list (Js.Outcome (JobStatus.t EssayResult.t))) :
  essayJobId s = Some job -> job <> "" -> isLoading s = true ->
  let anonymous := getEssayStatus (Js.Resolved None) fetched in
  let refused := getEssayStatus (Js.Resolved (Some token)) (HttpError (Js.Resolved detail)) in
  (exists ev, essayPolling (anonymous :: rest) s = [ev]
              /\ error (after ev) = Some "Not authenticated"
              /\ isLoading (after ev) = false /\ essayJobId (after ev) = None)
  /\ (exists ev, essayPolling (refused :: rest) s = [ev]
                 /\ error (after ev) = Some (Js.orString detail "Failed to get essay status")
                 /\ errorViewShown (after ev) = true
                 /\ isLoading (after ev) = false /\ essayJobId (after ev) = None).
Proof.
  intros Hj Hne Hl. cbn zeta. unfold getEssayStatus, authorizedFetch.
  rewrite !(essayPolling_rejected s job _ _ Hj Hne Hl).
  split; eexists; (split; [reflexivity |]); cbn [after].
  - now destruct s.
  - split; [now destruct s |]. split; [| now destruct s].
    unfold errorViewShown. destruct s; cbn.
    now apply (orString_fallback_truthy detail "Failed to get essay status").
Qed.

Lemma failed_essay_status_request_ends_polling_witness :
  essayJobId pollingEssay = Some "job-1" /\ "job-1" <> "" /\ isLoading pollingEssay = true
  /\ length (essayPolling
               [getEssayStatus (Js.Resolved None) (HttpOk (Js.Resolved stillProcessing));
                Js.Resolved stillProcessing] pollingEssay) = 1%nat.
Proof.
  refine (conj eq_refl (conj _ (conj eq_refl _))); [discriminate |].
  destruct (failed_essay_status_request_ends_polling pollingEssay "job-1" "" None
              (HttpOk (Js.Resolved stillProcessing)) [Js.Resolved stillProcessing]
              eq_refl ltac:(discriminate) eq_refl) as [[ev [Hrun _]] _].
  now rewrite Hrun.
Defined.

End JobRuns.

(** ** The query string of the outline request *)

Section RequestFacts.
Import EssayApiHttp.
Local Open Scope string_scope.

Lemma upperChar_idempotent (c : Ascii.ascii) : upperChar (upperChar c) = upperChar c.
Proof.
  destruct c as [[] [] [] [] [] [] [] []]; vm_compute; reflexivity.
Qed.

Lemma toUpperCase_idempotent (s : string) : toUpperCase (toUpperCase s) = toUpperCase s.
Proof.
  induction s as [| c s IH]; [reflexivity |].
  cbn. now rewrite upperChar_idempotent, IH.
Qed.

(** X10.  In the query string [startOutlineAndSourcesJob] builds, no key
    occurs twice; [assignment_description] and [previous_essay] are sent
    exactly when they are non-empty; and the [citation_format] sent is
    already in upper case, whatever case the wizard holds it in. *)
Theorem outline_request_sends_each_parameter_once (request : EssayApi.OutlineRequest) :
  let params := startOutlineAndSourcesJob_params request in
  NoDup (map fst params)
  /\ getAll "assignment_description" params
     = (if Js.truthyString (EssayApi.assignment_description request)
        then [EssayApi.assignment_description request] else [])
  /\ getAll "previous_essay" params
     = (if Js.truthyString (EssayApi.previous_essay request)
        then [EssayApi.previous_essay request] else [])
  /\ (exists format, getAll "citation_format" params = [format]
                     /\ toUpperCase format = format).
Proof.
  cbn zeta. unfold startOutlineAndSourcesJob_params, appendIf.
  destruct (Js.truthyString (EssayApi.previous_essay request));
    destruct (Js.truthyString (EssayApi.assignment_description request));
    (split; [apply (bool_decide_unpack _); vm_compute; reflexivity |]);
    (split; [reflexivity |]); (split; [reflexivity |]);
    (eexists; split; [reflexivity | apply toUpperCase_idempotent]).
Qed.

(** X11.  [getOutlineAndSources] always sends [previous_essay]: empty when
    the request has none, and twice over when it has one, because the
    parameter is both part of the initial object and appended. *)
Theorem previous_essay_is_sent_twice (request : EssayApi.OutlineRequest) :
  getAll "previous_essay" (getOutlineAndSources_params request)
  = (if Js.truthyString (EssayApi.previous_essay request)
     then [EssayApi.previous_essay request; EssayApi.previous_essay request]
     else [""]).
Proof.
  unfold getOutlineAndSources_params, appendIf.
  destruct (Js.truthyString (EssayApi.previous_essay request)) eqn:Hpe;
    destruct (Js.truthyString (EssayApi.assignment_description request));
    try reflexivity.
  all: unfold Js.truthyString in Hpe; apply negb_false_iff, String.eqb_eq in Hpe;
    rewrite Hpe; reflexivity.
Qed.

End RequestFacts.

(** ** The paper request of the services client *)

Section PaperRequestFacts.
Import ServicesApiPaper.
Local Open Scope string_scope.

Lemma orString_nonempty (x : option string) (d : string) :
  d <> "" -> Js.orString x d <> "".
Proof.
  intros Hd. unfold Js.orString. destruct x as [s |]; [| exact Hd].
  unfold Js.truthyString. destruct (String.eqb s "") eqn:Hs; cbn; [exact Hd |].
  now apply String.eqb_neq.
Qed.

(** X12.  Whatever form data [generateEssay] is given, the body it posts
    asks for an odd number of sections between 3 and 9 and a vocabulary
    level between 2 and 4, and names a student and a professor: an
    unknown length or type and a missing name fall back to defaults. *)
Theorem paper_request_is_always_complete (essayData : EssayInput) :
  let body := generateEssay_body essayData in
  (3 <= num_sections (paper_details body) <= 9)%Z
  /\ Z.odd (num_sections (paper_details body)) = true
  /\ (2 <= vocab_level (paper_details body) <= 4)%Z
  /\ student_name (student_details body) <> ""
  /\ professor_name (student_details body) <> ""
  /\ (type essayData <> "" -> class_name (student_details body) <> "").
Proof.
  cbn. unfold getNumSections, getVocabLevel.
  repeat split.
  1-3: repeat match goal with |- context [if ?b then _ else _] => destruct b end;
       (lia || reflexivity).
  1-2: repeat match goal with |- context [if ?b then _ else _] => destruct b end; lia.
  - apply orString_nonempty. discriminate.
  - apply orString_nonempty. discriminate.
  - apply orString_nonempty.
Qed.

Lemma paper_request_is_always_complete_witness :
  class_name (student_details (generateEssay_body
    {| topic := Some "The telegraph"; additionalInfo := None;
       length := "novella"; type := "research";
       studentName := Some ""; professorName := None; className := None |})) <> "".
Proof.
  apply (paper_request_is_always_complete
    {| topic := Some "The telegraph"; additionalInfo := None;
       length := "novella"; type := "research";
       studentName := Some ""; professorName := None; className := None |}).
  discriminate.
Defined.

End PaperRequestFacts.

(** ** Uploaded files and author names *)

Section FileFacts.
Import EssayForm WizardUi FileText.
Local Open Scope string_scope.

Lemma hasChar_append (sep : Ascii.ascii) (stem rest : string) :
  hasChar sep (stem +:+ String sep rest) = true.
Proof.
  induction stem as [| c stem IH].
  - change (hasChar sep (String sep rest) = true). cbn. now rewrite Ascii.eqb_refl.
  - change (hasChar sep (String c (stem +:+ String sep rest)) = true).
    cbn. rewrite IH. apply orb_true_r.
Qed.

Lemma lastSegment_append (sep : Ascii.ascii) (stem ext : string) :
  hasChar sep ext = false ->
  lastSegment sep (stem +:+ String sep ext) = ext.
Proof.
  intros Hext. induction stem as [| c stem IH].
  - change (lastSegment sep (String sep ext) = ext). cbn.
    now rewrite Hext, Ascii.eqb_refl.
  - change (lastSegment sep (String c (stem +:+ String sep ext)) = ext).
    cbn. now rewrite hasChar_append.
Qed.

Lemma lastSegment_clean (sep : Ascii.ascii) (s : string) :
  hasChar sep (lastSegment sep s) = false.
Proof.
  induction s as [| c s IH]; [reflexivity |].
  cbn. destruct (hasChar sep s) eqn:Hs; [exact IH |].
  destruct (Ascii.eqb c sep) eqn:Hc; [exact Hs |].
  cbn. now rewrite Hc, Hs.
Qed.

Lemma lastSegment_suffix (sep : Ascii.ascii) (s : string) :
  exists before, s = before +:+ lastSegment sep s.
Proof.
  induction s as [| c s [before IH]]; [now exists "" |].
  cbn. destruct (hasChar sep s).
  - exists (String c before).
    change (String c s = String c (before +:+ lastSegment sep s)). now rewrite <- IH.
  - destruct (Ascii.eqb c sep).
    + now exists (String c "").
    + now exists "".
Qed.

Lemma hasSpace_hasChar (s : string) : hasSpace s = hasChar " "%char s.
Proof.
  induction s as [| c s IH]; [reflexivity |]. cbn. now rewrite IH.
Qed.

Lemma lastWord_lastSegment (s : string) : lastWord s = lastSegment " "%char s.
Proof.
  induction s as [| c s IH]; [reflexivity |].
  cbn. now rewrite hasSpace_hasChar, IH.
Qed.

(** X13.  A file whose name ends in a dot and an extension is handled by
    that extension alone, whatever its case and whatever precedes it.  If
    the extension is neither [pdf] nor [docx], [extractTextFromFile] throws
    a message of its own, but [handleFileUpload] replaces it: the error the
    user gets is the general extraction failure, the file is still recorded
    as uploaded, and the pasted texts stay as they were. *)
Theorem unsupported_upload_reports_the_general_failure
    (kind : UploadKind) (stem ext : string) (s : State) :
  hasChar "."%char ext = false ->
  toLowerCase ext <> "pdf" ->
  toLowerCase ext <> "docx" ->
  let fileName := stem +:+ String "."%char ext in
  extractTextFromFile fileName = extractionFor (toLowerCase ext)
  /\ exists message,
       extractTextFromFile fileName = Throw message
       /\ message <> extractionFailedMessage
       /\ let s' := handleFileUpload kind fileName
                      (Js.Rejected (Js.ThrownError message)) s in
          error s' = Some extractionFailedMessage
          /\ pastedEssay s' = pastedEssay s
          /\ pastedAssignment s' = pastedAssignment s
          /\ match kind with
             | EssayUpload => uploadedFile s' = Some fileName
             | AssignmentUpload => uploadedAssignment s' = Some fileName
             end.
Proof.
  intros Hext Hpdf Hdocx. cbn zeta.
  assert (Hfile : extractTextFromFile (stem +:+ String "."%char ext)
                  = extractionFor (toLowerCase ext)).
  { unfold extractTextFromFile, fileType. now rewrite lastSegment_append. }
  split; [exact Hfile |].
  rewrite Hfile. unfold extractionFor.
  apply String.eqb_neq in Hpdf, Hdocx. rewrite Hpdf, Hdocx.
  destruct (String.eqb (toLowerCase ext) "doc");
    (eexists; split; [reflexivity |]; split; [discriminate |]);
    destruct s, kind; repeat split; reflexivity.
Qed.

Lemma unsupported_upload_reports_the_general_failure_witness :
  extractTextFromFile "Term.Paper.DOC" = extractionFor "doc"
  /\ exists message,
       extractTextFromFile "Term.Paper.DOC" = Throw message
       /\ message <> extractionFailedMessage.
Proof.
  destruct (unsupported_upload_reports_the_general_failure
              EssayUpload "Term.Paper" "DOC" Examples.readyForOutline
              eq_refl ltac:(discriminate) ltac:(discriminate))
    as (Hfile & message & Hthrow & Hne & _).
  split; [exact Hfile |]. exists message. split; assumption.
Defined.

(** X14.  The [author_last_name] sent with a selected citation is the end
    of the author string and holds no space: it is what follows the last
    space of the author, the whole author when there is none, and empty
    when the author ends in a space. *)
Theorem author_last_name_is_the_last_word (c : Citation.t) :
  let last := EssayApi.author_last_name (selectedSource c) in
  hasSpace last = false
  /\ (exists before, Citation.author c = before +:+ last)
  /\ (hasSpace (Citation.author c) = false -> last = Citation.author c)
  /\ (forall first surname, hasSpace surname = false ->
        Citation.author c = first +:+ String " "%char surname -> last = surname).
Proof.
  cbn. rewrite lastWord_lastSegment, !hasSpace_hasChar.
  split; [apply lastSegment_clean |].
  split; [apply lastSegment_suffix |].
  split.
  - intros Hnone. destruct (Citation.author c) as [| a rest]; [reflexivity |].
    cbn in *. apply orb_false_iff in Hnone as [Ha Hrest]. now rewrite Hrest, Ha.
  - intros first surname Hs ->. apply lastSegment_append.
    now rewrite <- hasSpace_hasChar.
Qed.

Lemma author_last_name_is_the_last_word_witness :
  EssayApi.author_last_name
    (selectedSource
       {| Citation.id := 1; Citation.title := "Cables under the Atlantic";
          Citation.author := "Mary Ann Evans"; Citation.year := 2019;
          Citation.selected := true; Citation.publisher := "";
          Citation.description := ""; Citation.relevance := "";
          Citation.url := "" |})
  = "Evans".
Proof.
  apply (proj2 (proj2 (proj2 (author_last_name_is_the_last_word
    {| Citation.id := 1; Citation.title := "Cables under the Atlantic";
       Citation.author := "Mary Ann Evans"; Citation.year := 2019;
       Citation.selected := true; Citation.publisher := "";
       Citation.description := ""; Citation.relevance := "";
       Citation.url := "" |}))) "Mary Ann" "Evans"); reflexivity.
Defined.

End FileFacts.

(** ** The CSRF token and the root middleware *)

Section TokenFacts.
Import CsrfToken.
Local Open Scope string_scope.

Lemma byteToHex_ascii (c : Ascii.ascii) :
  byteToHex (Ascii.N_of_ascii c)
  = String (hexDigit (Ascii.N_of_ascii c / 16))
      (String (hexDigit (Ascii.N_of_ascii c mod 16)) "")
  /\ isHexChar (hexDigit (Ascii.N_of_ascii c / 16)) = true
  /\ isHexChar (hexDigit (Ascii.N_of_ascii c mod 16)) = true.
Proof.
  destruct c as [[] [] [] [] [] [] [] []]; vm_compute; auto.
Qed.

Lemma byte_is_ascii (b : N) : (b < 256)%N -> Ascii.N_of_ascii (Ascii.ascii_of_N b) = b.
Proof.
  apply Ascii.N_ascii_embedding.
Qed.

Lemma byteToHex_two (b : N) :
  (b < 256)%N ->
  byteToHex b = String (hexDigit (b / 16)) (String (hexDigit (b mod 16)) "")
  /\ isHexChar (hexDigit (b / 16)) = true
  /\ isHexChar (hexDigit (b mod 16)) = true.
Proof.
  intros Hb. rewrite <- (byte_is_ascii b Hb). apply byteToHex_ascii.
Qed.

Lemma generateToken_cons (b : N) (rest : list N) :
  (b < 256)%N ->
  generateToken (b :: rest)
  = String (hexDigit (b / 16)) (String (hexDigit (b mod 16)) (generateToken rest)).
Proof.
  intros Hb. unfold generateToken. cbn [map joinAll].
  destruct (byteToHex_two b Hb) as [-> _]. reflexivity.
Qed.

Lemma hexDigit_injective (d e : N) :
  (d < 16)%N -> (e < 16)%N -> hexDigit d = hexDigit e -> d = e.
Proof.
  intros Hd He.
  assert (Hcases : forall x, (x < 16)%N ->
            (x = 0 \/ x = 1 \/ x = 2 \/ x = 3 \/ x = 4 \/ x = 5 \/ x = 6 \/ x = 7 \/ x = 8 \/ x = 9 \/ x = 10 \/ x = 11 \/ x = 12 \/ x = 13 \/ x = 14 \/ x = 15)%N) by (intros x Hx; lia).
  pose proof (Hcases d Hd) as Hdc. pose proof (Hcases e He) as Hec.
  clear Hcases Hd He.
  repeat (destruct Hdc as [-> | Hdc]); try subst d;
    repeat (destruct Hec as [-> | Hec]); try subst e;
    vm_compute; intros H; (reflexivity || discriminate H).
Qed.

Lemma byte_split (b c : N) :
  (b / 16 = c / 16)%N -> (b mod 16 = c mod 16)%N -> b = c.
Proof.
  intros Hq Hr.
  rewrite (N.div_mod b 16), (N.div_mod c 16) by discriminate. now rewrite Hq, Hr.
Qed.

(** X15.  Whatever 32 bytes the random source writes, [generateToken]
    returns 64 characters, all of them lower-case hexadecimal digits; the
    token is therefore never an empty, falsy string. *)
Theorem generated_token_is_64_hex_digits (buffer : list N) :
  isUint8Array 32 buffer ->
  String.length (generateToken buffer) = 64%nat
  /\ allChars isHexChar (generateToken buffer) = true
  /\ Js.truthyString (generateToken buffer) = true.
Proof.
  intros [Hlen Hbytes].
  assert (Hgen : forall bytes, Forall (fun b => (b < 256)%N) bytes ->
            String.length (generateToken bytes) = (2 * List.length bytes)%nat
            /\ allChars isHexChar (generateToken bytes) = true).
  { induction 1 as [| b rest Hb _ [IHlen IHhex]]; [split; reflexivity |].
    rewrite (generateToken_cons b rest Hb).
    destruct (byteToHex_two b Hb) as (_ & Hhi & Hlo).
    split.
    - cbn [String.length List.length]. rewrite IHlen. lia.
    - cbn [allChars]. now rewrite Hhi, Hlo, IHhex. }
  destruct (Hgen buffer Hbytes) as [Hl Hh].
  rewrite Hlen in Hl. repeat split; [exact Hl | exact Hh |].
  destruct (generateToken buffer); [discriminate Hl | reflexivity].
Qed.

Lemma generated_token_is_64_hex_digits_witness :
  String.length (generateToken (repeat 171%N 32)) = 64%nat
  /\ allChars isHexChar (generateToken (repeat 171%N 32)) = true
  /\ Js.truthyString (generateToken (repeat 171%N 32)) = true.
Proof.
  apply (generated_token_is_64_hex_digits (repeat 171%N 32)).
  split; [reflexivity |].
  cbn [repeat]. repeat (constructor; [reflexivity |]). constructor.
Defined.

(** X16.  [generateToken] loses nothing of the random bytes: two buffers
    that give the same token are the same buffer, so the token has the
    full 256 bits of the source. *)
Theorem generated_token_determines_the_bytes (n m : nat) (buffer buffer' : list N) :
  isUint8Array n buffer ->
  isUint8Array m buffer' ->
  generateToken buffer = generateToken buffer' ->
  buffer = buffer'.
Proof.
  intros [_ Hb] [_ Hb']. clear n m. revert buffer' Hb'.
  induction Hb as [| b rest Hlt _ IH]; intros buffer' Hb' Heq.
  - destruct Hb' as [| b' rest' Hlt' _]; [reflexivity |].
    rewrite (generateToken_cons b' rest' Hlt') in Heq. discriminate Heq.
  - destruct Hb' as [| b' rest' Hlt' Hrest'].
    + rewrite (generateToken_cons b rest Hlt) in Heq. discriminate Heq.
    + rewrite (generateToken_cons b rest Hlt), (generateToken_cons b' rest' Hlt') in Heq.
      injection Heq as Hhi Hlo Htail.
      assert (b = b') as ->.
      { apply byte_split; apply hexDigit_injective; trivial;
          try (apply N.mod_lt; discriminate);
          apply N.Div0.div_lt_upper_bound; lia. }
      f_equal. now apply IH.
Qed.

Lemma generated_token_determines_the_bytes_witness :
  [10; 255]%N = [10; 255]%N.
Proof.
  apply (generated_token_determines_the_bytes 2 2 [10; 255]%N [10; 255]%N).
  - split; [reflexivity |]. repeat constructor.
  - split; [reflexivity |]. repeat constructor.
  - reflexivity.
Defined.

End TokenFacts.

Section MiddlewareFacts.
Import Csrf.
Local Open Scope string_scope.

Variable digestHex : string -> string.
Variable CSRF_SECRET : string.

Local Abbreviation hashToken' := (Csrf.hashToken digestHex CSRF_SECRET).
Local Abbreviation csrfMiddleware' := (Csrf.csrfMiddleware digestHex CSRF_SECRET).
Local Abbreviation middleware' := (Middleware.middleware digestHex CSRF_SECRET).

(** X17.  [csrfMiddleware] gives one of two answers.  It lets the request
    through exactly when the method is GET, HEAD or OPTIONS, or the
    [x-csrf-token] header is non-empty and its hash equals the
    [csrf-token] cookie or, without a cookie, the token generated on the
    spot; every other request gets the 403 response, which sets no
    cookie. *)
Theorem csrf_check_passes_only_on_a_matching_hash (generated : string) (req : NextRequest) :
  let token := if Js.truthy (cookie req) then Js.orString (cookie req) "" else generated in
  let passes :=
    isSafeMethod (method req)
    || match header req with
       | Some headerToken =>
           Js.truthyString headerToken && String.eqb (hashToken' headerToken) token
       | None => false
       end in
  (passes = true ->
     status (csrfMiddleware' generated req) = 200%Z
     /\ error (csrfMiddleware' generated req) = None)
  /\ (passes = false -> csrfMiddleware' generated req = forbidden).
Proof.
  cbn zeta. unfold Csrf.csrfMiddleware, Csrf.verifyToken.
  destruct (isSafeMethod (method req)); cbn [orb].
  { split; [split; reflexivity | discriminate]. }
  destruct (Js.truthy (cookie req)); destruct (header req) as [h |].
  2,4: split; [discriminate | reflexivity].
  all: match goal with |- context [?a && ?b] => destruct (a && b) end;
    (split; [intros _; split; reflexivity | discriminate])
    || (split; [discriminate | reflexivity]).
Qed.

Lemma startsWith_slash_isPublic (pathname : string) :
  Middleware.startsWith pathname "/" = true -> Middleware.isPublic pathname = true.
Proof.
  intros Hp. unfold Middleware.isPublic, Middleware.publicRoutes. cbn [existsb].
  rewrite Hp. now rewrite !orb_true_r.
Qed.

(** X18.  Every path begins with a slash, and [publicRoutes] lists ["/"]
    among the prefixes that skip the session check; so the middleware
    never reaches that check.  For any request it either continues or, on
    an API route, returns the 403 response of the CSRF check: it never
    redirects to the sign-in page or to the dashboard, whatever the
    session, and a protected page without a session is let through. *)
Theorem middleware_never_redirects
    (generated : string) (sessionCheck : Js.Outcome Middleware.SessionResponse)
    (req : Middleware.Request) :
  Middleware.startsWith (Middleware.pathname req) "/" = true ->
  middleware' generated sessionCheck req = Middleware.Continue
  \/ (existsb (Middleware.startsWith (Middleware.pathname req)) Middleware.apiRoutes = true
      /\ isSafeMethod (method (Middleware.csrfPart req)) = false
      /\ middleware' generated sessionCheck req = Middleware.CsrfRefused forbidden).
Proof.
  intros Hp.
  assert (Hroute : Middleware.routeBySession sessionCheck req = Middleware.Continue).
  { unfold Middleware.routeBySession.
    rewrite (startsWith_slash_isPublic _ Hp).
    now destruct (String.eqb (Middleware.pathname req) "/auth/callback"
                  && Middleware.hasCode req). }
  unfold Middleware.middleware. rewrite Hroute.
  destruct (existsb (Middleware.startsWith (Middleware.pathname req)) Middleware.apiRoutes);
    [| now left].
  destruct (status (csrfMiddleware' generated (Middleware.csrfPart req)) =? 403)%Z eqn:Hs;
    [| now left].
  right. split; [reflexivity |].
  revert Hs. unfold Csrf.csrfMiddleware.
  destruct (isSafeMethod (method (Middleware.csrfPart req))); [discriminate |].
  intros Hs. split; [reflexivity |]. f_equal.
  destruct (Js.truthy (cookie (Middleware.csrfPart req)));
    destruct (header (Middleware.csrfPart req)) as [h |]; try reflexivity;
    match goal with |- context [?a && ?b] => destruct (a && b) end;
    (reflexivity || discriminate Hs).
Qed.

End MiddlewareFacts.

Section MiddlewareWitness.
Import Csrf.
Local Open Scope string_scope.

Lemma csrf_check_passes_only_on_a_matching_hash_witness :
  status (Csrf.csrfMiddleware toyDigest "" "00ff"
            {| method := "POST"; cookie := Some "#abc"; header := Some "abc" |}) = 200%Z
  /\ Csrf.csrfMiddleware toyDigest "" "00ff"
       {| method := "POST"; cookie := Some "#abc"; header := Some "abcd" |} = forbidden.
Proof.
  split.
  - apply (proj1 (csrf_check_passes_only_on_a_matching_hash toyDigest "" "00ff"
                    {| method := "POST"; cookie := Some "#abc"; header := Some "abc" |})).
    reflexivity.
  - apply (proj2 (csrf_check_passes_only_on_a_matching_hash toyDigest "" "00ff"
                    {| method := "POST"; cookie := Some "#abc"; header := Some "abcd" |})).
    reflexivity.
Defined.


Lemma middleware_never_redirects_witness :
  Middleware.middleware toyDigest "" "00ff"
    (Js.Resolved {| Middleware.session := None; Middleware.sessionError := None |})
    {| Middleware.pathname := "/dashboard/papers"; Middleware.hasCode := false;
       Middleware.csrfPart := {| method := "GET"; cookie := None; header := None |} |}
  = Middleware.Continue.
Proof.
  destruct (middleware_never_redirects toyDigest "" "00ff"
    (Js.Resolved {| Middleware.session := None; Middleware.sessionError := None |})
    {| Middleware.pathname := "/dashboard/papers"; Middleware.hasCode := false;
       Middleware.csrfPart := {| method := "GET"; cookie := None; header := None |} |}
    eq_refl) as [H | (H & _)]; [exact H | discriminate H].
Defined.

End MiddlewareWitness.

(** ** The auth provider and the profile table *)

Section AuthProviderFacts.
Import AuthContext AuthProvider.
Local Open Scope string_scope.

Lemma balancesKept_refl (w : World) : balancesKept w w.
Proof.
  intros userId. destruct (balance w userId); auto.
Qed.

Lemma balancesKept_trans (w1 w2 w3 : World) :
  balancesKept w1 w2 -> balancesKept w2 w3 -> balancesKept w1 w3.
Proof.
  intros H12 H23 userId. specialize (H12 userId). specialize (H23 userId).
  destruct (balance w1 userId) as [c |].
  - now rewrite H12 in H23.
  - destruct H12 as [H12 | H12]; rewrite H12 in H23; auto.
Qed.

Lemma balancesKept_same_table (w w' : World) :
  user_profiles w' = user_profiles w -> balancesKept w w'.
Proof.
  intros Heq userId. unfold balance. rewrite Heq.
  destruct (user_profiles w !! userId); cbn; auto.
Qed.

Lemma ensureUserProfile_balancesKept userId email now1 now2 f w :
  balancesKept w (ensureUserProfile userId email now1 now2 f w).
Proof.
  unfold ensureUserProfile.
  destruct (Js.truthy (localStorage w !! profileKey userId)); [apply balancesKept_refl |].
  destruct (fetchProfile f); try apply balancesKept_refl.
  destruct (user_profiles w !! userId) as [p |] eqn:Hrow.
  - destruct (updateProfile f); try apply balancesKept_refl.
    intros other. unfold balance. cbn.
    destruct (decide (other = userId)) as [-> | Hne].
    + rewrite lookup_alter_eq, Hrow. reflexivity.
    + rewrite lookup_alter_ne by congruence.
      destruct (user_profiles w !! other); cbn; auto.
  - destruct (insertProfile f); try apply balancesKept_refl.
    intros other. unfold balance. cbn.
    destruct (decide (other = userId)) as [-> | Hne].
    + rewrite lookup_insert_eq, Hrow. cbn. auto.
    + rewrite lookup_insert_ne by congruence.
      destruct (user_profiles w !! other); cbn; auto.
Qed.

Lemma forgetToken_balancesKept (w : World) : balancesKept w (forgetToken w).
Proof.
  now apply balancesKept_same_table.
Qed.

Lemma loadSession_balancesKept getSession c (s : State) (w : World) :
  balancesKept w (loadSession getSession c (s, w)).2.
Proof.
  unfold loadSession.
  destruct getSession as [r | e]; [| apply balancesKept_refl].
  destruct (sessionError r) as [err |]; [apply forgetToken_balancesKept |].
  destruct (AuthProvider.session r) as [sess |]; [| apply forgetToken_balancesKept].
  cbn [snd]. unfold ensureFor. apply ensureUserProfile_balancesKept.
Qed.

Lemma onAuthStateChange_world event session c (s : State) (w : World) :
  (onAuthStateChange event session c (s, w)).2
  = match session, event with
    | Some sess, SIGNED_IN | Some sess, USER_UPDATED => ensureFor (user sess) c w
    | _, _ => w
    end.
Proof.
  unfold onAuthStateChange. destruct session as [sess |], event; reflexivity.
Qed.

Lemma onAuthStateChange_balancesKept event session c (s : State) (w : World) :
  balancesKept w (onAuthStateChange event session c (s, w)).2.
Proof.
  rewrite onAuthStateChange_world.
  destruct session as [sess |]; [| destruct event; apply balancesKept_refl].
  unfold ensureFor.
  destruct event;
    [apply balancesKept_refl | apply ensureUserProfile_balancesKept
    | apply balancesKept_refl | apply balancesKept_refl
    | apply ensureUserProfile_balancesKept | apply balancesKept_refl].
Qed.

Lemma logout_balancesKept signOut (s : State) (w : World) :
  balancesKept w (logout signOut (s, w)).2.
Proof.
  unfold logout. destruct (outcome signOut); now apply balancesKept_same_table.
Qed.

Lemma act_balancesKept (a : Action) (sw : State * World) :
  balancesKept sw.2 (act a sw).2.
Proof.
  destruct sw as [s w]. destruct a as [getSession c | event session c | signOut].
  - apply loadSession_balancesKept.
  - apply onAuthStateChange_balancesKept.
  - apply logout_balancesKept.
Qed.

(** X19.  Whatever the provider goes through (session loads, auth events
    of any kind, for any user, logouts, with any call failing), no balance
    in the profile table changes and no row disappears: a user who had a
    balance keeps exactly it, and a user who had no row ends with none or
    with the starting balance of 2. *)
Theorem auth_events_never_touch_a_balance (actions : list Action) (sw : State * World) :
  forall userId,
    match balance sw.2 userId with
    | Some credits => balance (run actions sw).2 userId = Some credits
    | None => balance (run actions sw).2 userId = None
              \/ balance (run actions sw).2 userId = Some 2%Z
    end.
Proof.
  change (balancesKept sw.2 (run actions sw).2).
  revert sw. induction actions as [| a actions IH]; intros sw.
  - apply balancesKept_refl.
  - cbn. eapply balancesKept_trans; [apply (act_balancesKept a) | apply IH].
Qed.






End AuthProviderFacts.

(** ** The buy-credits page *)

Section BuyCreditsFacts.
Import BuyCredits.

Lemma click_keeps_quantity_positive (c : Click) (sr : State * list Z) :
  1 <= quantity sr.1 /\ Forall (fun q => 1 <= q) sr.2 ->
  1 <= quantity (click c sr).1 /\ Forall (fun q => 1 <= q) (click c sr).2.
Proof.
  destruct sr as [s sent]. cbn [fst snd]. intros [Hq Hsent].
  destruct c; cbn.
  - destruct (quantity s <=? 1) eqn:Hle; cbn; [auto |].
    split; [| exact Hsent]. destruct (1 <? quantity s) eqn:Hlt; lia.
  - split; [lia | exact Hsent].
  - destruct (isLoading s); cbn; [auto |].
    split; [exact Hq |]. apply Forall_app. split; [exact Hsent |].
    constructor; [exact Hq | constructor].
Qed.

(** X21.  However the plus, minus and buy buttons are clicked, the page
    never holds a quantity below one, so it never shows a price below 25
    dollars and never asks the checkout for fewer than one credit. *)
Theorem checkout_quantity_is_at_least_one (cs : list Click) :
  1 <= quantity (clicks cs).1
  /\ 25 <= price (clicks cs).1
  /\ Forall (fun q => 1 <= q) (clicks cs).2.
Proof.
  assert (H : 1 <= quantity (clicks cs).1 /\ Forall (fun q => 1 <= q) (clicks cs).2).
  { unfold clicks.
    assert (Hgen : forall sr, 1 <= quantity sr.1 /\ Forall (fun q => 1 <= q) sr.2 ->
              1 <= quantity (fold_left (fun acc c => click c acc) cs sr).1
              /\ Forall (fun q => 1 <= q) (fold_left (fun acc c => click c acc) cs sr).2).
    { induction cs as [| c cs IH]; intros sr Hsr; [exact Hsr |].
      cbn [fold_left]. apply IH, click_keeps_quantity_positive, Hsr. }
    apply Hgen. cbn. split; [lia | constructor]. }
  destruct H as [Hq Hsent]. unfold price. repeat split; [exact Hq | lia | exact Hsent].
Qed.

(** X22.  The minus handler guards itself: applied to any quantity, also
    one that is zero or negative, [decrementQuantity] gives a quantity of
    at least one, and it undoes a preceding [incrementQuantity] whenever
    the quantity was at least one. *)
Theorem decrement_never_goes_below_one (s : State) :
  1 <= quantity (decrementQuantity s)
  /\ (1 <= quantity s -> decrementQuantity (incrementQuantity s) = s).
Proof.
  split.
  - cbn. destruct (1 <? quantity s) eqn:Hlt; lia.
  - intros Hq. destruct s as [q l]. unfold decrementQuantity, incrementQuantity. cbn in *.
    destruct (1 <? q + 1) eqn:Hlt; [f_equal; lia | lia].
Qed.

End BuyCreditsFacts.

(** ** The papers table *)

Section PaperFacts.
Import Papers.
Local Open Scope string_scope.

(** X23.  [createPaper] never writes a paper for anyone but the signed-in
    user.  Without one it sends nothing and returns [null]; with one it
    sends a single insert, whose row carries that user's id and the given
    title, an empty content, the status [draft] and a word count of zero
    where the input gives none; and it returns a paper only if the insert
    resolved with that paper and no error. *)
Theorem createPaper_writes_only_for_the_signed_in_user
    (supabase : Client) (now1 now2 : string) (input : CreatePaperInput) :
  let result := createPaper supabase now1 now2 input in
  match auth_getUser supabase with
  | Js.Resolved (Some userId) =>
      exists row,
        result.2 = [Insert row]
        /\ row_user_id row = userId
        /\ row_title row = input_title input
        /\ (input_content input = None -> row_content row = "")
        /\ (input_status input = None -> row_status row = draft)
        /\ (input_word_count input = None -> row_word_count row = 0%Z)
        /\ (forall paper, result.1 = Some paper ->
              insert_single supabase row
              = Js.Resolved {| data := Some paper; error := None |})
  | _ => result = (None, [])
  end.
Proof.
  cbn zeta. unfold createPaper.
  destruct (auth_getUser supabase) as [[userId |] | e]; try reflexivity.
  exists (rowFor userId now1 now2 input).
  split.
  { destruct (insert_single supabase (rowFor userId now1 now2 input)); reflexivity. }
  split; [reflexivity |]. split; [reflexivity |].
  split; [intros H; cbn; now rewrite H |].
  split; [intros H; cbn; now rewrite H |].
  split; [intros H; cbn; now rewrite H |].
  intros paper.
  destruct (insert_single supabase (rowFor userId now1 now2 input)) as [[d [err |]] | e];
    cbn; try discriminate.
  now intros ->.
Qed.

(** X24.  [getUserPapers] and [countUserPapers] ask the table about the
    signed-in user only, and about nobody when no user is signed in; a
    failure of either call, or an error in the answer, gives the empty
    list and zero. *)
Theorem paper_queries_are_scoped_to_the_user (supabase : Client) :
  let papers := getUserPapers supabase in
  let count := countUserPapers supabase in
  match auth_getUser supabase with
  | Js.Resolved (Some userId) =>
      papers.2 = [SelectByUser userId]
      /\ count.2 = [CountByUser userId]
      /\ (papers.1 <> [] ->
          exists found, select_by_user supabase userId
                        = Js.Resolved {| data := Some found; error := None |}
                        /\ papers.1 = found)
      /\ (count.1 <> 0%Z ->
          exists n, count_by_user supabase userId
                    = Js.Resolved {| data := Some n; error := None |}
                    /\ count.1 = n)
  | _ => papers = ([], []) /\ count = (0%Z, [])
  end.
Proof.
  cbn zeta. unfold getUserPapers, countUserPapers.
  destruct (auth_getUser supabase) as [[userId |] | e]; try (split; reflexivity).
  split; [destruct (select_by_user supabase userId); reflexivity |].
  split; [destruct (count_by_user supabase userId); reflexivity |].
  split.
  - destruct (select_by_user supabase userId) as [[[found |] [err |]] | e]; cbn;
      try congruence.
    intros _. now exists found.
  - destruct (count_by_user supabase userId) as [[[n |] [err |]] | e]; cbn;
      try congruence.
    intros Hn. exists n. split; [reflexivity |].
    unfold Js.orZero in *. destruct (n =? 0)%Z eqn:Hz; [congruence | reflexivity].
Qed.

End PaperFacts.

(** ** The credit flag of the wizard *)

Section CreditFlagFacts.
Import EssayForm WizardUi Examples WizardSamples.
Local Open Scope string_scope.

Ltac case_ifs :=
  repeat match goal with
         | |- context [if ?b then _ else _] => destruct b eqn:?
         | |- context [match ?x with _ => _ end] => destruct x eqn:?
         end.

Lemma pollJobStatus_flag y r s :
  insufficientCredits (pollJobStatus y r s).1 = insufficientCredits s.
Proof.
  unfold pollJobStatus, pollJobStatus_catch.
  destruct s, r as [[[] ? ? [] ?] | ?]; cbn; case_ifs; reflexivity.
Qed.

Lemma pollEssayStatus_flag r s :
  insufficientCredits (pollEssayStatus r s).1 = insufficientCredits s.
Proof.
  unfold pollEssayStatus, pollEssayStatus_catch, generationStageOf.
  destruct s, r as [[[] ? ? [] ?] | ?]; cbn; case_ifs; reflexivity.
Qed.

Lemma fetchSourcesAndOutline_flag r s :
  insufficientCredits (fetchSourcesAndOutline r s).1 = insufficientCredits s.
Proof.
  unfold fetchSourcesAndOutline, fetchSourcesAndOutline_catch.
  destruct s, r as [[? ? []] | ?]; cbn; case_ifs; reflexivity.
Qed.

Lemma generateFinalEssay_flag r s :
  insufficientCredits (generateFinalEssay r s).1 = insufficientCredits s.
Proof.
  unfold generateFinalEssay, generateFinalEssay_catch.
  destruct s, r as [[? ? []] | ?]; cbn; case_ifs; reflexivity.
Qed.

Lemma handleStartOver_flag s :
  insufficientCredits (handleStartOver s).1 = insufficientCredits s.
Proof.
  unfold handleStartOver. destruct s; cbn; case_ifs; reflexivity.
Qed.

Lemma confirmAndGenerateOutline_flag jobResponse updatedCredits s :
  insufficientCredits (confirmAndGenerateOutline jobResponse updatedCredits s).1
  = insufficientCredits s.
Proof.
  unfold confirmAndGenerateOutline.
  pose proof (fetchSourcesAndOutline_flag jobResponse (setShowCreditConfirmation false s))
    as Hf.
  destruct (fetchSourcesAndOutline jobResponse (setShowCreditConfirmation false s))
    as [s1 calls]. cbn [fst] in *.
  transitivity (insufficientCredits s1); [destruct updatedCredits; now destruct s1 |].
  rewrite Hf. now destruct s.
Qed.

(** No event but the arrival of the credits fetched at mount writes the
    flag. *)
Lemma dispatch_flag y ev aliases s :
  match ev with CreditsArrive _ => False | _ => True end ->
  insufficientCredits (dispatchHooks y ev aliases s).1 = insufficientCredits s.
Proof.
  intros Hev. destruct ev; cbn [dispatchHooks]; unfold whenShown; try contradiction.
  - destruct (_ && _); [| reflexivity]. now destruct s.
  - destruct (_ && _); [| reflexivity].
    unfold nextButtonClick. destruct (_ =? totalSteps)%Z; [apply generateFinalEssay_flag |].
    destruct (_ =? 4)%Z; cbn [fst]; [| now destruct s].
    unfold handleGenerateOutline. case_ifs; now destruct s.
  - destruct (dialogShown s); [| reflexivity]. apply confirmAndGenerateOutline_flag.
  - destruct (dialogShown s); [| reflexivity]. now destruct s.
  - destruct (errorViewShown s); [| reflexivity]. apply handleStartOver_flag.
  - destruct (stepShown 1 s); [| reflexivity]. now destruct s.
  - destruct (stepShown 1 s); [| reflexivity]. now destruct s.
  - destruct (stepShown 1 s); [| reflexivity]. now destruct s.
  - destruct (stepShown 1 s); [| reflexivity]. now destruct s.
  - destruct (stepShown 1 s); [| reflexivity]. now destruct s.
  - destruct (stepShown 2 s); [| reflexivity]. now destruct s.
  - destruct (stepShown 3 s); [| reflexivity]. now destruct s.
  - destruct (stepShown 3 s); [| reflexivity]. now destruct s.
  - destruct (stepShown 4 s); [| reflexivity]. now destruct s.
  - destruct (stepShown 5 s); [| reflexivity]. now destruct s.
  - destruct (stepShown 6 s); [| reflexivity]. now destruct s.
  - destruct (stepShown 6 s); [| reflexivity]. now destruct s.
  - destruct (stepShown 6 s); [| reflexivity].
    unfold addNewSubsection. destruct (_ !! _); cbn [default fst]; [| reflexivity].
    apply writeSubsections_fields.
  - destruct (stepShown 6 s); [| reflexivity].
    unfold deleteSubsection. destruct (_ !! _); cbn [default fst]; [| reflexivity].
    apply writeSubsections_fields.
  - destruct (stepShown 6 s); [| reflexivity].
    unfold editSectionTitle. now destruct s, (_ !! _).
  - destruct (stepShown 6 s); [| reflexivity].
    unfold editSubsection. destruct (_ !! _) as [sec |]; cbn [default fst]; [| reflexivity].
    destruct (_ !! _); cbn [default fst]; [| reflexivity].
    apply writeSubsections_fields.
  - destruct (stepShown _ s); [| reflexivity]. now destruct kind, extracted, s.
  - destruct (jobId s) as [job |]; [| reflexivity].
    destruct (_ && _); [| reflexivity]. apply pollJobStatus_flag.
  - destruct (essayJobId s) as [job |]; [| reflexivity].
    destruct (_ && _); [| reflexivity]. apply pollEssayStatus_flag.
Qed.

(** X25.  The wizard decides [insufficientCredits] once, when the credits
    fetched at mount arrive; nothing that happens afterwards writes it.
    The balance fetched again after an outline job only updates
    [userCredits]: so once the mount has found two credits or more, a
    later balance that is positive never brings up the purchase overlay,
    even when it is below the two credits a generation costs. *)
Theorem credit_flag_is_decided_at_mount (y : Z) (events : list Event) (s : State) :
  Forall (fun ev => match ev with CreditsArrive _ => False | _ => True end) events ->
  let final := (run y events s).1 in
  insufficientCredits final = insufficientCredits s
  /\ (insufficientCredits s = false ->
      forall credits, userCredits final = Some credits -> (0 < credits)%Z ->
      creditsOverlayShown final = false).
Proof.
  intros Hevents. cbn zeta.
  assert (Hflag : insufficientCredits (run y events s).1 = insufficientCredits s).
  { rewrite run_hooks. change s with (hooks (mounted s)) at 2.
    generalize (mounted s). clear s.
    induction Hevents as [| ev rest Hev _ IH]; intros w; [reflexivity |].
    cbn [runWizard]. pose proof (dispatch_flag y ev (shared w) (hooks w) Hev) as Hd.
    destruct (dispatch_hooks y ev w) as [Hh _]. rewrite <- Hh in Hd.
    destruct (dispatch y ev w) as [w1 calls1]. specialize (IH w1).
    destruct (runWizard y rest w1) as [w2 calls2]. cbn [fst] in *. congruence. }
  split; [exact Hflag |].
  intros Hs credits Hc Hpos. unfold creditsOverlayShown.
  rewrite Hflag, Hs, Hc.
  destruct (Z.leb_spec credits 0); [lia |]. cbn. apply andb_false_r.
Qed.

Lemma credit_flag_is_decided_at_mount_witness :
  let events :=
    [ TypeTopic "The economic history of the transatlantic telegraph";
      TypeStudentName "Ada Lovelace";
      TypeProfessorName "Charles Babbage";
      TypeClassName "HIST 101";
      ClickNext anyResponse; ClickNext anyResponse;
      SelectWritingStyle "academic";
      ClickNext anyResponse; ClickNext anyResponse;
      ClickProceed (Js.Resolved guardrailResponse) (Js.Resolved 1%Z);
      ClickStartOver ] in
  let mounted := (fetchCredits (Js.Resolved 3%Z) initialState).1 in
  let final := (run 2024 events mounted).1 in
  currentStep final = 1%Z
  /\ userCredits final = Some 1%Z
  /\ creditsOverlayShown final = false
  /\ creditsOverlayShown (fetchCredits (Js.Resolved 1%Z) initialState).1 = true.
Proof.
  cbn zeta.
  split; [vm_compute; reflexivity |].
  split; [vm_compute; reflexivity |].
  split; [| vm_compute; reflexivity].
  apply (proj2 (credit_flag_is_decided_at_mount 2024
    [ TypeTopic "The economic history of the transatlantic telegraph";
      TypeStudentName "Ada Lovelace";
      TypeProfessorName "Charles Babbage";
      TypeClassName "HIST 101";
      ClickNext anyResponse; ClickNext anyResponse;
      SelectWritingStyle "academic";
      ClickNext anyResponse; ClickNext anyResponse;
      ClickProceed (Js.Resolved guardrailResponse) (Js.Resolved 1%Z);
      ClickStartOver ]
    (fetchCredits (Js.Resolved 3%Z) initialState).1
    ltac:(repeat constructor)) eq_refl 1%Z); [vm_compute; reflexivity | lia].
Defined.

End CreditFlagFacts.
